(** * EduStack backend: enrollment, progress, payment, review and profile routes

    A shallow embedding of the Express/Prisma route handlers of the
    backend (routes/enrollments.js, routes/payments.js, routes/reviews.js,
    routes/auth.js and middleware/auth.js, with the gate of
    routes/categories.js and the roles of prisma/seed.js) and the
    properties they have.

    Modelling conventions.
    - A Prisma model is a record; a table is a finite map from the
      model's unique key (the one the code looks rows up by:
      [studentId_courseId], [studentId_lessonId], [stripePaymentId],
      [userId], [id]) to its rows.  The key columns live in the map key.
    - JavaScript numbers that hold money, percentages and averages are
      exact rationals ([Q]); counters are integers ([Z]).  The rounding
      of IEEE doubles is outside the model.
    - A handler is a computation in a state-and-exception monad over the
      database.  An exception leaves the database as it was when the
      exception was raised, except inside [transaction], which restores
      the database of its entry.
    - Every database write may also fail for a reason outside the program
      (lost connection, timeout): the world carries the schedule of such
      failures, one flag per write still to come.
    - The clock, the id generator, the random source and the JWT library
      are inputs ([Env]); so are the Stripe SDK, bcrypt, the signing of
      tokens and the rounding of a price to cents where a route calls
      them.
    - The Prisma schema is read off the queries: the compound keys they
      name, the one-to-one relation from an enrollment to its
      certificate, the columns they read and write.  [price] is a
      JavaScript number, as [course.price === 0] takes it to be.
    - Socket.IO notifications and console output change no state and are
      left out. *)

From Stdlib Require Import QArith Qround Ascii.
From stdpp Require Import gmap strings list fin_maps pretty.

Local Open Scope Z_scope.
Local Open Scope string_scope.

Abbreviation Id := string.

(** ** Prisma models *)

Module CourseStatus.
Inductive t := DRAFT | UNDER_REVIEW | APPROVED | PUBLISHED | SUSPENDED | ARCHIVED.
Definition eqb (a b : t) : bool :=
  match a, b with
  | DRAFT, DRAFT | UNDER_REVIEW, UNDER_REVIEW | APPROVED, APPROVED
  | PUBLISHED, PUBLISHED | SUSPENDED, SUSPENDED | ARCHIVED, ARCHIVED => true
  | _, _ => false
  end.
End CourseStatus.

Module EnrollmentStatus.
(** The handlers only name ACTIVE and COMPLETED; any other value of the
    enum is carried by name. *)
Inductive t := ACTIVE | COMPLETED | Other (name : string).
Definition isCompleted (a : t) : bool :=
  match a with COMPLETED => true | _ => false end.
End EnrollmentStatus.

Module PaymentStatus.
Inductive t := PENDING | COMPLETED | FAILED.
End PaymentStatus.

Module Role.
Record t := mk { name : string; permissions : list string }.
End Role.

Module User.
(** [roles] and [permissions] hold what the [include] of the queries
    joins in from the role and permission tables. *)
Record t := mk {
  email : string;
  username : string;
  firstName : string;
  lastName : string;
  avatar : option string;
  bio : option string;
  password : string;
  isActive : bool;
  isVerified : bool;
  roles : list Role.t;
  permissions : list string
}.
Definition with_password (p : string) (u : t) : t :=
  mk (email u) (username u) (firstName u) (lastName u) (avatar u) (bio u)
     p (isActive u) (isVerified u) (roles u) (permissions u).
End User.

Module Student.
Record t := mk { id : Id; totalCoursesEnrolled : Z; totalCoursesCompleted : Z }.
End Student.

Module Tutor.
Record t := mk { userId : Id; totalStudents : Z; totalEarnings : Q; totalReviews : Z }.
End Tutor.

Module Admin.
Record t := mk { id : Id; level : string }.
End Admin.

Module Course.
Record t := mk {
  title : string;
  tutorId : Id;
  price : Q;
  currency : string;
  isPublished : bool;
  status : CourseStatus.t;
  totalEnrollments : Z;
  totalRevenue : Q;
  averageRating : Q;
  totalReviews : Z
}.
End Course.

Module CourseSection.
Record t := mk { courseId : Id; isActive : bool }.
End CourseSection.

Module Lesson.
Record t := mk { sectionId : Id; isActive : bool }.
End Lesson.

Module Enrollment.
Record t := mk {
  id : Id;
  status : EnrollmentStatus.t;
  progress : Q;
  enrolledAt : Z;
  lastAccessedAt : option Z;
  completedAt : option Z
}.
End Enrollment.

Module Progress.
Record t := mk {
  enrollmentId : Id;
  timeSpent : Z;
  lastPosition : Z;
  isCompleted : bool;
  completedAt : option Z
}.
End Progress.

Module Certificate.
Record t := mk { studentId : Id; courseId : Id; certificateNumber : string }.
End Certificate.

Module Payment.
Record t := mk {
  userId : Id;
  courseId : Id;
  amount : Q;
  status : PaymentStatus.t;
  paidAt : option Z;
  failedAt : option Z
}.
End Payment.

Module Review.
Record t := mk {
  rating : Z;
  title : option string;
  content : option string;
  isPublished : bool;
  isVerified : bool
}.
End Review.

(** ** The database *)

Record DB := mkDB {
  users : gmap Id User.t;                     (* key: id *)
  students : gmap Id Student.t;               (* key: userId *)
  tutors : gmap Id Tutor.t;                   (* key: id *)
  admins : gmap Id Admin.t;                   (* key: userId *)
  courses : gmap Id Course.t;                 (* key: id *)
  sections : gmap Id CourseSection.t;         (* key: id *)
  lessons : gmap Id Lesson.t;                 (* key: id *)
  enrollments : gmap (Id * Id) Enrollment.t;  (* key: studentId_courseId *)
  progress : gmap (Id * Id) Progress.t;       (* key: studentId_lessonId *)
  certificates : gmap Id Certificate.t;       (* key: enrollmentId, one per enrollment *)
  payments : gmap Id Payment.t;               (* key: stripePaymentId *)
  reviews : gmap (Id * Id) Review.t           (* key: studentId_courseId *)
}.

Definition set_users v d := mkDB v (students d) (tutors d) (admins d) (courses d) (sections d) (lessons d) (enrollments d) (progress d) (certificates d) (payments d) (reviews d).
Definition set_students v d := mkDB (users d) v (tutors d) (admins d) (courses d) (sections d) (lessons d) (enrollments d) (progress d) (certificates d) (payments d) (reviews d).
Definition set_tutors v d := mkDB (users d) (students d) v (admins d) (courses d) (sections d) (lessons d) (enrollments d) (progress d) (certificates d) (payments d) (reviews d).
Definition set_courses v d := mkDB (users d) (students d) (tutors d) (admins d) v (sections d) (lessons d) (enrollments d) (progress d) (certificates d) (payments d) (reviews d).
Definition set_enrollments v d := mkDB (users d) (students d) (tutors d) (admins d) (courses d) (sections d) (lessons d) v (progress d) (certificates d) (payments d) (reviews d).
Definition set_progress v d := mkDB (users d) (students d) (tutors d) (admins d) (courses d) (sections d) (lessons d) (enrollments d) v (certificates d) (payments d) (reviews d).
Definition set_certificates v d := mkDB (users d) (students d) (tutors d) (admins d) (courses d) (sections d) (lessons d) (enrollments d) (progress d) v (payments d) (reviews d).
Definition set_payments v d := mkDB (users d) (students d) (tutors d) (admins d) (courses d) (sections d) (lessons d) (enrollments d) (progress d) (certificates d) v (reviews d).
Definition set_reviews v d := mkDB (users d) (students d) (tutors d) (admins d) (courses d) (sections d) (lessons d) (enrollments d) (progress d) (certificates d) (payments d) v.

(** ** Worlds, exceptions and the handler monad *)

Inductive Error :=
  | ReferenceError (variable : string)   (* reading a binding before its initialisation *)
  | TypeError (what : string)            (* reading a property of undefined *)
  | RecordNotFound (model : string)      (* Prisma P2025: update or delete of a missing row *)
  | UniqueConstraint (model : string)    (* Prisma P2002 *)
  | ValidationError (what : string)      (* Prisma rejects the query arguments *)
  | ConnectionLost.                      (* the write failed outside the program *)

Record World := mkWorld {
  db : DB;
  faults : list bool   (* [true] at position n: the n-th write from now fails *)
}.

Inductive Outcome (A : Type) :=
  | Ok (a : A)
  | Throw (e : Error).
Arguments Ok {A} a.
Arguments Throw {A} e.

Definition M (A : Type) : Type := World -> Outcome A * World.

Definition ret {A} (a : A) : M A := fun w => (Ok a, w).
Definition throw {A} (e : Error) : M A := fun w => (Throw e, w).
Definition bind {A B} (m : M A) (k : A -> M B) : M B :=
  fun w => match m w with
           | (Ok a, w') => k a w'
           | (Throw e, w') => (Throw e, w')
           end.

Declare Scope handler_scope.
Delimit Scope handler_scope with handler.
Notation "x <- m ;; k" := (bind m (fun x => k))
  (at level 100, m at next level, right associativity) : handler_scope.
Notation "m ;; k" := (bind m (fun _ => k))
  (at level 100, right associativity) : handler_scope.
Local Open Scope handler_scope.

(** A query that only reads. *)
Definition query {A} (f : DB -> A) : M A := fun w => (Ok (f (db w)), w).

(** A single write statement.  It consumes one flag of the fault
    schedule; when the flag is set, or when the statement itself is
    rejected, the database is left as it was. *)
Definition write (f : DB -> Error + DB) : M unit :=
  fun w =>
    match faults w with
    | true :: fs => (Throw ConnectionLost, mkWorld (db w) fs)
    | fs0 =>
        match f (db w) with
        | inl e => (Throw e, mkWorld (db w) (tail fs0))
        | inr d => (Ok tt, mkWorld d (tail fs0))
        end
    end.

(** [prisma.$transaction(async tx => ...)]: when the callback throws,
    every write it made is rolled back. *)
Definition transaction {A} (m : M A) : M A :=
  fun w => match m w with
           | (Ok a, w') => (Ok a, w')
           | (Throw e, w') => (Throw e, mkWorld (db w) (faults w'))
           end.

(** Prisma statements on a table keyed by its unique key. *)
Section Statements.
Context {K : Type} `{Countable K} {V : Type}.

Definition create (model : string) (k : K) (v : V) (t : gmap K V) : Error + gmap K V :=
  match t !! k with
  | Some _ => inl (UniqueConstraint model)
  | None => inr (<[k := v]> t)
  end.

Definition update (model : string) (k : K) (f : V -> V) (t : gmap K V) : Error + gmap K V :=
  match t !! k with
  | Some v => inr (<[k := f v]> t)
  | None => inl (RecordNotFound model)
  end.

Definition upsert (k : K) (onUpdate : V -> V) (onCreate : V) (t : gmap K V) : gmap K V :=
  match t !! k with
  | Some v => <[k := onUpdate v]> t
  | None => <[k := onCreate]> t
  end.
End Statements.

Definition on_table {T} (get : DB -> T) (set : T -> DB -> DB)
    (stmt : T -> Error + T) (d : DB) : Error + DB :=
  match stmt (get d) with
  | inl e => inl e
  | inr t => inr (set t d)
  end.

(** ** The environment of a request *)

Record Env := mkEnv {
  jwt_verify : string -> option Id;  (* [jwt.verify(token, secret).userId]; [None] when it throws *)
  now : Z;                           (* [new Date()], [Date.now()] *)
  cuid : Id;                         (* the id the database gives the next created row *)
  random36 : string                  (* [Math.random().toString(36).substring(2, 8).toUpperCase()] *)
}.

(** ** Requests, responses and the middleware chain *)

Record ProgressBody := mkProgressBody {
  timeSpent : option Z;
  lastPosition : option Z;
  isCompleted : option bool
}.

Record ReviewBody := mkReviewBody {
  rating : option Z;
  title : option string;
  content : option string
}.

Record Request := mkRequest {
  authorization : option string;            (* the Authorization header *)
  courseId : Id;                            (* req.params.courseId *)
  lessonId : Id;                            (* req.params.lessonId *)
  page : option Z;                          (* req.query.page *)
  limit : option Z;                         (* req.query.limit *)
  statusQuery : option EnrollmentStatus.t;  (* req.query.status *)
  progressBody : ProgressBody;              (* req.body of the progress route *)
  reviewBody : ReviewBody                   (* req.body of the review routes *)
}.

(** [req.user] as the [auth] middleware builds it. *)
Module AuthUser.
Record t := mk {
  id : Id;
  account : User.t;
  permissions : list string;
  studentProfile : option Student.t;
  tutorProfile : option Tutor.t;
  adminProfile : option Admin.t
}.
End AuthUser.

Record Ctx := mkCtx { req : Request; user : option AuthUser.t }.

(** JSON values, for the response bodies that are modelled in full. *)
#[local] Set Warnings "-register-all".
Inductive Json :=
  | JNull
  | JBool (b : bool)
  | JNumber (q : Q)
  | JString (s : string)
  | JArray (items : list Json)
  | JObject (members : list (string * Json)).

(** The JSON envelope [{ success, message, data }] with its status code.
    A body without [message] has the empty message.  [data] is modelled
    for GET /api/auth/me; in the enrollment, payment and review responses
    it is left out of the model ([None]). *)
Record Response := mkDataResponse {
  status : nat;
  success : bool;
  message : string;
  data : option Json
}.

Definition mkResponse (status : nat) (success : bool) (message : string) : Response :=
  mkDataResponse status success message None.

(** What Express sees at the end of a route: a response was sent, or an
    error was handed to [next]. *)
Inductive Reply :=
  | Sent (r : Response)
  | NextError (e : Error).

Definition Middleware := Ctx -> M (Response + Ctx).
Definition Handler := Ctx -> M Response.

Record Route := mkRoute { middlewares : list Middleware; handler : Handler }.

Fixpoint run_middlewares (ms : list Middleware) (h : Handler) (ctx : Ctx) : M Response :=
  match ms with
  | [] => h ctx
  | m :: ms' =>
      r <- m ctx ;;
      match r with
      | inl response => ret response
      | inr ctx' => run_middlewares ms' h ctx'
      end
  end.

Definition run_route (r : Route) (request : Request) (w : World) : Reply * World :=
  match run_middlewares (middlewares r) (handler r) (mkCtx request None) w with
  | (Ok response, w') => (Sent response, w')
  | (Throw e, w') => (NextError e, w')
  end.

Definition with_handler (h : Handler) (r : Route) : Route := mkRoute (middlewares r) h.

(** [req.user.id]: a [TypeError] when no middleware has set [req.user]. *)
Definition req_user (ctx : Ctx) : M AuthUser.t :=
  match user ctx with
  | Some u => ret u
  | None => throw (TypeError "req.user")
  end.

(** ** middleware/auth.js *)

(** [header.replace('Bearer ', '')]: the first occurrence is removed. *)
Fixpoint replace_first (pat s : string) : string :=
  if String.prefix pat s then String.substring (String.length pat) (String.length s) s
  else match s with
       | EmptyString => EmptyString
       | String c s' => String c (replace_first pat s')
       end.

(** [[...new Set(l)]]: duplicates removed, first occurrences kept in order. *)
Fixpoint dedup (seen l : list string) : list string :=
  match l with
  | [] => []
  | x :: l' => if bool_decide (x ∈ seen) then dedup seen l' else x :: dedup (x :: seen) l'
  end.

Definition tutor_of_user (d : DB) (uid : Id) : option Tutor.t :=
  snd <$> head (filter (fun kv => Tutor.userId kv.2 = uid) (map_to_list (tutors d))).

Definition auth (env : Env) : Middleware := fun ctx =>
  match authorization (req ctx) with
  | None => ret (inl (mkResponse 401 false "No token provided, authorization denied"))
  | Some header =>
      let token := replace_first "Bearer " header in
      if bool_decide (token = "")
      then ret (inl (mkResponse 401 false "No token provided, authorization denied"))
      else
        match jwt_verify env token with
        | None => ret (inl (mkResponse 401 false "Token is not valid"))
        | Some userId =>
            found <- query (fun d => users d !! userId) ;;
            match found with
            | None => ret (inl (mkResponse 401 false "Token is not valid or user is inactive"))
            | Some u =>
                if negb (User.isActive u)
                then ret (inl (mkResponse 401 false "Token is not valid or user is inactive"))
                else
                  student <- query (fun d => students d !! userId) ;;
                  tutor <- query (fun d => tutor_of_user d userId) ;;
                  admin <- query (fun d => admins d !! userId) ;;
                  let rolePermissions := flat_map Role.permissions (User.roles u) in
                  let userPermissions := User.permissions u in
                  ret (inr (mkCtx (req ctx)
                              (Some (AuthUser.mk userId u
                                       (dedup [] (rolePermissions ++ userPermissions))
                                       student tutor admin))))
            end
        end
  end.

Definition isStudent : Middleware := fun ctx =>
  match user ctx with
  | None => ret (inl (mkResponse 403 false "Student access required"))
  | Some u =>
      match AuthUser.studentProfile u with
      | None => ret (inl (mkResponse 403 false "Student access required"))
      | Some _ => ret (inr ctx)
      end
  end.

Definition isTutor : Middleware := fun ctx =>
  match user ctx with
  | None => ret (inl (mkResponse 403 false "Tutor access required"))
  | Some u =>
      match AuthUser.tutorProfile u with
      | None => ret (inl (mkResponse 403 false "Tutor access required"))
      | Some _ => ret (inr ctx)
      end
  end.

Definition isAdmin : Middleware := fun ctx =>
  match user ctx with
  | None => ret (inl (mkResponse 403 false "Admin access required"))
  | Some u =>
      match AuthUser.adminProfile u with
      | None => ret (inl (mkResponse 403 false "Admin access required"))
      | Some _ => ret (inr ctx)
      end
  end.

(** ** JavaScript values the handlers branch on *)

(** [x || undefined] on a number: [0] and a missing member are falsy. *)
Definition truthy_number (x : option Z) : option Z :=
  match x with
  | Some 0 => None
  | other => other
  end.

(** Truthiness of a boolean member that may be missing. *)
Definition truthy_bool (x : option bool) : bool :=
  match x with
  | Some true => true
  | _ => false
  end.

(** A [const] binding: between the start of its block and the end of its
    own initialiser it is uninitialised, and reading it throws. *)
Inductive Binding (A : Type) :=
  | Uninitialized
  | Initialized (a : A).
Arguments Uninitialized {A}.
Arguments Initialized {A} a.

Definition read_binding {A} (name : string) (b : Binding A) : M A :=
  match b with
  | Uninitialized => throw (ReferenceError name)
  | Initialized a => ret a
  end.

(** ** routes/enrollments.js *)

Module Enrollments.

(** [course.findUnique({ where: { id, isPublished: true, status: 'PUBLISHED' } })] *)
Definition findPublishedCourse (d : DB) (courseId : Id) : option Course.t :=
  match courses d !! courseId with
  | Some c =>
      if Course.isPublished c && CourseStatus.eqb (Course.status c) CourseStatus.PUBLISHED
      then Some c else None
  | None => None
  end.

(** Column defaults of a created enrollment: progress 0, enrolled now. *)
Definition newEnrollment (env : Env) : Enrollment.t :=
  Enrollment.mk (cuid env) EnrollmentStatus.ACTIVE 0%Q (now env) None None.

Definition incrementTotalEnrollments (by_ : Z) (c : Course.t) : Course.t :=
  Course.mk (Course.title c) (Course.tutorId c) (Course.price c) (Course.currency c)
    (Course.isPublished c) (Course.status c) (Course.totalEnrollments c + by_)
    (Course.totalRevenue c) (Course.averageRating c) (Course.totalReviews c).

Definition incrementTotalStudents (t : Tutor.t) : Tutor.t :=
  Tutor.mk (Tutor.userId t) (Tutor.totalStudents t + 1) (Tutor.totalEarnings t)
    (Tutor.totalReviews t).

Definition incrementTotalCoursesEnrolled (by_ : Z) (s : Student.t) : Student.t :=
  Student.mk (Student.id s) (Student.totalCoursesEnrolled s + by_)
    (Student.totalCoursesCompleted s).

Definition incrementTotalCoursesCompleted (s : Student.t) : Student.t :=
  Student.mk (Student.id s) (Student.totalCoursesEnrolled s)
    (Student.totalCoursesCompleted s + 1).

(** POST /api/enrollments/:courseId *)
Definition enroll (env : Env) : Handler := fun ctx =>
  let courseId := courseId (req ctx) in
  u <- req_user ctx ;;
  let studentId := AuthUser.id u in
  course <- query (fun d => findPublishedCourse d courseId) ;;
  match course with
  | None => ret (mkResponse 404 false "Course not found or not available for enrollment")
  | Some course =>
      existingEnrollment <- query (fun d => enrollments d !! (studentId, courseId)) ;;
      match existingEnrollment with
      | Some _ => ret (mkResponse 400 false "Already enrolled in this course")
      | None =>
          if Qeq_bool (Course.price course) 0
          then
            write (on_table enrollments set_enrollments
                     (create "Enrollment" (studentId, courseId) (newEnrollment env))) ;;
            write (on_table courses set_courses
                     (update "Course" courseId (incrementTotalEnrollments 1))) ;;
            write (on_table tutors set_tutors
                     (update "Tutor" (Course.tutorId course) incrementTotalStudents)) ;;
            write (on_table students set_students
                     (update "Student" studentId (incrementTotalCoursesEnrolled 1))) ;;
            ret (mkResponse 201 true "Successfully enrolled in course")
          else ret (mkResponse 402 false "Payment required for this course")
      end
  end.

(** GET /api/enrollments, for numeric [page] and [limit].  Prisma rejects
    a negative [skip]; the page of enrollments it returns otherwise is
    part of [data]. *)
Definition listEnrollments : Handler := fun ctx =>
  let page := default 1 (page (req ctx)) in
  let limit := default 10 (limit (req ctx)) in
  _ <- req_user ctx ;;
  let skip := (page - 1) * limit in
  if (skip <? 0)%Z then throw (ValidationError "skip")
  else ret (mkResponse 200 true "").

(** GET /api/enrollments/:courseId *)
Definition getEnrollment : Handler := fun ctx =>
  let courseId := courseId (req ctx) in
  u <- req_user ctx ;;
  enrollment <- query (fun d => enrollments d !! (AuthUser.id u, courseId)) ;;
  match enrollment with
  | None => ret (mkResponse 404 false "Enrollment not found")
  | Some _ => ret (mkResponse 200 true "")
  end.

(** [section: { courseId }] on a lesson: the lesson's section is a
    section of the course. *)
Definition lessonInCourse (d : DB) (courseId : Id) (l : Lesson.t) : bool :=
  match sections d !! Lesson.sectionId l with
  | Some s => bool_decide (CourseSection.courseId s = courseId)
  | None => false
  end.

(** [section: { courseId, isActive: true }, isActive: true] on a lesson. *)
Definition activeLessonInCourse (d : DB) (courseId : Id) (l : Lesson.t) : bool :=
  match sections d !! Lesson.sectionId l with
  | Some s =>
      bool_decide (CourseSection.courseId s = courseId)
      && CourseSection.isActive s && Lesson.isActive l
  | None => false
  end.

(** [lesson.findFirst({ where: { id: lessonId, section: { courseId } } })] *)
Definition findLessonOfCourse (d : DB) (lessonId courseId : Id) : option Lesson.t :=
  match lessons d !! lessonId with
  | Some l => if lessonInCourse d courseId l then Some l else None
  | None => None
  end.

(** [lesson.count({ where: { section: { courseId, isActive: true }, isActive: true } })] *)
Definition countTotalLessons (d : DB) (courseId : Id) : nat :=
  length (filter (fun kv => activeLessonInCourse d courseId kv.2 = true)
            (map_to_list (lessons d))).

(** The [where] of the completed count:
    [{ studentId, isCompleted: true, lesson: { section: { courseId } } }] *)
Definition completedInCourse (d : DB) (studentId courseId : Id)
    (kv : Id * Id * Progress.t) : bool :=
  bool_decide (kv.1.1 = studentId)
  && Progress.isCompleted kv.2
  && match lessons d !! kv.1.2 with
     | Some l => lessonInCourse d courseId l
     | None => false
     end.

Definition countCompletedLessons (d : DB) (studentId courseId : Id) : nat :=
  length (filter (fun kv => completedInCourse d studentId courseId kv = true)
            (map_to_list (progress d))).

(** [totalLessons > 0 ? (completedLessons / totalLessons) * 100 : 0] *)
Definition courseProgressOf (completedLessons totalLessons : nat) : Q :=
  if (0 <? totalLessons)%nat
  then ((inject_Z (Z.of_nat completedLessons) / inject_Z (Z.of_nat totalLessons)) * 100)%Q
  else 0%Q.

(** The [update] member of the upsert.  It is evaluated while the
    binding [progress], which the same statement declares, is still
    uninitialised. *)
Definition progressUpdate (env : Env) (body : ProgressBody)
    (progressBinding : Binding (option Progress.t)) : M (Progress.t -> Progress.t) :=
  setCompletedAt <-
    (if truthy_bool (isCompleted body)
     then
       p <- read_binding "progress" progressBinding ;;
       ret (negb (bool_decide (is_Some (p ≫= Progress.completedAt))))
     else ret false) ;;
  ret (fun row =>
         Progress.mk (Progress.enrollmentId row)
           (default (Progress.timeSpent row) (truthy_number (timeSpent body)))
           (default (Progress.lastPosition row) (truthy_number (lastPosition body)))
           (if truthy_bool (isCompleted body) then true else Progress.isCompleted row)
           (if setCompletedAt then Some (now env) else Progress.completedAt row)).

(** The [create] member of the upsert. *)
Definition progressCreate (env : Env) (body : ProgressBody) (enrollment : Enrollment.t)
    : Progress.t :=
  Progress.mk (Enrollment.id enrollment)
    (default 0 (truthy_number (timeSpent body)))
    (default 0 (truthy_number (lastPosition body)))
    (truthy_bool (isCompleted body))
    (if truthy_bool (isCompleted body) then Some (now env) else None).

(** [courseProgress === 100 && enrollment.status !== 'COMPLETED'] *)
Definition justCompleted (courseProgress : Q) (enrollment : Enrollment.t) : bool :=
  Qeq_bool courseProgress 100
  && negb (EnrollmentStatus.isCompleted (Enrollment.status enrollment)).

(** The [data] of the enrollment update.  [enrollment] is the row read
    at the start of the handler. *)
Definition enrollmentProgressUpdate (env : Env) (courseProgress : Q)
    (enrollment : Enrollment.t) (row : Enrollment.t) : Enrollment.t :=
  Enrollment.mk (Enrollment.id row)
    (if justCompleted courseProgress enrollment
     then EnrollmentStatus.COMPLETED else Enrollment.status row)
    courseProgress
    (Enrollment.enrolledAt row)
    (Some (now env))
    (if justCompleted courseProgress enrollment
     then Some (now env) else Enrollment.completedAt row).

(** [`CERT-${Date.now()}-${Math.random()...}`] *)
Definition certificateNumberOf (env : Env) : string :=
  "CERT-" +:+ pretty (now env) +:+ "-" +:+ random36 env.

(** PUT /api/enrollments/:courseId/progress/:lessonId *)
Definition updateProgress (env : Env) : Handler := fun ctx =>
  let courseId := courseId (req ctx) in
  let lessonId := lessonId (req ctx) in
  let body := progressBody (req ctx) in
  u <- req_user ctx ;;
  let studentId := AuthUser.id u in
  enrollment <- query (fun d => enrollments d !! (studentId, courseId)) ;;
  match enrollment with
  | None => ret (mkResponse 404 false "Enrollment not found")
  | Some enrollment =>
      lesson <- query (fun d => findLessonOfCourse d lessonId courseId) ;;
      match lesson with
      | None => ret (mkResponse 404 false "Lesson not found")
      | Some _ =>
          onUpdate <- progressUpdate env body Uninitialized ;;
          let onCreate := progressCreate env body enrollment in
          write (on_table progress set_progress
                   (fun t => inr (upsert (studentId, lessonId) onUpdate onCreate t))) ;;
          totalLessons <- query (fun d => countTotalLessons d courseId) ;;
          completedLessons <- query (fun d => countCompletedLessons d studentId courseId) ;;
          let courseProgress := courseProgressOf completedLessons totalLessons in
          write (on_table enrollments set_enrollments
                   (update "Enrollment" (studentId, courseId)
                      (enrollmentProgressUpdate env courseProgress enrollment))) ;;
          (if justCompleted courseProgress enrollment
           then
             write (on_table students set_students
                      (update "Student" studentId incrementTotalCoursesCompleted)) ;;
             write (on_table certificates set_certificates
                      (create "Certificate" (Enrollment.id enrollment)
                         (Certificate.mk studentId courseId (certificateNumberOf env))))
           else ret tt) ;;
          ret (mkResponse 200 true "Progress updated successfully")
      end
  end.

(** [progress.deleteMany({ where: { enrollmentId } })] *)
Definition deleteProgressOf (enrollmentId : Id) (t : gmap (Id * Id) Progress.t)
    : gmap (Id * Id) Progress.t :=
  filter (fun kv => Progress.enrollmentId kv.2 ≠ enrollmentId) t.

(** [enrollment.delete({ where: { id } })] *)
Definition deleteEnrollment (enrollmentId : Id) (t : gmap (Id * Id) Enrollment.t)
    : Error + gmap (Id * Id) Enrollment.t :=
  if bool_decide (Exists (fun kv => Enrollment.id kv.2 = enrollmentId) (map_to_list t))
  then inr (filter (fun kv => Enrollment.id kv.2 ≠ enrollmentId) t)
  else inl (RecordNotFound "Enrollment").

(** The callback of the transaction of the unenroll route. *)
Definition unenrollWrites (studentId courseId : Id) (enrollment : Enrollment.t) : M unit :=
  write (on_table progress set_progress
           (fun t => inr (deleteProgressOf (Enrollment.id enrollment) t))) ;;
  write (on_table enrollments set_enrollments
           (deleteEnrollment (Enrollment.id enrollment))) ;;
  write (on_table courses set_courses
           (update "Course" courseId (incrementTotalEnrollments (-1)))) ;;
  write (on_table students set_students
           (update "Student" studentId (incrementTotalCoursesEnrolled (-1)))).

(** DELETE /api/enrollments/:courseId *)
Definition unenroll : Handler := fun ctx =>
  let courseId := courseId (req ctx) in
  u <- req_user ctx ;;
  let studentId := AuthUser.id u in
  enrollment <- query (fun d => enrollments d !! (studentId, courseId)) ;;
  match enrollment with
  | None => ret (mkResponse 404 false "Enrollment not found")
  | Some enrollment =>
      if EnrollmentStatus.isCompleted (Enrollment.status enrollment)
      then ret (mkResponse 400 false "Cannot unenroll from completed course")
      else
        transaction (unenrollWrites studentId courseId enrollment) ;;
        ret (mkResponse 200 true "Successfully unenrolled from course")
  end.

(** The five routes of the router, each behind [auth] and [isStudent]. *)
Definition postEnroll (env : Env) : Route := mkRoute [auth env; isStudent] (enroll env).
Definition getList (env : Env) : Route := mkRoute [auth env; isStudent] listEnrollments.
Definition getOne (env : Env) : Route := mkRoute [auth env; isStudent] getEnrollment.
Definition putProgress (env : Env) : Route := mkRoute [auth env; isStudent] (updateProgress env).
Definition deleteUnenroll (env : Env) : Route := mkRoute [auth env; isStudent] unenroll.

Definition router (env : Env) : list Route :=
  [postEnroll env; getList env; getOne env; putProgress env; deleteUnenroll env].

End Enrollments.

(** ** routes/payments.js *)

Module Payments.

(** The members of a Stripe payment intent the webhook reads. *)
Record PaymentIntent := mkPaymentIntent {
  id : Id;
  amount : Z;          (* in cents *)
  courseId : Id;       (* metadata.courseId *)
  studentId : Id;      (* metadata.studentId *)
  tutorId : Id         (* metadata.tutorId *)
}.

(** The events [stripe.webhooks.constructEvent] may return.  [unreadable]
    is an event of a handled type that lacks what the handler reads
    before any inner [try]: a payment_intent.succeeded event whose
    [data.object] has no [metadata], or an event without [data]. *)
Inductive Event :=
  | payment_intent_succeeded (paymentIntent : PaymentIntent)
  | payment_intent_payment_failed (paymentIntent : PaymentIntent)
  | unhandled (type : string)
  | unreadable.

(** What the webhook route sends: [res.status(s).send(text)] or
    [res.status(s).json(body)]. *)
Inductive Answer :=
  | text (status : nat) (body : string)
  | json (status : nat) (body : Json).

(** [paymentIntent.amount / 100] *)
Definition paidAmount (paymentIntent : PaymentIntent) : Q :=
  (inject_Z (amount paymentIntent) / 100)%Q.

(** [paymentIntent.amount / 100 * 0.85] *)
Definition tutorShare (paymentIntent : PaymentIntent) : Q :=
  (inject_Z (amount paymentIntent) / 100 * (85 # 100))%Q.

Definition markPaid (env : Env) (p : Payment.t) : Payment.t :=
  Payment.mk (Payment.userId p) (Payment.courseId p) (Payment.amount p)
    PaymentStatus.COMPLETED (Some (now env)) (Payment.failedAt p).

Definition markFailed (env : Env) (p : Payment.t) : Payment.t :=
  Payment.mk (Payment.userId p) (Payment.courseId p) (Payment.amount p)
    PaymentStatus.FAILED (Payment.paidAt p) (Some (now env)).

Definition recordSale (paymentIntent : PaymentIntent) (c : Course.t) : Course.t :=
  Course.mk (Course.title c) (Course.tutorId c) (Course.price c) (Course.currency c)
    (Course.isPublished c) (Course.status c) (Course.totalEnrollments c + 1)
    (Course.totalRevenue c + paidAmount paymentIntent)%Q
    (Course.averageRating c) (Course.totalReviews c).

Definition recordEarnings (paymentIntent : PaymentIntent) (t : Tutor.t) : Tutor.t :=
  Tutor.mk (Tutor.userId t) (Tutor.totalStudents t + 1)
    (Tutor.totalEarnings t + tutorShare paymentIntent)%Q (Tutor.totalReviews t).

(** [try { ... } catch (error) { console.error(...) }] *)
Definition catch_and_log (m : M unit) : M unit :=
  fun w => match m w with
           | (Ok _, w') => (Ok tt, w')
           | (Throw _, w') => (Ok tt, w')
           end.

(** The callback of the transaction of [handlePaymentSuccess]. *)
Definition paymentSuccessWrites (env : Env) (paymentIntent : PaymentIntent) : M unit :=
  write (on_table payments set_payments
           (update "Payment" (id paymentIntent) (markPaid env))) ;;
  write (on_table enrollments set_enrollments
           (create "Enrollment" (studentId paymentIntent, courseId paymentIntent)
              (Enrollments.newEnrollment env))) ;;
  write (on_table courses set_courses
           (update "Course" (courseId paymentIntent) (recordSale paymentIntent))) ;;
  write (on_table tutors set_tutors
           (update "Tutor" (tutorId paymentIntent) (recordEarnings paymentIntent))) ;;
  write (on_table students set_students
           (update "Student" (studentId paymentIntent)
              (Enrollments.incrementTotalCoursesEnrolled 1))).

Definition handlePaymentSuccess (env : Env) (paymentIntent : PaymentIntent) : M unit :=
  catch_and_log (transaction (paymentSuccessWrites env paymentIntent)).

Definition handlePaymentFailure (env : Env) (paymentIntent : PaymentIntent) : M unit :=
  catch_and_log
    (write (on_table payments set_payments
              (update "Payment" (id paymentIntent) (markFailed env)))).

(** [try { ... } catch (error) { ... }] with a handler that answers. *)
Definition try_catch {A} (m : M A) (handler : Error -> M A) : M A :=
  fun w => match m w with
           | (Ok a, w') => (Ok a, w')
           | (Throw e, w') => handler e w'
           end.

(** The [switch (event.type)] of the route.  [handlePaymentSuccess]
    destructures [paymentIntent.metadata] before its [try]. *)
Definition dispatch (env : Env) (event : Event) : M unit :=
  match event with
  | payment_intent_succeeded paymentIntent => handlePaymentSuccess env paymentIntent
  | payment_intent_payment_failed paymentIntent => handlePaymentFailure env paymentIntent
  | unhandled _ => ret tt
  | unreadable => throw (TypeError "paymentIntent.metadata")
  end.

(** POST /api/payments/webhook.  [constructed] is what
    [stripe.webhooks.constructEvent] does with the body and the signature:
    it returns the event, or throws an error with a message. *)
Definition webhook (env : Env) (constructed : string + Event) : M Answer :=
  try_catch
    (match constructed with
     | inl message => ret (text 400 ("Webhook Error: " +:+ message))
     | inr event =>
         dispatch env event ;;
         ret (json 200 (JObject [("received", JBool true)]))
     end)
    (fun _ =>
       ret (json 500 (JObject [("success", JBool false);
                               ("message", JString "Webhook error")]))).

End Payments.

(** ** routes/reviews.js *)

Module Reviews.

(** [validate(schemas.createReview)] and [validate(schemas.updateReview)]:
    an integer rating from 1 to 5 (required on creation), a title of at
    most 200 and a content of at most 2000 characters. *)
Definition validRating (r : Z) : bool := (1 <=? r)%Z && (r <=? 5)%Z.

Definition validText (bound : nat) (t : option string) : bool :=
  match t with
  | Some s => (String.length s <=? bound)%nat
  | None => true
  end.

Definition validCreateReview (b : ReviewBody) : bool :=
  match rating b with
  | Some r => validRating r && validText 200 (title b) && validText 2000 (content b)
  | None => false
  end.

Definition validUpdateReview (b : ReviewBody) : bool :=
  match rating b with
  | Some r => validRating r
  | None => true
  end && validText 200 (title b) && validText 2000 (content b).

Definition validate (schema : ReviewBody -> bool) : Middleware := fun ctx =>
  if schema (reviewBody (req ctx))
  then ret (inr ctx)
  else ret (inl (mkResponse 400 false "Validation failed")).

(** The ratings [review.aggregate] and [review.count] range over:
    [where: { courseId, isPublished: true }]. *)
Definition publishedRatings (d : DB) (courseId : Id) : list Z :=
  (fun kv => Review.rating kv.2)
    <$> filter (fun kv : Id * Id * Review.t =>
                  kv.1.2 = courseId ∧ Review.isPublished kv.2 = true)
          (map_to_list (reviews d)).

Definition sumZ (l : list Z) : Z := foldr Z.add 0 l.

(** [_avg.rating]: [null] over no rows. *)
Definition avg (l : list Z) : option Q :=
  match l with
  | [] => None
  | _ => Some (inject_Z (sumZ l) / inject_Z (Z.of_nat (length l)))%Q
  end.

(** [x || 0] on a number or [null]. *)
Definition or_zero (x : option Q) : Q :=
  match x with
  | Some q => if Qeq_bool q 0 then 0%Q else q
  | None => 0%Q
  end.

Definition setStatistics (averageRating : Q) (totalReviews : option Z) (c : Course.t)
    : Course.t :=
  Course.mk (Course.title c) (Course.tutorId c) (Course.price c) (Course.currency c)
    (Course.isPublished c) (Course.status c) (Course.totalEnrollments c)
    (Course.totalRevenue c) averageRating (default (Course.totalReviews c) totalReviews).

Definition incrementTotalReviews (by_ : Z) (t : Tutor.t) : Tutor.t :=
  Tutor.mk (Tutor.userId t) (Tutor.totalStudents t) (Tutor.totalEarnings t)
    (Tutor.totalReviews t + by_).

(** [review.update({ data: updateData })]: the members present in the
    body replace the columns. *)
Definition applyUpdateData (b : ReviewBody) (r : Review.t) : Review.t :=
  Review.mk (default (Review.rating r) (rating b))
    (match title b with Some t => Some t | None => Review.title r end)
    (match content b with Some c => Some c | None => Review.content r end)
    (Review.isPublished r) (Review.isVerified r).

(** POST /api/reviews/:courseId *)
Definition createReview : Handler := fun ctx =>
  let courseId := courseId (req ctx) in
  let body := reviewBody (req ctx) in
  u <- req_user ctx ;;
  let studentId := AuthUser.id u in
  course <- query (fun d => courses d !! courseId) ;;
  match course with
  | None => ret (mkResponse 404 false "Course not found")
  | Some course =>
      enrollment <- query (fun d => enrollments d !! (studentId, courseId)) ;;
      match enrollment with
      | None => ret (mkResponse 403 false
                       "You must be enrolled in this course to leave a review")
      | Some enrollment =>
          existingReview <- query (fun d => reviews d !! (studentId, courseId)) ;;
          match existingReview with
          | Some _ => ret (mkResponse 400 false "You have already reviewed this course")
          | None =>
              newRating <- match rating body with
                           | Some r => ret r
                           | None => throw (ValidationError "rating")
                           end ;;
              write (on_table reviews set_reviews
                       (create "Review" (studentId, courseId)
                          (Review.mk newRating (title body) (content body) true
                             (EnrollmentStatus.isCompleted (Enrollment.status enrollment))))) ;;
              newAvgRating <- query (fun d => avg (publishedRatings d courseId)) ;;
              reviewCount <- query (fun d => length (publishedRatings d courseId)) ;;
              write (on_table courses set_courses
                       (update "Course" courseId
                          (setStatistics (or_zero newAvgRating)
                             (Some (Z.of_nat reviewCount))))) ;;
              write (on_table tutors set_tutors
                       (update "Tutor" (Course.tutorId course) (incrementTotalReviews 1))) ;;
              ret (mkResponse 201 true "Review created successfully")
          end
      end
  end.

(** PUT /api/reviews/:courseId *)
Definition updateReview : Handler := fun ctx =>
  let courseId := courseId (req ctx) in
  let updateData := reviewBody (req ctx) in
  u <- req_user ctx ;;
  let studentId := AuthUser.id u in
  existingReview <- query (fun d => reviews d !! (studentId, courseId)) ;;
  match existingReview with
  | None => ret (mkResponse 404 false "Review not found")
  | Some _ =>
      write (on_table reviews set_reviews
               (update "Review" (studentId, courseId) (applyUpdateData updateData))) ;;
      match rating updateData with
      | Some _ =>
          newAvgRating <- query (fun d => avg (publishedRatings d courseId)) ;;
          write (on_table courses set_courses
                   (update "Course" courseId (setStatistics (or_zero newAvgRating) None)))
      | None => ret tt
      end ;;
      ret (mkResponse 200 true "Review updated successfully")
  end.

(** [review.delete({ where: { studentId_courseId } })] *)
Definition deleteRow (k : Id * Id) (t : gmap (Id * Id) Review.t)
    : Error + gmap (Id * Id) Review.t :=
  match t !! k with
  | Some _ => inr (delete k t)
  | None => inl (RecordNotFound "Review")
  end.

(** DELETE /api/reviews/:courseId.  [review.course] is the course the
    [include] joins in. *)
Definition deleteReview : Handler := fun ctx =>
  let courseId := courseId (req ctx) in
  u <- req_user ctx ;;
  let studentId := AuthUser.id u in
  review <- query (fun d => reviews d !! (studentId, courseId)) ;;
  match review with
  | None => ret (mkResponse 404 false "Review not found")
  | Some _ =>
      reviewCourse <- query (fun d => courses d !! courseId) ;;
      write (on_table reviews set_reviews (deleteRow (studentId, courseId))) ;;
      newAvgRating <- query (fun d => avg (publishedRatings d courseId)) ;;
      reviewCount <- query (fun d => length (publishedRatings d courseId)) ;;
      write (on_table courses set_courses
               (update "Course" courseId
                  (setStatistics (or_zero newAvgRating) (Some (Z.of_nat reviewCount))))) ;;
      match reviewCourse with
      | Some course =>
          write (on_table tutors set_tutors
                   (update "Tutor" (Course.tutorId course) (incrementTotalReviews (-1))))
      | None => throw (TypeError "review.course")
      end ;;
      ret (mkResponse 200 true "Review deleted successfully")
  end.

Definition postReview (env : Env) : Route :=
  mkRoute [auth env; isStudent; validate validCreateReview] createReview.
Definition putReview (env : Env) : Route :=
  mkRoute [auth env; isStudent; validate validUpdateReview] updateReview.
Definition deleteReviewRoute (env : Env) : Route :=
  mkRoute [auth env; isStudent] deleteReview.

End Reviews.

(** ** routes/auth.js: GET /api/auth/me *)

Module AuthRoutes.

Definition optional {A} (f : A -> Json) (x : option A) : Json :=
  match x with
  | Some a => f a
  | None => JNull
  end.

Definition permissionJson (name : string) : Json :=
  JObject [("permission", JObject [("name", JString name)])].

Definition roleJson (r : Role.t) : Json :=
  JObject [("role", JObject [("name", JString (Role.name r));
                             ("permissions", JArray (permissionJson <$> Role.permissions r))])].

Definition studentJson (userId : Id) (s : Student.t) : Json :=
  JObject [("id", JString (Student.id s));
           ("userId", JString userId);
           ("totalCoursesEnrolled", JNumber (inject_Z (Student.totalCoursesEnrolled s)));
           ("totalCoursesCompleted", JNumber (inject_Z (Student.totalCoursesCompleted s)))].

Definition tutorJson (t : Tutor.t) : Json :=
  JObject [("userId", JString (Tutor.userId t));
           ("totalStudents", JNumber (inject_Z (Tutor.totalStudents t)));
           ("totalEarnings", JNumber (Tutor.totalEarnings t));
           ("totalReviews", JNumber (inject_Z (Tutor.totalReviews t)))].

Definition adminJson (userId : Id) (a : Admin.t) : Json :=
  JObject [("id", JString (Admin.id a));
           ("userId", JString userId);
           ("level", JString (Admin.level a))].

(** The object [user.findUnique] returns with the [include] of the
    route: the columns of the row, then the joined relations. *)
Definition findUserWithProfiles (d : DB) (userId : Id) : option (list (string * Json)) :=
  match users d !! userId with
  | None => None
  | Some u =>
      Some [("id", JString userId);
            ("email", JString (User.email u));
            ("username", JString (User.username u));
            ("firstName", JString (User.firstName u));
            ("lastName", JString (User.lastName u));
            ("avatar", optional JString (User.avatar u));
            ("bio", optional JString (User.bio u));
            ("password", JString (User.password u));
            ("isActive", JBool (User.isActive u));
            ("isVerified", JBool (User.isVerified u));
            ("roles", JArray (roleJson <$> User.roles u));
            ("permissions", JArray (permissionJson <$> User.permissions u));
            ("studentProfile", optional (studentJson userId) (students d !! userId));
            ("tutorProfile", optional tutorJson (tutor_of_user d userId));
            ("adminProfile", optional (adminJson userId) (admins d !! userId))]
  end.

(** [const { key: _, ...rest } = object] *)
Definition omit (key : string) (object : list (string * Json)) : list (string * Json) :=
  filter (fun member => member.1 ≠ key) object.

Definition me : Handler := fun ctx =>
  u <- req_user ctx ;;
  found <- query (fun d => findUserWithProfiles d (AuthUser.id u)) ;;
  match found with
  | None => ret (mkResponse 404 false "User not found")
  | Some userObject =>
      let userWithoutPassword := omit "password" userObject in
      ret (mkDataResponse 200 true ""
             (Some (JObject [("user", JObject userWithoutPassword)])))
  end.

Definition getMe (env : Env) : Route := mkRoute [auth env] me.

(** A member called [key] occurs somewhere in the value. *)
Fixpoint mentions (key : string) (j : Json) : bool :=
  match j with
  | JArray items => existsb (mentions key) items
  | JObject members =>
      existsb (fun member => let (name, value) := member : string * Json in
                             String.eqb name key || mentions key value) members
  | _ => false
  end.

Definition response_mentions (key : string) (r : Response) : bool :=
  match data r with
  | Some j => mentions key j
  | None => false
  end.

End AuthRoutes.

(** ** Requests that pass [auth] *)

(** The request carries a token that [jwt.verify] accepts for the user
    [userId], and that user exists and is active. *)
Definition Authenticated (env : Env) (d : DB) (request : Request) (userId : Id) : Prop :=
  exists header account,
    authorization request = Some header
    /\ replace_first "Bearer " header <> ""
    /\ jwt_verify env (replace_first "Bearer " header) = Some userId
    /\ users d !! userId = Some account
    /\ User.isActive account = true.

(** The mean of a list of ratings, 0 for the empty list. *)
Definition mean (l : list Z) : Q :=
  match l with
  | [] => 0%Q
  | _ => (inject_Z (Reviews.sumZ l) / inject_Z (Z.of_nat (length l)))%Q
  end.

(** The derived columns of a course agree with its published reviews. *)
Definition RatingStatisticsHold (d : DB) (courseId : Id) : Prop :=
  exists course,
    courses d !! courseId = Some course
    /\ (Course.averageRating course == mean (Reviews.publishedRatings d courseId))%Q
    /\ Course.totalReviews course = Z.of_nat (length (Reviews.publishedRatings d courseId)).

(** The invariant of the review routes: the derived columns of every
    course agree with its published reviews. *)
Definition RatingStatisticsInvariant (d : DB) : Prop :=
  forall courseId, is_Some (courses d !! courseId) -> RatingStatisticsHold d courseId.

(** From [d] to [d'] no course but [courseId] has changed its row or its
    published ratings. *)
Definition OtherCoursesUntouched (courseId : Id) (d d' : DB) : Prop :=
  forall other,
    other <> courseId ->
    courses d' !! other = courses d !! other
    /\ Reviews.publishedRatings d' other ≡ₚ Reviews.publishedRatings d other.

(** A middleware that refuses with a client error or passes the context
    on as it is, and never touches the world. *)
Definition Checks (m : Middleware) : Prop :=
  forall ctx w, exists res,
    m ctx w = (Ok res, w)
    /\ match res with
       | inl response => (400 <= status response)%nat
       | inr ctx' => ctx' = ctx
       end.

(** The world in which the stored password of [userId] is [p]. *)
Definition with_password_of (userId : Id) (p : string) (w : World) : World :=
  mkWorld (set_users (alter (User.with_password p) userId (users (db w))) (db w)) (faults w).

(** ** A small database to run the handlers on *)

Module Demo.

Definition env : Env :=
  mkEnv (fun token =>
           if bool_decide (token = "token-jane") then Some "u-jane"
           else if bool_decide (token = "token-john") then Some "u-john"
           else None)
        1700000000000 "enr-2" "K3X9QZ".

Definition jane : User.t :=
  User.mk "student@edustack.com" "demo_student" "Jane" "Smith" None None
    "$2a$12$jane" true true [Role.mk "student" ["read_course"]] [].

Definition john : User.t :=
  User.mk "tutor@edustack.com" "demo_tutor" "John" "Doe" None None
    "$2a$12$john" true true
    [Role.mk "tutor" ["create_course"; "read_course"; "update_course"; "view_analytics"]] [].

Definition course (price : Q) (published : bool) : Course.t :=
  Course.mk "Complete JavaScript Bootcamp 2024" "t-john" price "USD" published
    (if published then CourseStatus.PUBLISHED else CourseStatus.DRAFT) 1 0%Q 0%Q 0.

Definition completedProgress (completedAt : Z) : Progress.t :=
  Progress.mk "enr-1" 600 600 true (Some completedAt).

(** Jane is enrolled in the course "js", whose section has the active
    lesson "l1" and the retired lesson "l2".  [retiredDone] says whether
    she had completed "l2" before it was retired. *)
Definition database (retiredDone : bool) : DB :=
  mkDB
    (<["u-jane" := jane]> {["u-john" := john]})
    {["u-jane" := Student.mk "st-jane" 1 0]}
    {["t-john" := Tutor.mk "u-john" 1 0%Q 0]}
    ∅
    (<["js" := course (9999 # 100) true]>
       (<["py" := course (4999 # 100) true]>
          (<["free" := course 0%Q true]> {["draft" := course 0%Q false]})))
    {["sec-1" := CourseSection.mk "js" true]}
    (<["l1" := Lesson.mk "sec-1" true]> {["l2" := Lesson.mk "sec-1" false]})
    {[("u-jane", "js") := Enrollment.mk "enr-1" EnrollmentStatus.ACTIVE 0%Q 1600000000000 None None]}
    (if retiredDone
     then <[("u-jane", "l1") := completedProgress 1650000000000]> {[("u-jane", "l2") := completedProgress 1640000000000]}
     else {[("u-jane", "l1") := completedProgress 1650000000000]})
    ∅
    {["pi_1" := Payment.mk "u-jane" "py" (4999 # 100) PaymentStatus.PENDING None None]}
    {[("u-jane", "js") := Review.mk 5 (Some "Excellent JavaScript Course!") None true true]}.

Definition request (token courseId lessonId : string) (body : ProgressBody) : Request :=
  mkRequest (Some ("Bearer " +:+ token)) courseId lessonId None None None body
    (mkReviewBody None None None).

(** The intent of Jane's payment of 49.99 for the course "py". *)
Definition intent : Payments.PaymentIntent :=
  Payments.mkPaymentIntent "pi_1" 4999 "py" "u-jane" "t-john".

Definition watched : ProgressBody := mkProgressBody (Some 5) (Some 120) None.
Definition finished : ProgressBody := mkProgressBody (Some 5) (Some 600) (Some true).

End Demo.

(** ** middleware/auth.js: the permission and role gates *)

(** [hasPermission(permission)] *)
Definition hasPermission (permission : string) : Middleware := fun ctx =>
  match user ctx with
  | None => ret (inl (mkResponse 401 false "Authentication required"))
  | Some u =>
      if bool_decide (permission ∈ AuthUser.permissions u)
      then ret (inr ctx)
      else ret (inl (mkResponse 403 false "Insufficient permissions"))
  end.

(** [hasRole(...roles)]: [req.user.roles] are the role rows of the account. *)
Definition hasRole (roles : list string) : Middleware := fun ctx =>
  match user ctx with
  | None => ret (inl (mkResponse 401 false "Authentication required"))
  | Some u =>
      let userRoles := Role.name <$> User.roles (AuthUser.account u) in
      let hasRequiredRole := existsb (fun role => bool_decide (role ∈ userRoles)) roles in
      if hasRequiredRole
      then ret (inr ctx)
      else ret (inl (mkResponse 403 false "Insufficient role privileges"))
  end.

(** ** prisma/seed.js: the roles and permissions of a seeded database *)

Module Seed.

Definition permissions : list string :=
  ["create_course"; "read_course"; "update_course"; "delete_course";
   "manage_users"; "manage_payments"; "moderate_content"; "view_analytics"].

Definition rolePermissions : list (string * list string) :=
  [("super_admin", permissions);
   ("admin", ["manage_users"; "moderate_content"; "view_analytics"]);
   ("moderator", ["moderate_content"; "read_course"]);
   ("tutor", ["create_course"; "read_course"; "update_course"; "view_analytics"]);
   ("student", ["read_course"])].

(** The role rows with the permissions the seed assigns them. *)
Definition roles : list Role.t := (fun rp => Role.mk rp.1 rp.2) <$> rolePermissions.

End Seed.

(** ** routes/categories.js: the gate of the routes that write *)

Module Categories.

(** POST /, PUT /:id and DELETE /:id all start with these middlewares. *)
Definition writeGate (env : Env) : list Middleware :=
  [auth env; hasPermission "manage_categories"].

End Categories.

(** ** A program logic for handlers *)

(** From a database that satisfies [P], the computation ends with a value
    and a database that satisfy [Q], or throws on a database that
    satisfies [E]; the fault schedule is arbitrary. *)
Definition hoare {A} (P : DB -> Prop) (m : M A) (Q : A -> DB -> Prop) (E : DB -> Prop)
    : Prop :=
  forall w, P (db w) ->
    match m w with
    | (Ok a, w') => Q a (db w')
    | (Throw _, w') => E (db w')
    end.

(** The database a route leaves, whatever it replies. *)
Definition db_after (r : Route) (request : Request) (w : World) : DB :=
  db (run_route r request w).2.

(** ** Relations between the database before and after a request *)

(** From [d0] to [d] no progress row was removed, no row changed whether
    it is completed, and the rows that are new are not completed. *)
Definition CompletionKept (d0 d : DB) : Prop :=
  forall k,
    match progress d0 !! k, progress d !! k with
    | Some row, Some row' => Progress.isCompleted row' = Progress.isCompleted row
    | None, Some row' => Progress.isCompleted row' = false
    | None, None => True
    | Some _, None => False
    end.

(** ** Invariants of the review tables *)

(** Every stored review has a rating from 1 to 5. *)
Definition RatingsInRange (d : DB) : Prop :=
  forall k review, reviews d !! k = Some review -> 1 <= Review.rating review <= 5.

(** An average of ratings: 0 for a course without reviews, else from 1 to 5. *)
Definition averageInRange (q : Q) : Prop := (q == 0 \/ (1 <= q /\ q <= 5))%Q.

Definition AveragesInRange (d : DB) : Prop :=
  forall courseId course,
    courses d !! courseId = Some course -> averageInRange (Course.averageRating course).

Definition RatingsSound (d : DB) : Prop := RatingsInRange d /\ AveragesInRange d.

(** ** What the review routes write *)



(** ** routes/payments.js: POST /api/payments/create-intent *)

Module Checkout.

(** [Math.round(course.price * 100)], the price in cents as JavaScript
    computes it on doubles, is an input of the handler: a function of the
    price.  (On exact rationals the product of 1.005 and 100 rounds to
    101; the double product is below 100.5 and rounds to 100.) *)
Definition ToCents : Type := Q -> Z.

(** [s.toLowerCase()] on ASCII letters; other bytes are kept. *)
Definition lower (c : ascii) : ascii :=
  let n := nat_of_ascii c in
  if ((65 <=? n) && (n <=? 90))%nat then ascii_of_nat (n + 32) else c.

Fixpoint toLowerCase (s : string) : string :=
  match s with
  | EmptyString => EmptyString
  | String c s' => String (lower c) (toLowerCase s')
  end.

(** The argument of [stripe.paymentIntents.create]. *)
Record IntentParams := mkIntentParams {
  amount : Z;
  currency : string;
  metadata_courseId : Id;
  metadata_studentId : Id;
  metadata_tutorId : Id
}.

(** What the handler reads of the intent Stripe returns. *)
Record CreatedIntent := mkCreatedIntent { id : Id; client_secret : string }.

(** The Stripe SDK: [None] when the call throws. *)
Definition Stripe := IntentParams -> option CreatedIntent.

(** The row [payment.create] writes; of its columns the ones the other
    handlers read. *)
Definition pendingPayment (studentId courseId : Id) (course : Course.t) : Payment.t :=
  Payment.mk studentId courseId (Course.price course) PaymentStatus.PENDING None None.

(** The argument the handler gives to Stripe: the price in cents, the
    currency in lower case, and the three ids as metadata. *)
Definition intentParams (toCents : ToCents) (studentId courseId : Id) (course : Course.t)
    : IntentParams :=
  mkIntentParams (toCents (Course.price course))
    (toLowerCase (Course.currency course)) courseId studentId (Course.tutorId course).

(** The handler; [courseId] is [req.body.courseId]. *)
Definition createIntent (toCents : ToCents) (stripe : Stripe) (courseId : Id)
    : Handler := fun ctx =>
  u <- req_user ctx ;;
  let studentId := AuthUser.id u in
  course <- query (fun d => Enrollments.findPublishedCourse d courseId) ;;
  match course with
  | None => ret (mkResponse 404 false "Course not found or not available for purchase")
  | Some course =>
      if Qeq_bool (Course.price course) 0
      then ret (mkResponse 400 false "This course is free")
      else
        existingEnrollment <- query (fun d => enrollments d !! (studentId, courseId)) ;;
        match existingEnrollment with
        | Some _ => ret (mkResponse 400 false "Already enrolled in this course")
        | None =>
            match stripe (intentParams toCents studentId courseId course) with
            | None => throw (TypeError "stripe.paymentIntents.create")
            | Some paymentIntent =>
                write (on_table payments set_payments
                         (create "Payment" (id paymentIntent)
                            (pendingPayment studentId courseId course))) ;;
                ret (mkResponse 200 true "")
            end
        end
  end.

Definition postCreateIntent (env : Env) (toCents : ToCents) (stripe : Stripe)
    (courseId : Id) : Route :=
  mkRoute [auth env; isStudent] (createIntent toCents stripe courseId).

End Checkout.

(** ** routes/reviews.js: GET /api/reviews/course/:courseId *)

Module ReviewList.

(** [validate(schemas.paginationQuery, 'query')]: [page] an integer from
    1, [limit] an integer from 1 to 100.  The validated query, with the
    defaults 1 and 10 filled in, replaces [req.query]. *)
Definition validPaginationQuery (request : Request) : bool :=
  match page request with
  | Some p => (1 <=? p)%Z
  | None => true
  end
  && match limit request with
     | Some l => (1 <=? l)%Z && (l <=? 100)%Z
     | None => true
     end.

Definition pageOf (request : Request) : Z := default 1 (page request).
Definition limitOf (request : Request) : Z := default 10 (limit request).

(** A review row with its key [(studentId, courseId)]. *)
Definition Row : Type := Id * Id * Review.t.

(** [where: { courseId, isPublished: true }] *)
Definition publishedReviews (d : DB) (courseId : Id) : list Row :=
  filter (fun kv : Row => kv.1.2 = courseId ∧ Review.isPublished kv.2 = true)
    (map_to_list (reviews d)).

Record Pagination := mkPagination {
  currentPage : Z;
  totalPages : Z;
  totalCount : Z;
  hasNext : bool;
  hasPrev : bool
}.

(** The [data] of the reply, but for [ratingDistribution]. *)
Record Listing := mkListing {
  rows : list Row;
  totalReviews : Z;
  averageRating : Q;
  pagination : Pagination
}.

(** The handler.  [orderBy] is the order in which Prisma returns rows for
    the [sortBy] and [sortOrder] of the query; [skip] and [take] are not
    negative for a validated query. *)
Definition listing (orderBy : list Row -> list Row) (d : DB) (courseId : Id)
    (page limit : Z) : Listing :=
  let skip := (page - 1) * limit in
  let reviews :=
    take (Z.to_nat limit) (drop (Z.to_nat skip) (orderBy (publishedReviews d courseId))) in
  let totalCount := Z.of_nat (length (Reviews.publishedRatings d courseId)) in
  let avgRating := Reviews.avg (Reviews.publishedRatings d courseId) in
  let totalPages := Qceiling (inject_Z totalCount / inject_Z limit) in
  mkListing reviews totalCount (Reviews.or_zero avgRating)
    (mkPagination page totalPages totalCount (page <? totalPages)%Z (1 <? page)%Z).

(** The route: the validation, then the handler. *)
Definition getCourseReviews (orderBy : list Row -> list Row) (request : Request) (d : DB)
    : Response + Listing :=
  if validPaginationQuery request
  then inr (listing orderBy d (courseId request) (pageOf request) (limitOf request))
  else inl (mkResponse 400 false "Validation failed").

End ReviewList.

(** ** routes/auth.js: login, change-password, forgot-password, logout *)

Module Accounts.

(** The bcryptjs and jsonwebtoken libraries: [bcrypt.compare(plain, hash)],
    [bcrypt.hash(plain, rounds)] and [jwt.sign({ userId }, secret)]. *)
Record Crypto := mkCrypto {
  compare : string -> string -> bool;
  hash : string -> nat -> string;
  sign : Id -> string
}.

(** [validate(schema)] on a body that is not part of [Request]: [valid]
    says whether [schema.validate(req.body)] is without error. *)
Definition validateBody (valid : bool) : Middleware := fun ctx =>
  if valid
  then ret (inr ctx)
  else ret (inl (mkResponse 400 false "Validation failed")).

(** [user.findUnique({ where: { email } })]; [email] is a unique column. *)
Definition findUserByEmail (d : DB) (email : string) : option (Id * User.t) :=
  head (filter (fun kv : Id * User.t => User.email kv.2 = email) (map_to_list (users d))).

(** The same with the [include] of the login route: the row and the
    object with the joined relations. *)
Definition findUserByEmailWithProfiles (d : DB) (email : string)
    : option (Id * User.t * list (string * Json)) :=
  match findUserByEmail d email with
  | Some (userId, user) =>
      match AuthRoutes.findUserWithProfiles d userId with
      | Some object => Some (userId, user, object)
      | None => None
      end
  | None => None
  end.

Definition invalidLogin : Response := mkResponse 401 false "Invalid email or password".

(** POST /api/auth/login; [email] and [password] are the members of the
    body.  [lastLoginAt], which the update sets, is not among the columns
    of the model: the update leaves the row as it is, and may fail. *)
Definition login (crypto : Crypto) (email password : string) : Handler := fun ctx =>
  found <- query (fun d => findUserByEmailWithProfiles d email) ;;
  match found with
  | None => ret invalidLogin
  | Some (userId, user, object) =>
      if negb (User.isActive user) then ret invalidLogin
      else if negb (compare crypto password (User.password user)) then ret invalidLogin
      else
        write (on_table users set_users (update "User" userId (fun row => row))) ;;
        let token := sign crypto userId in
        let userWithoutPassword := AuthRoutes.omit "password" object in
        ret (mkDataResponse 200 true "Login successful"
               (Some (JObject [("user", JObject userWithoutPassword);
                               ("token", JString token)])))
  end.

Definition postLogin (crypto : Crypto) (valid : bool) (email password : string) : Route :=
  mkRoute [validateBody valid] (login crypto email password).

(** POST /api/auth/change-password *)
Definition changePassword (crypto : Crypto) (currentPassword newPassword : string)
    : Handler := fun ctx =>
  u <- req_user ctx ;;
  user <- query (fun d => users d !! AuthUser.id u) ;;
  match user with
  | None => throw (TypeError "user.password")
  | Some user =>
      if negb (compare crypto currentPassword (User.password user))
      then ret (mkResponse 400 false "Current password is incorrect")
      else
        let hashedNewPassword := hash crypto newPassword 12 in
        write (on_table users set_users
                 (update "User" (AuthUser.id u) (User.with_password hashedNewPassword))) ;;
        ret (mkResponse 200 true "Password changed successfully")
  end.

Definition postChangePassword (env : Env) (crypto : Crypto) (valid : bool)
    (currentPassword newPassword : string) : Route :=
  mkRoute [auth env; validateBody valid] (changePassword crypto currentPassword newPassword).

Definition resetLinkSent : Response :=
  mkResponse 200 true
    "If an account with this email exists, a password reset link has been sent.".

(** POST /api/auth/forgot-password *)
Definition forgotPassword (email : string) : Handler := fun ctx =>
  user <- query (fun d => findUserByEmail d email) ;;
  match user with
  | None => ret resetLinkSent
  | Some _ => ret resetLinkSent
  end.

Definition postForgotPassword (email : string) : Route := mkRoute [] (forgotPassword email).

(** POST /api/auth/logout *)
Definition logout : Handler := fun ctx =>
  ret (mkResponse 200 true "Logged out successfully").

Definition postLogout (env : Env) : Route := mkRoute [auth env] logout.

End Accounts.

(** No two users share an email: the unique index of the column. *)
Definition UniqueEmails (d : DB) : Prop :=
  forall i j u v,
    users d !! i = Some u -> users d !! j = Some v -> User.email u = User.email v -> i = j.

(** A stand-in for bcrypt and jsonwebtoken on the demo data: the hash of
    a password is the password behind the prefix of the stored hashes. *)
Module DemoAccounts.

Definition crypto : Accounts.Crypto :=
  Accounts.mkCrypto (fun plain hashed => String.eqb hashed ("$2a$12$" +:+ plain))
    (fun plain _ => "$2a$12$" +:+ plain)
    (fun userId => "token-" +:+ userId).

End DemoAccounts.

(** ** The enrollment counters *)

(** The number of enrollments in a course, and of a student. *)
Definition enrolledIn (d : DB) (courseId : Id) : nat :=
  length (filter (fun kv : Id * Id * Enrollment.t => kv.1.2 = courseId)
            (map_to_list (enrollments d))).

Definition enrolledBy (d : DB) (studentId : Id) : nat :=
  length (filter (fun kv : Id * Id * Enrollment.t => kv.1.1 = studentId)
            (map_to_list (enrollments d))).

(** [Enrollment.id] is the primary key. *)
Definition UniqueEnrollmentIds (t : gmap (Id * Id) Enrollment.t) : Prop :=
  forall k k' e e',
    t !! k = Some e -> t !! k' = Some e' -> Enrollment.id e = Enrollment.id e' -> k = k'.

(** The counters of courses and students agree with the enrollments. *)
Definition EnrollmentCounters (d : DB) : Prop :=
  UniqueEnrollmentIds (enrollments d)
  /\ (forall c course,
        courses d !! c = Some course ->
        Course.totalEnrollments course = Z.of_nat (enrolledIn d c))
  /\ (forall s student,
        students d !! s = Some student ->
        Student.totalCoursesEnrolled student = Z.of_nat (enrolledBy d s)).

(** * Properties *)

(** ** The monad and the statements *)

Lemma bind_Ok {A B} (m : M A) (k : A -> M B) w a w' :
  m w = (Ok a, w') -> bind m k w = k a w'.
Proof. intros E. unfold bind. by rewrite E. Qed.

Lemma bind_Throw {A B} (m : M A) (k : A -> M B) w e w' :
  m w = (Throw e, w') -> bind m k w = (Throw e, w').
Proof. intros E. unfold bind. by rewrite E. Qed.

Lemma bind_ret {A B} (a : A) (k : A -> M B) w : bind (ret a) k w = k a w.
Proof. reflexivity. Qed.

Lemma bind_throw {A B} e (k : A -> M B) w : bind (throw e) k w = (Throw e, w).
Proof. reflexivity. Qed.

Lemma bind_query {A B} (f : DB -> A) (k : A -> M B) w : bind (query f) k w = k (f (db w)) w.
Proof. reflexivity. Qed.

Lemma bind_assoc {A B C} (m : M A) (f : A -> M B) (g : B -> M C) w :
  bind (bind m f) g w = bind m (fun a => bind (f a) g) w.
Proof. unfold bind. destruct (m w) as [[a|e] w']; reflexivity. Qed.

Lemma query_run {A} (f : DB -> A) w : query f w = (Ok (f (db w)), w).
Proof. reflexivity. Qed.

Lemma write_run_ok f d d' : f d = inr d' -> write f (mkWorld d []) = (Ok tt, mkWorld d' []).
Proof. intros E. unfold write. simpl. by rewrite E. Qed.

Lemma write_run_error f d e : f d = inl e -> write f (mkWorld d []) = (Throw e, mkWorld d []).
Proof. intros E. unfold write. simpl. by rewrite E. Qed.

(** A write changes the database only when it succeeds. *)
Lemma write_cases f w :
  (exists d', f (db w) = inr d' /\ write f w = (Ok tt, mkWorld d' (tail (faults w))))
  \/ (exists e, write f w = (Throw e, mkWorld (db w) (tail (faults w)))).
Proof.
  unfold write. destruct w as [d [|[] fs]]; simpl.
  - destruct (f d) as [e|d']; eauto.
  - right. eauto.
  - destruct (f d) as [e|d']; eauto.
Qed.

Lemma bind_write_ok {B} f (k : unit -> M B) d d' :
  f d = inr d' -> bind (write f) k (mkWorld d []) = k tt (mkWorld d' []).
Proof. intros E. apply bind_Ok. by apply write_run_ok. Qed.

Lemma bind_write_error {B} f (k : unit -> M B) d e :
  f d = inl e -> bind (write f) k (mkWorld d []) = (Throw e, mkWorld d []).
Proof. intros E. apply bind_Throw. by apply write_run_error. Qed.

Lemma bind_write_cases {B} f (k : unit -> M B) w :
  (exists d', f (db w) = inr d'
              /\ bind (write f) k w = k tt (mkWorld d' (tail (faults w))))
  \/ (exists e, bind (write f) k w = (Throw e, mkWorld (db w) (tail (faults w)))).
Proof.
  destruct (write_cases f w) as [(d' & E & R)|(e & R)].
  - left. exists d'. split; [done|]. by apply bind_Ok.
  - right. exists e. by apply bind_Throw.
Qed.

Lemma transaction_Ok {A} (m : M A) w a w' :
  m w = (Ok a, w') -> transaction m w = (Ok a, w').
Proof. intros E. unfold transaction. by rewrite E. Qed.

Lemma transaction_Throw {A} (m : M A) w e w' :
  m w = (Throw e, w') -> transaction m w = (Throw e, mkWorld (db w) (faults w')).
Proof. intros E. unfold transaction. by rewrite E. Qed.

Lemma on_table_ok {T} (get : DB -> T) set stmt d t :
  stmt (get d) = inr t -> on_table get set stmt d = inr (set t d).
Proof. intros E. unfold on_table. by rewrite E. Qed.

Lemma on_table_inr {T} (get : DB -> T) set stmt d d' :
  on_table get set stmt d = inr d' -> exists t, stmt (get d) = inr t /\ d' = set t d.
Proof.
  unfold on_table. destruct (stmt (get d)) as [e|t]; [done|].
  intros [= <-]. eauto.
Qed.

Lemma create_ok `{Countable K} {V} model (k : K) (v : V) t :
  t !! k = None -> create model k v t = inr (<[k := v]> t).
Proof. intros E. unfold create. by rewrite E. Qed.

Lemma create_inr `{Countable K} {V} model (k : K) (v : V) t t' :
  create model k v t = inr t' -> t !! k = None /\ t' = <[k := v]> t.
Proof.
  unfold create. destruct (t !! k); [done|]. intros [= <-]. eauto.
Qed.

Lemma update_ok `{Countable K} {V} model (k : K) (f : V -> V) t v :
  t !! k = Some v -> update model k f t = inr (<[k := f v]> t).
Proof. intros E. unfold update. by rewrite E. Qed.

Lemma update_inr `{Countable K} {V} model (k : K) (f : V -> V) t t' :
  update model k f t = inr t' -> exists v, t !! k = Some v /\ t' = <[k := f v]> t.
Proof.
  unfold update. destruct (t !! k) as [v|]; [|done]. intros [= <-]. eauto.
Qed.

Ltac proj :=
  cbn [db faults users students tutors admins courses sections lessons enrollments
       progress certificates payments reviews set_users set_students set_tutors
       set_courses set_enrollments set_progress set_certificates set_payments
       set_reviews req user] in *.

(** Run the next write of the goal, given how its statement fares. *)
Ltac write_ok :=
  erewrite bind_write_ok;
  [| apply on_table_ok; proj;
     first [ eapply create_ok; eassumption
           | eapply update_ok; eassumption
           | reflexivity ] ];
  proj.

(** In [H : (write f ;; k) w = (Ok _, _)] the write went through. *)
Ltac write_inv H d E :=
  match type of H with
  | bind (write ?f) ?k ?w = _ =>
      let e := fresh "e" in
      let R := fresh "R" in
      destruct (bind_write_cases f k w) as [(d & E & R)|(e & R)];
      rewrite R in H; clear R; [|discriminate H];
      apply on_table_inr in E as (? & E & ->); proj
  end.

(** ** Counting rows of a table *)

Section Counting.
Context {K : Type} `{Countable K} {V : Type}.
Context (P : K * V -> Prop) `{!forall x, Decision (P x)}.

Lemma map_to_list_replace (m : gmap K V) k v v' :
  m !! k = Some v ->
  map_to_list m ≡ₚ (k, v) :: map_to_list (delete k m)
  /\ map_to_list (<[k := v']> m) ≡ₚ (k, v') :: map_to_list (delete k m).
Proof.
  intros E. split.
  - symmetry. by apply map_to_list_delete.
  - rewrite <- insert_delete_eq. apply map_to_list_insert, lookup_delete_eq.
Qed.

Lemma count_insert_fresh (m : gmap K V) k v :
  m !! k = None -> ~ P (k, v) ->
  length (filter P (map_to_list (<[k := v]> m))) = length (filter P (map_to_list m)).
Proof.
  intros E N. rewrite (map_to_list_insert m k v E).
  by rewrite filter_cons_False.
Qed.

Lemma count_insert_same (m : gmap K V) k v v' :
  m !! k = Some v -> (P (k, v') <-> P (k, v)) ->
  length (filter P (map_to_list (<[k := v']> m))) = length (filter P (map_to_list m)).
Proof.
  intros E I. destruct (map_to_list_replace m k v v' E) as [-> ->].
  rewrite !filter_cons. destruct (decide (P (k, v'))), (decide (P (k, v))); tauto || done.
Qed.
End Counting.

(** ** The middlewares *)

Lemma auth_reads_only env ctx w o w' : auth env ctx w = (o, w') -> w' = w.
Proof.
  unfold auth. destruct (authorization (req ctx)) as [h|]; [|by inversion 1].
  case_bool_decide; [by inversion 1|].
  destruct (jwt_verify env _) as [uid|]; [|by inversion 1].
  unfold bind, query, ret. destruct (users (db w) !! uid) as [u|]; [|by inversion 1].
  destruct (User.isActive u); simpl; by inversion 1.
Qed.

Lemma auth_passes env request w userId :
  Authenticated env (db w) request userId ->
  exists u,
    auth env (mkCtx request None) w = (Ok (inr (mkCtx request (Some u))), w)
    /\ AuthUser.id u = userId
    /\ AuthUser.studentProfile u = students (db w) !! userId.
Proof.
  intros (h & acc & Hh & Hne & Hjwt & Hu & Hact).
  eexists. unfold auth. simpl. rewrite Hh.
  rewrite bool_decide_false by done. rewrite Hjwt.
  unfold bind, query, ret. rewrite Hu, Hact. simpl. eauto.
Qed.

Lemma auth_sets_user env ctx w ctx' w' :
  auth env ctx w = (Ok (inr ctx'), w') ->
  req ctx' = req ctx /\ is_Some (user ctx').
Proof.
  unfold auth. destruct (authorization (req ctx)) as [h|]; [|by inversion 1].
  case_bool_decide; [by inversion 1|].
  destruct (jwt_verify env _) as [uid|]; [|by inversion 1].
  unfold bind, query, ret. destruct (users (db w) !! uid) as [u|]; [|by inversion 1].
  destruct (User.isActive u); simpl; [|by inversion 1].
  intros [= <- <-]. simpl. eauto.
Qed.

Lemma auth_refuses env ctx w response w' :
  auth env ctx w = (Ok (inl response), w') -> (400 <= status response)%nat.
Proof.
  unfold auth. destruct (authorization (req ctx)) as [h|];
    [|intros [= <- _]; simpl; lia].
  case_bool_decide; [intros [= <- _]; simpl; lia|].
  destruct (jwt_verify env _) as [uid|]; [|intros [= <- _]; simpl; lia].
  unfold bind, query, ret. destruct (users (db w) !! uid) as [u|];
    [|intros [= <- _]; simpl; lia].
  destruct (User.isActive u); simpl; [done|intros [= <- _]; simpl; lia].
Qed.

Lemma auth_reply_without_data env ctx w response w' :
  auth env ctx w = (Ok (inl response), w') -> data response = None.
Proof.
  unfold auth. destruct (authorization (req ctx)) as [h|]; [|by intros [= <- _]].
  case_bool_decide; [by intros [= <- _]|].
  destruct (jwt_verify env _) as [uid|]; [|by intros [= <- _]].
  unfold bind, query, ret. destruct (users (db w) !! uid) as [u|]; [|by intros [= <- _]].
  destruct (User.isActive u); simpl; [done|by intros [= <- _]].
Qed.

Lemma route_after_auth env ms h request w u :
  auth env (mkCtx request None) w = (Ok (inr (mkCtx request (Some u))), w) ->
  run_route (mkRoute (auth env :: ms) h) request w
  = match run_middlewares ms h (mkCtx request (Some u)) w with
    | (Ok response, w') => (Sent response, w')
    | (Throw e, w') => (NextError e, w')
    end.
Proof.
  intros E. unfold run_route. simpl. by rewrite (bind_Ok _ _ _ _ _ E).
Qed.

Lemma isStudent_passes request u s :
  AuthUser.studentProfile u = Some s ->
  forall ms h w,
    run_middlewares (isStudent :: ms) h (mkCtx request (Some u)) w
    = run_middlewares ms h (mkCtx request (Some u)) w.
Proof.
  intros E ms h w. simpl. unfold isStudent, bind, ret. simpl. by rewrite E.
Qed.

Lemma student_route env h request w userId student :
  Authenticated env (db w) request userId ->
  students (db w) !! userId = Some student ->
  exists u,
    AuthUser.id u = userId
    /\ run_route (mkRoute [auth env; isStudent] h) request w
       = match h (mkCtx request (Some u)) w with
         | (Ok response, w') => (Sent response, w')
         | (Throw e, w') => (NextError e, w')
         end.
Proof.
  intros Hauth Hst.
  destruct (auth_passes _ _ _ _ Hauth) as (u & Ea & Hid & Hs).
  rewrite Hst in Hs. exists u. split; [done|].
  by rewrite (route_after_auth _ _ _ _ _ _ Ea), (isStudent_passes _ _ _ Hs).
Qed.

Lemma isStudent_checks : Checks isStudent.
Proof.
  intros ctx w. unfold isStudent, ret.
  destruct (user ctx) as [u|]; [destruct (AuthUser.studentProfile u)|];
    eexists; (split; [reflexivity|]); simpl; (done || lia).
Qed.

Lemma validate_checks schema : Checks (Reviews.validate schema).
Proof.
  intros ctx w. unfold Reviews.validate, ret.
  destruct (schema _); eexists; (split; [reflexivity|]); simpl; (done || lia).
Qed.

Lemma run_checks ms h ctx w o w' :
  Forall Checks ms ->
  run_middlewares ms h ctx w = (o, w') ->
  (w' = w /\ exists response, o = Ok response /\ (400 <= status response)%nat)
  \/ h ctx w = (o, w').
Proof.
  intros Hms. induction Hms as [|m ms Hm _ IH]; simpl; [by right|].
  destruct (Hm ctx w) as (res & Em & Hres).
  rewrite (bind_Ok _ _ _ _ _ Em).
  destruct res as [response|ctx'].
  - intros [= <- <-]. left. eauto.
  - rewrite Hres. apply IH.
Qed.

(** A route behind [auth] and checks: a reply was sent either by a
    middleware, with the world untouched, or by the handler, run for an
    authenticated user on the world of the request. *)
Lemma guarded_route_sent env checks h request w r w' :
  Forall Checks checks ->
  run_route (mkRoute (auth env :: checks) h) request w = (Sent r, w') ->
  (w' = w /\ (400 <= status r)%nat) \/ exists u, h (mkCtx request (Some u)) w = (Ok r, w').
Proof.
  intros Hc. unfold run_route. simpl. unfold bind at 1.
  destruct (auth env (mkCtx request None) w) as [[[response|ctx']|e] w1] eqn:Ea;
    [| |by inversion 1].
  - pose proof (auth_refuses _ _ _ _ _ Ea).
    apply auth_reads_only in Ea as ->. intros [= <- <-]. by left.
  - pose proof (auth_reads_only _ _ _ _ _ Ea) as ->.
    apply auth_sets_user in Ea as [Hreq [u Hu]].
    destruct ctx' as [request' user']. simpl in Hreq, Hu. subst request' user'.
    destruct (run_middlewares checks h (mkCtx request (Some u)) w) as [[r0|e] w2] eqn:Er;
      [|by inversion 1].
    intros [= <- <-].
    destruct (run_checks _ _ _ _ _ _ Hc Er) as [(-> & r' & [= <-] & Hr)|Eh]; [by left|].
    right. eauto.
Qed.

(** ** Requests on the demo database *)

Lemma jane_authenticated retiredDone courseId lessonId body :
  Authenticated Demo.env (Demo.database retiredDone)
    (Demo.request "token-jane" courseId lessonId body) "u-jane".
Proof.
  exists "Bearer token-jane", Demo.jane.
  destruct retiredDone; repeat split; done.
Qed.

Lemma john_authenticated retiredDone courseId lessonId body :
  Authenticated Demo.env (Demo.database retiredDone)
    (Demo.request "token-john" courseId lessonId body) "u-john".
Proof.
  exists "Bearer token-john", Demo.john.
  destruct retiredDone; repeat split; done.
Qed.

(** ** The student gate of the enrollment router *)

(** C6.  Every route of the enrollment router (enroll, list, get one,
    update lesson progress, unenroll) sits behind the student gate: when the
    authenticated user has no student profile, the reply is 403 and the
    world is the one the request found, and this is so whatever handler
    is mounted behind the gate, so the handler of the route is never run. *)
Theorem enrollment_routes_require_student env request w userId :
  Authenticated env (db w) request userId ->
  students (db w) !! userId = None ->
  forall r, r ∈ Enrollments.router env ->
    run_route r request w = (Sent (mkResponse 403 false "Student access required"), w)
    /\ forall h, run_route (with_handler h r) request w
                 = (Sent (mkResponse 403 false "Student access required"), w).
Proof.
  intros Hauth Hnone r Hr.
  destruct (auth_passes _ _ _ _ Hauth) as (u & Ea & _ & Hs).
  rewrite Hnone in Hs.
  assert (G : forall h, run_route (mkRoute [auth env; isStudent] h) request w
                        = (Sent (mkResponse 403 false "Student access required"), w)).
  { intros h. rewrite (route_after_auth _ _ _ _ _ _ Ea). simpl.
    unfold isStudent, bind, ret. simpl. by rewrite Hs. }
  unfold Enrollments.router in Hr.
  repeat (apply elem_of_cons in Hr as [->|Hr]; [split; [apply G | intros h; apply G]|]).
  by apply elem_of_nil in Hr.
Qed.

Lemma enrollment_routes_require_student_witness :
  run_route (Enrollments.putProgress Demo.env)
    (Demo.request "token-john" "js" "l1" Demo.watched) (mkWorld (Demo.database false) [])
  = (Sent (mkResponse 403 false "Student access required"), mkWorld (Demo.database false) []).
Proof.
  refine (proj1 (enrollment_routes_require_student Demo.env _
                   (mkWorld (Demo.database false) []) "u-john" _ _ _ _)).
  - apply john_authenticated.
  - vm_compute. reflexivity.
  - unfold Enrollments.router. set_solver.
Defined.

(** ** POST /api/enrollments/:courseId *)

Lemma findPublishedCourse_Some d c course :
  courses d !! c = Some course ->
  Course.isPublished course = true ->
  Course.status course = CourseStatus.PUBLISHED ->
  Enrollments.findPublishedCourse d c = Some course.
Proof.
  intros E P S. unfold Enrollments.findPublishedCourse. by rewrite E, P, S.
Qed.

Lemma findPublishedCourse_None d c :
  (forall course, courses d !! c = Some course ->
     Course.isPublished course = false \/ Course.status course <> CourseStatus.PUBLISHED) ->
  Enrollments.findPublishedCourse d c = None.
Proof.
  intros H. unfold Enrollments.findPublishedCourse.
  destruct (courses d !! c) as [course|] eqn:E; [|done].
  destruct (H course eq_refl) as [P|S]; [by rewrite P|].
  destruct (Course.isPublished course); [|done].
  destruct (Course.status course); simpl; congruence.
Qed.

(** C7.  An enrollment request by a student has four outcomes.  When the
    course is missing or not published the reply is 404; when the student
    is already enrolled it is 400; when the price is not 0 it is 402; in
    these three cases the world is unchanged, so no enrollment is created.
    When the price is 0 the reply is 201 and the database differs from
    the one before in exactly this: an ACTIVE enrollment of the student in
    the course is there, and the course's totalEnrollments, the tutor's
    totalStudents and the student's totalCoursesEnrolled are one higher. *)
Theorem enroll_outcomes env request w userId student :
  Authenticated env (db w) request userId ->
  students (db w) !! userId = Some student ->
  faults w = [] ->
  let d := db w in
  let c := courseId request in
  let reply := run_route (Enrollments.postEnroll env) request w in
  ((forall course, courses d !! c = Some course ->
      Course.isPublished course = false \/ Course.status course <> CourseStatus.PUBLISHED) ->
   reply = (Sent (mkResponse 404 false "Course not found or not available for enrollment"), w))
  /\ (forall course,
        courses d !! c = Some course ->
        Course.isPublished course = true ->
        Course.status course = CourseStatus.PUBLISHED ->
        (is_Some (enrollments d !! (userId, c)) ->
         reply = (Sent (mkResponse 400 false "Already enrolled in this course"), w))
        /\ (enrollments d !! (userId, c) = None ->
            ~ (Course.price course == 0)%Q ->
            reply = (Sent (mkResponse 402 false "Payment required for this course"), w))
        /\ (forall tutor,
              enrollments d !! (userId, c) = None ->
              (Course.price course == 0)%Q ->
              tutors d !! Course.tutorId course = Some tutor ->
              reply
              = (Sent (mkResponse 201 true "Successfully enrolled in course"),
                 mkWorld
                   (mkDB (users d)
                      (<[userId :=
                           Student.mk (Student.id student)
                             (Student.totalCoursesEnrolled student + 1)
                             (Student.totalCoursesCompleted student)]> (students d))
                      (<[Course.tutorId course :=
                           Tutor.mk (Tutor.userId tutor) (Tutor.totalStudents tutor + 1)
                             (Tutor.totalEarnings tutor) (Tutor.totalReviews tutor)]>
                         (tutors d))
                      (admins d)
                      (<[c :=
                           Course.mk (Course.title course) (Course.tutorId course)
                             (Course.price course) (Course.currency course)
                             (Course.isPublished course) (Course.status course)
                             (Course.totalEnrollments course + 1)
                             (Course.totalRevenue course) (Course.averageRating course)
                             (Course.totalReviews course)]> (courses d))
                      (sections d) (lessons d)
                      (<[(userId, c) :=
                           Enrollment.mk (cuid env) EnrollmentStatus.ACTIVE 0%Q (now env)
                             None None]> (enrollments d))
                      (progress d) (certificates d) (payments d) (reviews d))
                   []))).
Proof.
  intros Hauth Hst Hf d c reply.
  destruct (student_route env (Enrollments.enroll env) _ _ _ _ Hauth Hst) as (u & Hid & R).
  subst reply. unfold Enrollments.postEnroll. rewrite R. clear R.
  destruct w as [d0 fs]. proj. subst fs d c.
  unfold Enrollments.enroll, req_user. proj.
  rewrite bind_ret, bind_query, Hid. proj.
  split.
  - intros H. by rewrite (findPublishedCourse_None _ _ H).
  - intros course Hc Hp Hs'. rewrite (findPublishedCourse_Some _ _ _ Hc Hp Hs').
    rewrite bind_query. proj.
    split; [|split].
    + intros [e He]. by rewrite He.
    + intros He Hprice. rewrite He.
      destruct (Qeq_bool (Course.price course) 0) eqn:Q; [|done].
      by apply Qeq_bool_iff in Q.
    + intros tutor He Hprice Ht. rewrite He.
      apply Qeq_bool_iff in Hprice. rewrite Hprice.
      do 4 write_ok. done.
Qed.

Lemma enroll_outcomes_witness :
  exists w',
    run_route (Enrollments.postEnroll Demo.env)
      (Demo.request "token-jane" "free" "" Demo.watched) (mkWorld (Demo.database false) [])
    = (Sent (mkResponse 201 true "Successfully enrolled in course"), w')
    /\ enrollments (db w') !! ("u-jane", "free")
       = Some (Enrollment.mk "enr-2" EnrollmentStatus.ACTIVE 0%Q 1700000000000 None None)
    /\ Course.totalEnrollments <$> courses (db w') !! "free" = Some 2
    /\ Tutor.totalStudents <$> tutors (db w') !! "t-john" = Some 2
    /\ Student.totalCoursesEnrolled <$> students (db w') !! "u-jane" = Some 2
    /\ Course.totalEnrollments <$> courses (db w') !! "js" = Some 1.
Proof.
  eexists. split.
  - refine (proj2 (proj2 (proj2 (enroll_outcomes Demo.env
                      (Demo.request "token-jane" "free" "" Demo.watched)
                      (mkWorld (Demo.database false) []) "u-jane" (Student.mk "st-jane" 1 0)
                      _ _ _) (Demo.course 0%Q true) _ _ _))
                   (Tutor.mk "u-john" 1 0%Q 0) _ _ _).
    + apply jane_authenticated.
    + vm_compute. reflexivity.
    + reflexivity.
    + vm_compute. reflexivity.
    + reflexivity.
    + reflexivity.
    + vm_compute. reflexivity.
    + reflexivity.
    + vm_compute. reflexivity.
  - vm_compute. repeat split; reflexivity.
Defined.

(** ** PUT /api/enrollments/:courseId/progress/:lessonId *)

Lemma progressUpdate_falsy env body binding w :
  truthy_bool (isCompleted body) = false ->
  exists onUpdate,
    Enrollments.progressUpdate env body binding w = (Ok onUpdate, w)
    /\ forall row, Progress.isCompleted (onUpdate row) = Progress.isCompleted row.
Proof.
  intros E. unfold Enrollments.progressUpdate. rewrite E.
  rewrite bind_ret. eexists. split; [reflexivity|]. intros row. reflexivity.
Qed.

(** A request that marks the lesson completed reads [progress] inside the
    statement that declares it, and never gets further. *)
Lemma progressUpdate_truthy env body w :
  truthy_bool (isCompleted body) = true ->
  Enrollments.progressUpdate env body Uninitialized w = (Throw (ReferenceError "progress"), w).
Proof.
  intros E. unfold Enrollments.progressUpdate. rewrite E. reflexivity.
Qed.

(** Whatever the database holds, a request of an enrolled student for a
    lesson of the course that marks the lesson completed ends in the
    ReferenceError, before any write. *)
Lemma updateProgress_completed env request w userId student enrollment lesson :
  Authenticated env (db w) request userId ->
  students (db w) !! userId = Some student ->
  enrollments (db w) !! (userId, courseId request) = Some enrollment ->
  Enrollments.findLessonOfCourse (db w) (lessonId request) (courseId request) = Some lesson ->
  truthy_bool (isCompleted (progressBody request)) = true ->
  run_route (Enrollments.putProgress env) request w
  = (NextError (ReferenceError "progress"), w).
Proof.
  intros Hauth Hst He Hl Ht.
  destruct (student_route env (Enrollments.updateProgress env) _ _ _ _ Hauth Hst)
    as (u & Hid & R).
  unfold Enrollments.putProgress. rewrite R. clear R.
  unfold Enrollments.updateProgress, req_user. proj.
  rewrite bind_ret, bind_query, Hid, He, bind_query, Hl.
  by rewrite (bind_Throw _ _ _ _ _ (progressUpdate_truthy env _ _ Ht)).
Qed.

(** C4.  The handler is not total in building the arguments of the
    upsert: on the demo database, Jane's request that marks lesson "l1"
    of her course completed, a lesson she has a progress row for, hands
    a ReferenceError for [progress] to the error handler, and no
    statement has reached the database. *)
Theorem progress_update_completed_throws :
  truthy_bool (isCompleted Demo.finished) = true
  /\ is_Some (progress (Demo.database false) !! ("u-jane", "l1"))
  /\ run_route (Enrollments.putProgress Demo.env)
       (Demo.request "token-jane" "js" "l1" Demo.finished) (mkWorld (Demo.database false) [])
     = (NextError (ReferenceError "progress"), mkWorld (Demo.database false) []).
Proof.
  split; [reflexivity|]. split; [by eexists|].
  apply (updateProgress_completed _ _ _ "u-jane" (Student.mk "st-jane" 1 0)
           (Enrollment.mk "enr-1" EnrollmentStatus.ACTIVE 0%Q 1600000000000 None None)
           (Lesson.mk "sec-1" true)); try reflexivity.
  apply jane_authenticated.
Qed.

Lemma countCompletedLessons_upsert d userId lessonId courseId onUpdate onCreate :
  (forall row, Progress.isCompleted (onUpdate row) = Progress.isCompleted row) ->
  Progress.isCompleted onCreate = false ->
  Enrollments.countCompletedLessons
    (set_progress (upsert (userId, lessonId) onUpdate onCreate (progress d)) d) userId courseId
  = Enrollments.countCompletedLessons d userId courseId.
Proof.
  intros Hu Hc. unfold Enrollments.countCompletedLessons, upsert. proj.
  destruct (progress d !! (userId, lessonId)) as [row|] eqn:E.
  - apply (count_insert_same _ _ _ row); [done|].
    unfold Enrollments.completedInCourse. proj. simpl. by rewrite Hu.
  - apply count_insert_fresh; [done|].
    unfold Enrollments.completedInCourse. simpl. rewrite Hc.
    rewrite andb_false_r. simpl. done.
Qed.

Lemma countTotalLessons_set_progress d t courseId :
  Enrollments.countTotalLessons (set_progress t d) courseId
  = Enrollments.countTotalLessons d courseId.
Proof. reflexivity. Qed.

(** What the handler records: for every request that reaches the
    recomputation, whatever the reply, the progress of the enrollment is
    (completed / total) * 100 with the two counts of the handler, and 0
    when the total is 0. *)
Lemma progress_recomputed env request w userId student enrollment lesson :
  Authenticated env (db w) request userId ->
  students (db w) !! userId = Some student ->
  faults w = [] ->
  let d := db w in
  let c := courseId request in
  enrollments d !! (userId, c) = Some enrollment ->
  Enrollments.findLessonOfCourse d (lessonId request) c = Some lesson ->
  truthy_bool (isCompleted (progressBody request)) = false ->
  Enrollment.progress
    <$> enrollments (db (run_route (Enrollments.putProgress env) request w).2) !! (userId, c)
  = Some (Enrollments.courseProgressOf (Enrollments.countCompletedLessons d userId c)
            (Enrollments.countTotalLessons d c)).
Proof.
  intros Hauth Hst Hf d c He Hl Hfalsy.
  destruct (student_route env (Enrollments.updateProgress env) _ _ _ _ Hauth Hst)
    as (u & Hid & R).
  unfold Enrollments.putProgress. rewrite R. clear R.
  destruct w as [d0 fs]. proj. subst fs d c.
  unfold Enrollments.updateProgress, req_user. proj.
  rewrite bind_ret, bind_query, Hid. proj. rewrite He.
  rewrite bind_query. proj. rewrite Hl.
  destruct (progressUpdate_falsy env (progressBody request) Uninitialized (mkWorld d0 []) Hfalsy)
    as (onUpdate & Eu & Hkeep).
  rewrite (bind_Ok _ _ _ _ _ Eu).
  write_ok. rewrite !bind_query. proj.
  rewrite countCompletedLessons_upsert, countTotalLessons_set_progress;
    [|done|exact Hfalsy].
  write_ok.
  destruct (Enrollments.justCompleted _ enrollment).
  - rewrite bind_assoc. write_ok.
    destruct (certificates d0 !! Enrollment.id enrollment) as [certificate|] eqn:Hcert.
    + erewrite bind_write_error;
        [|unfold on_table, create; proj; by rewrite Hcert].
      cbn [snd]. proj. by rewrite lookup_insert_eq.
    + write_ok. unfold ret. cbn [snd]. proj. by rewrite lookup_insert_eq.
  - rewrite bind_ret. unfold ret. cbn [snd]. proj. by rewrite lookup_insert_eq.
Qed.

(** C1.  The two counts of the recomputation do not range over the same
    lessons.  On the demo database the course has one active lesson, "l1",
    and a retired one, "l2"; Jane completed both.  The total counts "l1"
    only, the completed count counts both, and the progress recorded by
    an update that only reports watching time is 200. *)
Theorem progress_counts_disagree :
  let d := Demo.database true in
  let run := run_route (Enrollments.putProgress Demo.env)
               (Demo.request "token-jane" "js" "l1" Demo.watched) (mkWorld d []) in
  Enrollments.countTotalLessons d "js" = 1%nat
  /\ Enrollments.countCompletedLessons d "u-jane" "js" = 2%nat
  /\ run.1 = Sent (mkResponse 200 true "Progress updated successfully")
  /\ Enrollment.progress <$> enrollments (db run.2) !! ("u-jane", "js") = Some 200%Q
  /\ Enrollment.status <$> enrollments (db run.2) !! ("u-jane", "js")
     = Some EnrollmentStatus.ACTIVE.
Proof. vm_compute. repeat split; reflexivity. Qed.

Lemma justCompleted_true cp e :
  (cp == 100)%Q -> Enrollment.status e <> EnrollmentStatus.COMPLETED ->
  Enrollments.justCompleted cp e = true.
Proof.
  intros Q S. unfold Enrollments.justCompleted.
  apply Qeq_bool_iff in Q. rewrite Q. destruct (Enrollment.status e); done.
Qed.

Lemma justCompleted_false cp e :
  ~ (cp == 100)%Q \/ Enrollment.status e = EnrollmentStatus.COMPLETED ->
  Enrollments.justCompleted cp e = false.
Proof.
  intros [Q|S]; unfold Enrollments.justCompleted.
  - destruct (Qeq_bool cp 100) eqn:E; [|done]. by apply Qeq_bool_iff in E.
  - rewrite S. apply andb_false_r.
Qed.

(** C3.  For a progress update that gets as far as the recomputation (the
    student is enrolled, the lesson is one of the course, isCompleted in
    the body is not truthy): when the recomputed progress is exactly 100 and
    the enrollment was not COMPLETED, the enrollment becomes COMPLETED with
    a completion timestamp, the student's totalCoursesCompleted goes up by
    one, and one certificate, that of this enrollment, is added; when the
    progress is not 100 or the enrollment was already COMPLETED, the
    status, the completion timestamp, the student rows and the
    certificates are what they were. *)
Theorem completion_effects env request w userId student enrollment lesson :
  Authenticated env (db w) request userId ->
  students (db w) !! userId = Some student ->
  faults w = [] ->
  let d := db w in
  let c := courseId request in
  enrollments d !! (userId, c) = Some enrollment ->
  Enrollments.findLessonOfCourse d (lessonId request) c = Some lesson ->
  truthy_bool (isCompleted (progressBody request)) = false ->
  let courseProgress :=
    Enrollments.courseProgressOf (Enrollments.countCompletedLessons d userId c)
      (Enrollments.countTotalLessons d c) in
  ((courseProgress == 100)%Q ->
   Enrollment.status enrollment <> EnrollmentStatus.COMPLETED ->
   certificates d !! Enrollment.id enrollment = None ->
   exists w' enrollment',
     run_route (Enrollments.putProgress env) request w
     = (Sent (mkResponse 200 true "Progress updated successfully"), w')
     /\ enrollments (db w') !! (userId, c) = Some enrollment'
     /\ Enrollment.status enrollment' = EnrollmentStatus.COMPLETED
     /\ Enrollment.completedAt enrollment' = Some (now env)
     /\ students (db w') !! userId
        = Some (Student.mk (Student.id student) (Student.totalCoursesEnrolled student)
                  (Student.totalCoursesCompleted student + 1))
     /\ certificates (db w')
        = <[Enrollment.id enrollment :=
              Certificate.mk userId c (Enrollments.certificateNumberOf env)]> (certificates d))
  /\ (~ (courseProgress == 100)%Q
      \/ Enrollment.status enrollment = EnrollmentStatus.COMPLETED ->
      exists w' enrollment',
        run_route (Enrollments.putProgress env) request w
        = (Sent (mkResponse 200 true "Progress updated successfully"), w')
        /\ enrollments (db w') !! (userId, c) = Some enrollment'
        /\ Enrollment.status enrollment' = Enrollment.status enrollment
        /\ Enrollment.completedAt enrollment' = Enrollment.completedAt enrollment
        /\ students (db w') = students d
        /\ certificates (db w') = certificates d).
Proof.
  intros Hauth Hst Hf d c He Hl Hfalsy cp.
  destruct (student_route env (Enrollments.updateProgress env) _ _ _ _ Hauth Hst)
    as (u & Hid & R).
  unfold Enrollments.putProgress. rewrite R. clear R.
  destruct w as [d0 fs]. proj. subst fs d c.
  unfold Enrollments.updateProgress, req_user. proj.
  rewrite bind_ret, bind_query, Hid. proj. rewrite He.
  rewrite bind_query. proj. rewrite Hl.
  destruct (progressUpdate_falsy env (progressBody request) Uninitialized (mkWorld d0 []) Hfalsy)
    as (onUpdate & Eu & Hkeep).
  rewrite (bind_Ok _ _ _ _ _ Eu).
  write_ok. rewrite !bind_query. proj.
  rewrite countCompletedLessons_upsert, countTotalLessons_set_progress;
    [|done|exact Hfalsy].
  fold cp. write_ok.
  split.
  - intros Q S Hcert. rewrite (justCompleted_true _ _ Q S), bind_assoc.
    do 2 write_ok. unfold ret.
    do 2 eexists. split; [reflexivity|]. proj.
    rewrite !lookup_insert_eq. unfold Enrollments.enrollmentProgressUpdate.
    rewrite (justCompleted_true _ _ Q S). simpl. done.
  - intros N. rewrite (justCompleted_false _ _ N), bind_ret. unfold ret.
    do 2 eexists. split; [reflexivity|]. proj.
    rewrite lookup_insert_eq. unfold Enrollments.enrollmentProgressUpdate.
    rewrite (justCompleted_false _ _ N). simpl. done.
Qed.

Lemma completion_effects_witness :
  exists w' enrollment',
    run_route (Enrollments.putProgress Demo.env)
      (Demo.request "token-jane" "js" "l1" Demo.watched) (mkWorld (Demo.database false) [])
    = (Sent (mkResponse 200 true "Progress updated successfully"), w')
    /\ enrollments (db w') !! ("u-jane", "js") = Some enrollment'
    /\ Enrollment.status enrollment' = EnrollmentStatus.COMPLETED
    /\ Enrollment.completedAt enrollment' = Some 1700000000000
    /\ students (db w') !! "u-jane" = Some (Student.mk "st-jane" 1 1)
    /\ certificates (db w')
       = {["enr-1" := Certificate.mk "u-jane" "js" "CERT-1700000000000-K3X9QZ"]}.
Proof.
  refine (proj1 (completion_effects Demo.env
                   (Demo.request "token-jane" "js" "l1" Demo.watched)
                   (mkWorld (Demo.database false) []) "u-jane" (Student.mk "st-jane" 1 0)
                   (Enrollment.mk "enr-1" EnrollmentStatus.ACTIVE 0%Q 1600000000000 None None)
                   (Lesson.mk "sec-1" true) _ _ _ _ _ _) _ _ _).
  - apply jane_authenticated.
  - vm_compute. reflexivity.
  - reflexivity.
  - vm_compute. reflexivity.
  - vm_compute. reflexivity.
  - reflexivity.
  - vm_compute. reflexivity.
  - discriminate.
  - vm_compute. reflexivity.
Defined.

(** C2.  The writes of the progress update are separate statements, not
    one transaction.  On the demo database, where Jane has completed the
    only active lesson, the fourth write (the creation of the
    certificate) fails: the error goes to the error handler, and the
    three writes before it stay: the progress row is updated, the
    enrollment is COMPLETED, the student's counter is incremented, and
    there is no certificate. *)
Theorem progress_update_not_atomic :
  let d := Demo.database false in
  let run := run_route (Enrollments.putProgress Demo.env)
               (Demo.request "token-jane" "js" "l1" Demo.watched)
               (mkWorld d [false; false; false; true]) in
  run.1 = NextError ConnectionLost
  /\ Progress.timeSpent <$> progress d !! ("u-jane", "l1") = Some 600
  /\ Progress.timeSpent <$> progress (db run.2) !! ("u-jane", "l1") = Some 5
  /\ Enrollment.status <$> enrollments d !! ("u-jane", "js") = Some EnrollmentStatus.ACTIVE
  /\ Enrollment.status <$> enrollments (db run.2) !! ("u-jane", "js")
     = Some EnrollmentStatus.COMPLETED
  /\ Student.totalCoursesCompleted <$> students d !! "u-jane" = Some 0
  /\ Student.totalCoursesCompleted <$> students (db run.2) !! "u-jane" = Some 1
  /\ certificates (db run.2) !! "enr-1" = None.
Proof. vm_compute. repeat split; reflexivity. Qed.

(** ** DELETE /api/enrollments/:courseId *)

(** The callback of the unenroll transaction either throws or has done
    its four writes. *)
Lemma unenrollWrites_cases userId c enrollment w :
  (exists course student,
     courses (db w) !! c = Some course
     /\ students (db w) !! userId = Some student
     /\ Enrollments.unenrollWrites userId c enrollment w
        = (Ok tt,
           mkWorld
             (mkDB (users (db w))
                (<[userId := Enrollments.incrementTotalCoursesEnrolled (-1) student]>
                   (students (db w)))
                (tutors (db w)) (admins (db w))
                (<[c := Enrollments.incrementTotalEnrollments (-1) course]> (courses (db w)))
                (sections (db w)) (lessons (db w))
                (filter (fun kv => Enrollment.id kv.2 ≠ Enrollment.id enrollment)
                   (enrollments (db w)))
                (Enrollments.deleteProgressOf (Enrollment.id enrollment) (progress (db w)))
                (certificates (db w)) (payments (db w)) (reviews (db w)))
             (tail (tail (tail (tail (faults w)))))))
  \/ (exists e w', Enrollments.unenrollWrites userId c enrollment w = (Throw e, w')).
Proof.
  unfold Enrollments.unenrollWrites.
  destruct (bind_write_cases
              (on_table progress set_progress
                 (fun t => inr (Enrollments.deleteProgressOf (Enrollment.id enrollment) t)))
              (fun _ => write (on_table enrollments set_enrollments
                                 (Enrollments.deleteEnrollment (Enrollment.id enrollment))) ;;
                        write (on_table courses set_courses
                                 (update "Course" c (Enrollments.incrementTotalEnrollments (-1)))) ;;
                        write (on_table students set_students
                                 (update "Student" userId
                                    (Enrollments.incrementTotalCoursesEnrolled (-1))))) w)
    as [(d1 & E1 & ->)|(e & ->)]; [|right; eauto].
  apply on_table_inr in E1 as (t1 & [= <-] & ->).
  match goal with |- context [bind (write ?f) ?k ?w0] =>
    destruct (bind_write_cases f k w0) as [(d2 & E2 & ->)|(e & ->)]; [|right; eauto] end.
  proj. apply on_table_inr in E2 as (t2 & E2 & ->). proj.
  unfold Enrollments.deleteEnrollment in E2. case_bool_decide; [|done].
  injection E2 as <-.
  match goal with |- context [bind (write ?f) ?k ?w0] =>
    destruct (bind_write_cases f k w0) as [(d3 & E3 & ->)|(e & ->)]; [|right; eauto] end.
  proj. apply on_table_inr in E3 as (t3 & E3 & ->). proj.
  apply update_inr in E3 as (course & Hc & ->).
  match goal with |- context [write ?f ?w0] =>
    destruct (write_cases f w0) as [(d4 & E4 & ->)|(e & ->)]; [|right; eauto] end.
  proj. apply on_table_inr in E4 as (t4 & E4 & ->). proj.
  apply update_inr in E4 as (student & Hs & ->).
  left. exists course, student. done.
Qed.

Lemma deleteEnrollment_found (t : gmap (Id * Id) Enrollment.t) k enrollment :
  t !! k = Some enrollment ->
  Enrollments.deleteEnrollment (Enrollment.id enrollment) t
  = inr (filter (fun kv => Enrollment.id kv.2 ≠ Enrollment.id enrollment) t).
Proof.
  intros E. unfold Enrollments.deleteEnrollment. rewrite bool_decide_true; [done|].
  apply Exists_exists. exists (k, enrollment). split; [|done].
  by apply elem_of_map_to_list.
Qed.

(** C9.  Unenrolling from a COMPLETED enrollment is rejected with 400 and
    the world stays as it was.  Otherwise, whatever writes fail, either
    the reply is 200 and all four effects are there (the progress rows of
    the enrollment and the enrollment itself are gone, the course's
    totalEnrollments and the student's totalCoursesEnrolled are one lower),
    or an error is reported and the database is the one before; and when
    no write fails and the course exists the reply is 200. *)
Theorem unenroll_outcomes env request w userId student enrollment :
  Authenticated env (db w) request userId ->
  students (db w) !! userId = Some student ->
  let d := db w in
  let c := courseId request in
  enrollments d !! (userId, c) = Some enrollment ->
  let run := run_route (Enrollments.deleteUnenroll env) request w in
  (Enrollment.status enrollment = EnrollmentStatus.COMPLETED ->
   run = (Sent (mkResponse 400 false "Cannot unenroll from completed course"), w))
  /\ (Enrollment.status enrollment <> EnrollmentStatus.COMPLETED ->
      (exists course,
         courses d !! c = Some course
         /\ run.1 = Sent (mkResponse 200 true "Successfully unenrolled from course")
         /\ db run.2
            = mkDB (users d)
                (<[userId :=
                     Student.mk (Student.id student) (Student.totalCoursesEnrolled student - 1)
                       (Student.totalCoursesCompleted student)]> (students d))
                (tutors d) (admins d)
                (<[c :=
                     Course.mk (Course.title course) (Course.tutorId course)
                       (Course.price course) (Course.currency course)
                       (Course.isPublished course) (Course.status course)
                       (Course.totalEnrollments course - 1)
                       (Course.totalRevenue course) (Course.averageRating course)
                       (Course.totalReviews course)]> (courses d))
                (sections d) (lessons d)
                (filter (fun kv => Enrollment.id kv.2 ≠ Enrollment.id enrollment) (enrollments d))
                (filter (fun kv => Progress.enrollmentId kv.2 ≠ Enrollment.id enrollment)
                   (progress d))
                (certificates d) (payments d) (reviews d))
      \/ (exists e, run.1 = NextError e /\ db run.2 = d))
  /\ (Enrollment.status enrollment <> EnrollmentStatus.COMPLETED ->
      faults w = [] ->
      is_Some (courses d !! c) ->
      run.1 = Sent (mkResponse 200 true "Successfully unenrolled from course")).
Proof.
  intros Hauth Hst d c He run.
  destruct (student_route env Enrollments.unenroll _ _ _ _ Hauth Hst) as (u & Hid & R).
  subst run. unfold Enrollments.deleteUnenroll. rewrite R. clear R.
  unfold Enrollments.unenroll, req_user. proj.
  rewrite bind_ret, bind_query, Hid. fold d c. rewrite He.
  split; [|split].
  - intros ->. reflexivity.
  - intros S.
    replace (EnrollmentStatus.isCompleted (Enrollment.status enrollment)) with false
      by (by destruct (Enrollment.status enrollment)).
    destruct (unenrollWrites_cases userId c enrollment w)
      as [(course & student' & Hc & Hs' & E)|(e & w' & E)].
    + left. exists course. split; [done|].
      rewrite (bind_Ok _ _ _ _ _ (transaction_Ok _ _ _ _ E)). unfold ret. simpl.
      split; [done|]. subst d c. rewrite Hst in Hs'. by injection Hs' as <-.
    + right. exists e.
      by rewrite (bind_Throw _ _ _ _ _ (transaction_Throw _ _ _ _ E)).
  - intros S Hf [course Hc].
    replace (EnrollmentStatus.isCompleted (Enrollment.status enrollment)) with false
      by (by destruct (Enrollment.status enrollment)).
    destruct w as [d0 fs]. proj. subst fs d.
    erewrite bind_Ok; [reflexivity|]. apply transaction_Ok.
    unfold Enrollments.unenrollWrites.
    write_ok.
    erewrite bind_write_ok;
      [|apply on_table_ok; proj; by apply (deleteEnrollment_found _ (userId, c))].
    write_ok.
    apply write_run_ok. apply on_table_ok. proj. eapply update_ok. eassumption.
Qed.

Lemma unenroll_outcomes_witness :
  let run := run_route (Enrollments.deleteUnenroll Demo.env)
               (Demo.request "token-jane" "js" "" Demo.watched)
               (mkWorld (Demo.database true) []) in
  run.1 = Sent (mkResponse 200 true "Successfully unenrolled from course")
  /\ enrollments (db run.2) = ∅
  /\ progress (db run.2) = ∅
  /\ Course.totalEnrollments <$> courses (db run.2) !! "js" = Some 0
  /\ Student.totalCoursesEnrolled <$> students (db run.2) !! "u-jane" = Some 0
  /\ Course.totalEnrollments <$> courses (db run.2) !! "py" = Some 1
  /\ tutors (db run.2) = tutors (Demo.database true).
Proof.
  intros run.
  destruct (unenroll_outcomes Demo.env (Demo.request "token-jane" "js" "" Demo.watched)
              (mkWorld (Demo.database true) []) "u-jane" (Student.mk "st-jane" 1 0)
              (Enrollment.mk "enr-1" EnrollmentStatus.ACTIVE 0%Q 1600000000000 None None))
    as (_ & Cases & Sent200).
  - apply jane_authenticated.
  - vm_compute. reflexivity.
  - vm_compute. reflexivity.
  - assert (R : run.1 = Sent (mkResponse 200 true "Successfully unenrolled from course")).
    { apply Sent200; [discriminate|reflexivity|vm_compute; eauto]. }
    split; [exact R|].
    destruct Cases as [(course & Hc & _ & Hdb)|(e & He & _)]; [discriminate| |].
    + fold run in Hdb. rewrite Hdb.
      vm_compute in Hc. injection Hc as <-.
      vm_compute. repeat split; reflexivity.
    + fold run in He. rewrite R in He. discriminate He.
Defined.

(** ** The payment webhook *)

Lemma paymentSuccessWrites_cases env paymentIntent w :
  let d := db w in
  let student_ := Payments.studentId paymentIntent in
  let course_ := Payments.courseId paymentIntent in
  (exists payment course tutor student,
     payments d !! Payments.id paymentIntent = Some payment
     /\ enrollments d !! (student_, course_) = None
     /\ courses d !! course_ = Some course
     /\ tutors d !! Payments.tutorId paymentIntent = Some tutor
     /\ students d !! student_ = Some student
     /\ Payments.paymentSuccessWrites env paymentIntent w
        = (Ok tt,
           mkWorld
             (mkDB (users d)
                (<[student_ := Enrollments.incrementTotalCoursesEnrolled 1 student]> (students d))
                (<[Payments.tutorId paymentIntent := Payments.recordEarnings paymentIntent tutor]>
                   (tutors d))
                (admins d)
                (<[course_ := Payments.recordSale paymentIntent course]> (courses d))
                (sections d) (lessons d)
                (<[(student_, course_) := Enrollments.newEnrollment env]> (enrollments d))
                (progress d) (certificates d)
                (<[Payments.id paymentIntent := Payments.markPaid env payment]> (payments d))
                (reviews d))
             (tail (tail (tail (tail (tail (faults w))))))))
  \/ (exists e w', Payments.paymentSuccessWrites env paymentIntent w = (Throw e, w')).
Proof.
  intros d student_ course_. subst d student_ course_.
  unfold Payments.paymentSuccessWrites.
  match goal with |- context [bind (write ?f) ?k ?w0] =>
    destruct (bind_write_cases f k w0) as [(d1 & E1 & ->)|(e & ->)]; [|right; eauto] end.
  apply on_table_inr in E1 as (t1 & E1 & ->).
  apply update_inr in E1 as (payment & Hp & ->).
  match goal with |- context [bind (write ?f) ?k ?w0] =>
    destruct (bind_write_cases f k w0) as [(d2 & E2 & ->)|(e & ->)]; [|right; eauto] end.
  proj. apply on_table_inr in E2 as (t2 & E2 & ->). proj.
  apply create_inr in E2 as (He & ->).
  match goal with |- context [bind (write ?f) ?k ?w0] =>
    destruct (bind_write_cases f k w0) as [(d3 & E3 & ->)|(e & ->)]; [|right; eauto] end.
  proj. apply on_table_inr in E3 as (t3 & E3 & ->). proj.
  apply update_inr in E3 as (course & Hc & ->).
  match goal with |- context [bind (write ?f) ?k ?w0] =>
    destruct (bind_write_cases f k w0) as [(d4 & E4 & ->)|(e & ->)]; [|right; eauto] end.
  proj. apply on_table_inr in E4 as (t4 & E4 & ->). proj.
  apply update_inr in E4 as (tutor & Ht & ->).
  match goal with |- context [write ?f ?w0] =>
    destruct (write_cases f w0) as [(d5 & E5 & ->)|(e & ->)]; [|right; eauto] end.
  proj. apply on_table_inr in E5 as (t5 & E5 & ->). proj.
  apply update_inr in E5 as (student & Hs & ->).
  left. exists payment, course, tutor, student. done.
Qed.

(** C5.  Handling payment_intent.succeeded never throws and, whatever
    writes fail, leaves one of two databases: the one before, or the one
    in which the payment of the intent is COMPLETED with a paidAt, an
    ACTIVE enrollment of the student in the course is created, the
    course's totalEnrollments is one higher and its totalRevenue higher by
    the paid amount, the tutor's totalStudents is one higher and the
    totalEarnings higher by 85% of the paid amount, and the student's
    totalCoursesEnrolled is one higher.  When no write fails, the rows
    exist and the student is not yet enrolled, it is the second. *)
Theorem payment_success_all_or_nothing env paymentIntent w :
  let d := db w in
  let student_ := Payments.studentId paymentIntent in
  let course_ := Payments.courseId paymentIntent in
  let tutor_ := Payments.tutorId paymentIntent in
  let run := Payments.handlePaymentSuccess env paymentIntent w in
  let paid payment course tutor student :=
    mkDB (users d)
      (<[student_ := Student.mk (Student.id student) (Student.totalCoursesEnrolled student + 1)
                       (Student.totalCoursesCompleted student)]> (students d))
      (<[tutor_ := Tutor.mk (Tutor.userId tutor) (Tutor.totalStudents tutor + 1)
                     (Tutor.totalEarnings tutor
                      + inject_Z (Payments.amount paymentIntent) / 100 * (85 # 100))%Q
                     (Tutor.totalReviews tutor)]> (tutors d))
      (admins d)
      (<[course_ := Course.mk (Course.title course) (Course.tutorId course)
                      (Course.price course) (Course.currency course)
                      (Course.isPublished course) (Course.status course)
                      (Course.totalEnrollments course + 1)
                      (Course.totalRevenue course
                       + inject_Z (Payments.amount paymentIntent) / 100)%Q
                      (Course.averageRating course) (Course.totalReviews course)]> (courses d))
      (sections d) (lessons d)
      (<[(student_, course_) :=
           Enrollment.mk (cuid env) EnrollmentStatus.ACTIVE 0%Q (now env) None None]>
         (enrollments d))
      (progress d) (certificates d)
      (<[Payments.id paymentIntent :=
           Payment.mk (Payment.userId payment) (Payment.courseId payment)
             (Payment.amount payment) PaymentStatus.COMPLETED (Some (now env))
             (Payment.failedAt payment)]> (payments d))
      (reviews d) in
  run.1 = Ok tt
  /\ (db run.2 = d
      \/ exists payment course tutor student,
           payments d !! Payments.id paymentIntent = Some payment
           /\ enrollments d !! (student_, course_) = None
           /\ courses d !! course_ = Some course
           /\ tutors d !! tutor_ = Some tutor
           /\ students d !! student_ = Some student
           /\ db run.2 = paid payment course tutor student)
  /\ (forall payment course tutor student,
        faults w = [] ->
        payments d !! Payments.id paymentIntent = Some payment ->
        enrollments d !! (student_, course_) = None ->
        courses d !! course_ = Some course ->
        tutors d !! tutor_ = Some tutor ->
        students d !! student_ = Some student ->
        db run.2 = paid payment course tutor student).
Proof.
  intros d student_ course_ tutor_ run paid.
  assert (Cases : run.1 = Ok tt
                  /\ (db run.2 = d
                      \/ exists payment course tutor student,
                           payments d !! Payments.id paymentIntent = Some payment
                           /\ enrollments d !! (student_, course_) = None
                           /\ courses d !! course_ = Some course
                           /\ tutors d !! tutor_ = Some tutor
                           /\ students d !! student_ = Some student
                           /\ db run.2 = paid payment course tutor student)).
  { subst run. unfold Payments.handlePaymentSuccess, Payments.catch_and_log.
    destruct (paymentSuccessWrites_cases env paymentIntent w)
      as [(payment & course & tutor & student & Hp & He & Hc & Ht & Hs & E)|(e & w' & E)].
    - rewrite (transaction_Ok _ _ _ _ E). split; [done|]. right.
      exists payment, course, tutor, student. done.
    - rewrite (transaction_Throw _ _ _ _ E). split; [done|]. by left. }
  destruct Cases as [Hok Hdb]. split; [done|]. split; [done|].
  intros payment course tutor student Hf Hp He Hc Ht Hs.
  subst run. unfold Payments.handlePaymentSuccess, Payments.catch_and_log.
  destruct w as [d0 fs]. proj. subst fs d student_ course_ tutor_.
  assert (E : Payments.paymentSuccessWrites env paymentIntent (mkWorld d0 [])
              = (Ok tt, mkWorld (paid payment course tutor student) [])).
  { unfold Payments.paymentSuccessWrites.
    do 4 write_ok.
    erewrite write_run_ok;
      [|apply on_table_ok; proj; eapply update_ok; eassumption].
    reflexivity. }
  by rewrite (transaction_Ok _ _ _ _ E).
Qed.

Lemma payment_success_all_or_nothing_witness :
  Payment.status
    <$> payments (db (Payments.handlePaymentSuccess Demo.env Demo.intent
                        (mkWorld (Demo.database false) [])).2) !! "pi_1"
  = Some PaymentStatus.COMPLETED
  /\ Tutor.totalEarnings
        <$> tutors (db (Payments.handlePaymentSuccess Demo.env Demo.intent
                          (mkWorld (Demo.database false) [])).2) !! "t-john"
     = Some (0 + 4999 / 100 * (85 # 100))%Q.
Proof.
  rewrite (proj2 (proj2 (payment_success_all_or_nothing Demo.env Demo.intent
                           (mkWorld (Demo.database false) [])))
             (Payment.mk "u-jane" "py" (4999 # 100) PaymentStatus.PENDING None None)
             (Demo.course (4999 # 100) true)
             (Tutor.mk "u-john" 1 0%Q 0)
             (Student.mk "st-jane" 1 0)
             eq_refl eq_refl eq_refl eq_refl eq_refl eq_refl).
  vm_compute. split; reflexivity.
Defined.

(** ** The review routes *)

Lemma sumZ_Permutation l l' : l ≡ₚ l' -> Reviews.sumZ l = Reviews.sumZ l'.
Proof.
  induction 1 as [|x l l' _ IH|x y l|l l' l'' _ IH1 _ IH2]; simpl.
  - done.
  - by rewrite IH.
  - lia.
  - congruence.
Qed.

Lemma mean_ext l l' :
  Reviews.sumZ l = Reviews.sumZ l' -> length l = length l' -> mean l = mean l'.
Proof.
  intros S L. destruct l, l'; try discriminate; [done|].
  unfold mean. by rewrite S, L.
Qed.

Lemma or_zero_avg l : (Reviews.or_zero (Reviews.avg l) == mean l)%Q.
Proof.
  destruct l as [|x l]; [reflexivity|].
  unfold Reviews.avg, mean, Reviews.or_zero.
  destruct (Qeq_bool _ 0) eqn:E; [|reflexivity].
  apply Qeq_bool_iff in E. by rewrite E.
Qed.

(** The ratings of a course after one review row was replaced by a row
    that is published or not like the one before. *)
Lemma publishedRatings_replace d k rev rev' c :
  reviews d !! k = Some rev ->
  Review.isPublished rev' = Review.isPublished rev ->
  exists rest,
    let counted := bool_decide (k.2 = c ∧ Review.isPublished rev = true) in
    Reviews.publishedRatings d c
    ≡ₚ (if counted then Review.rating rev :: rest else rest)
    /\ Reviews.publishedRatings (set_reviews (<[k := rev']> (reviews d)) d) c
       ≡ₚ (if counted then Review.rating rev' :: rest else rest).
Proof.
  intros E P. unfold Reviews.publishedRatings. proj.
  destruct (map_to_list_replace (reviews d) k rev rev' E) as [H1 H2].
  exists ((fun kv => Review.rating kv.2)
            <$> filter (fun kv : Id * Id * Review.t =>
                          kv.1.2 = c ∧ Review.isPublished kv.2 = true)
                  (map_to_list (delete k (reviews d)))).
  cbv zeta. rewrite H1, H2, !filter_cons. cbn [fst snd]. rewrite P.
  split; case_bool_decide; case_decide; try tauto; by rewrite ?fmap_cons.
Qed.

Lemma publishedRatings_replace_length d k rev rev' c :
  reviews d !! k = Some rev ->
  Review.isPublished rev' = Review.isPublished rev ->
  length (Reviews.publishedRatings (set_reviews (<[k := rev']> (reviews d)) d) c)
  = length (Reviews.publishedRatings d c).
Proof.
  intros E P. destruct (publishedRatings_replace d k rev rev' c E P) as (rest & -> & ->).
  by case_bool_decide.
Qed.

Lemma publishedRatings_replace_sum d k rev rev' c :
  reviews d !! k = Some rev ->
  Review.isPublished rev' = Review.isPublished rev ->
  Review.rating rev' = Review.rating rev ->
  Reviews.sumZ (Reviews.publishedRatings (set_reviews (<[k := rev']> (reviews d)) d) c)
  = Reviews.sumZ (Reviews.publishedRatings d c).
Proof.
  intros E P R. destruct (publishedRatings_replace d k rev rev' c E P) as (rest & H1 & H2).
  rewrite (sumZ_Permutation _ _ H1), (sumZ_Permutation _ _ H2), R. done.
Qed.

Lemma publishedRatings_insert_other d d' k rev other :
  reviews d' = <[k := rev]> (reviews d) ->
  k.2 <> other ->
  Reviews.publishedRatings d' other ≡ₚ Reviews.publishedRatings d other.
Proof.
  intros Er N. unfold Reviews.publishedRatings. rewrite Er. clear Er.
  destruct (reviews d !! k) as [old|] eqn:E.
  - destruct (map_to_list_replace (reviews d) k old rev E) as [-> ->].
    rewrite !filter_cons_False; [done| |]; cbn [fst snd]; tauto.
  - rewrite (map_to_list_insert _ _ _ E), filter_cons_False; [done|].
    cbn [fst snd]. tauto.
Qed.

Lemma publishedRatings_delete_other d d' k other :
  reviews d' = delete k (reviews d) ->
  k.2 <> other ->
  Reviews.publishedRatings d' other ≡ₚ Reviews.publishedRatings d other.
Proof.
  intros Er N. unfold Reviews.publishedRatings. rewrite Er. clear Er.
  destruct (reviews d !! k) as [old|] eqn:E.
  - rewrite <- (map_to_list_delete _ _ _ E), filter_cons_False; [done|].
    cbn [fst snd]. tauto.
  - by rewrite (delete_id _ _ E).
Qed.

Lemma RatingStatisticsHold_transfer d d' c :
  RatingStatisticsHold d c ->
  courses d' !! c = courses d !! c ->
  Reviews.publishedRatings d' c ≡ₚ Reviews.publishedRatings d c ->
  RatingStatisticsHold d' c.
Proof.
  intros (course & Hc & Havg & Htotal) Ec Ep. exists course.
  split; [by rewrite Ec|].
  assert (L : length (Reviews.publishedRatings d' c) = length (Reviews.publishedRatings d c))
    by (by rewrite Ep).
  split; [|by rewrite L].
  rewrite Havg. by rewrite (mean_ext _ _ (sumZ_Permutation _ _ Ep) L).
Qed.

(** The invariant survives a step that leaves the other courses alone and
    the course of the request right, if it is still there. *)
Lemma RatingStatisticsInvariant_step c d d' :
  RatingStatisticsInvariant d ->
  OtherCoursesUntouched c d d' ->
  (is_Some (courses d' !! c) -> RatingStatisticsHold d' c) ->
  RatingStatisticsInvariant d'.
Proof.
  intros Inv Other Here c' Hc'.
  destruct (decide (c' = c)) as [->|N]; [by apply Here|].
  destruct (Other c' N) as [Ec Ep].
  apply (RatingStatisticsHold_transfer d); [|done|done].
  apply Inv. by rewrite <- Ec.
Qed.

Lemma createReview_sent u request w r w' :
  Reviews.createReview (mkCtx request (Some u)) w = (Ok r, w') ->
  (w' = w /\ status r <> 201%nat)
  \/ (status r = 201%nat
      /\ RatingStatisticsHold (db w') (courseId request)
      /\ OtherCoursesUntouched (courseId request) (db w) (db w')).
Proof.
  intros H. unfold Reviews.createReview, req_user in H. proj.
  rewrite bind_ret, bind_query in H.
  destruct (courses (db w) !! courseId request) as [course|];
    [|injection H as <- <-; by left].
  rewrite bind_query in H.
  destruct (enrollments (db w) !! _) as [enrollment|];
    [|injection H as <- <-; by left].
  rewrite bind_query in H.
  destruct (reviews (db w) !! _) as [existing|];
    [injection H as <- <-; by left|].
  destruct (rating (reviewBody request)) as [newRating|];
    [rewrite bind_ret in H|by rewrite bind_throw in H].
  write_inv H d1 E1. apply create_inr in E1 as (_ & ->).
  rewrite !bind_query in H. proj.
  write_inv H d2 E2. apply update_inr in E2 as (course' & Hc' & ->).
  write_inv H d3 E3.
  injection H as <- <-. right. split; [done|]. split.
  - eexists. proj. split; [apply lookup_insert_eq|].
    split; [apply or_zero_avg|reflexivity].
  - intros other N. proj. split; [by apply lookup_insert_ne|].
    by eapply publishedRatings_insert_other.
Qed.

Lemma deleteReview_sent u request w r w' :
  Reviews.deleteReview (mkCtx request (Some u)) w = (Ok r, w') ->
  (w' = w /\ status r <> 200%nat)
  \/ (status r = 200%nat
      /\ RatingStatisticsHold (db w') (courseId request)
      /\ OtherCoursesUntouched (courseId request) (db w) (db w')).
Proof.
  intros H. unfold Reviews.deleteReview, req_user in H. proj.
  rewrite bind_ret, bind_query in H.
  destruct (reviews (db w) !! _) as [review|] eqn:Hr;
    [|injection H as <- <-; by left].
  rewrite bind_query in H.
  write_inv H d1 E1.
  unfold Reviews.deleteRow in E1. rewrite Hr in E1. injection E1 as <-.
  rewrite !bind_query in H. proj.
  write_inv H d2 E2. apply update_inr in E2 as (course' & Hc' & ->).
  destruct (courses (db w) !! courseId request) as [course|];
    [|by rewrite bind_throw in H].
  write_inv H d3 E3.
  injection H as <- <-. right. split; [done|]. split.
  - eexists. proj. split; [apply lookup_insert_eq|].
    split; [apply or_zero_avg|reflexivity].
  - intros other N. proj. split; [by apply lookup_insert_ne|].
    by eapply publishedRatings_delete_other.
Qed.

Lemma updateReview_sent u request w r w' :
  Reviews.updateReview (mkCtx request (Some u)) w = (Ok r, w') ->
  (RatingStatisticsHold (db w) (courseId request) ->
   RatingStatisticsHold (db w') (courseId request))
  /\ (is_Some (courses (db w') !! courseId request) ->
      is_Some (courses (db w) !! courseId request))
  /\ OtherCoursesUntouched (courseId request) (db w) (db w').
Proof.
  intros H. unfold Reviews.updateReview, req_user in H. proj.
  rewrite bind_ret, bind_query in H.
  destruct (reviews (db w) !! _) as [existing|] eqn:Hr;
    [|injection H as <- <-; by repeat split].
  write_inv H d1 E1. apply update_inr in E1 as (rev & Hrev & ->).
  destruct (rating (reviewBody request)) as [newRating|] eqn:Hrating.
  - rewrite bind_assoc, bind_query in H. proj.
    write_inv H d2 E2. apply update_inr in E2 as (course' & Hc' & ->).
    injection H as <- <-. proj. split; [|split].
    + intros (course & Hc & Havg & Htotal).
      rewrite Hc in Hc'. injection Hc' as <-.
      eexists. proj. split; [apply lookup_insert_eq|].
      split; [apply or_zero_avg|].
      cbn [Reviews.setStatistics Course.totalReviews default].
      rewrite Htotal. f_equal. symmetry.
      by apply (publishedRatings_replace_length (db w) _ rev).
    + by rewrite Hc'.
    + intros other N. proj. split; [by apply lookup_insert_ne|].
      by eapply publishedRatings_insert_other.
  - rewrite bind_ret in H. injection H as <- <-. proj. split; [|split].
    + intros (course & Hc & Havg & Htotal).
      exists course. proj. split; [done|].
      assert (L : length (Reviews.publishedRatings
                            (set_reviews
                               (<[(AuthUser.id u, courseId request) :=
                                    Reviews.applyUpdateData (reviewBody request) rev]>
                                  (reviews (db w))) (db w)) (courseId request))
                  = length (Reviews.publishedRatings (db w) (courseId request))).
      { by apply (publishedRatings_replace_length (db w) _ rev). }
      split; [|by rewrite L].
      rewrite Havg. erewrite mean_ext; [reflexivity| |by rewrite L].
      symmetry. apply (publishedRatings_replace_sum (db w) _ rev); [done|done|].
      unfold Reviews.applyUpdateData. by rewrite Hrating.
    + done.
    + intros other N. proj. split; [done|].
      by eapply publishedRatings_insert_other.
Qed.

(** An update that sends a rating recomputes the average over the
    reviews as they are after it, and leaves totalReviews alone. *)
Lemma updateReview_rated u request w r w' newRating course :
  Reviews.updateReview (mkCtx request (Some u)) w = (Ok r, w') ->
  status r = 200%nat ->
  rating (reviewBody request) = Some newRating ->
  courses (db w) !! courseId request = Some course ->
  exists course',
    courses (db w') !! courseId request = Some course'
    /\ (Course.averageRating course'
        == mean (Reviews.publishedRatings (db w') (courseId request)))%Q
    /\ Course.totalReviews course' = Course.totalReviews course.
Proof.
  intros H S Hrating Hc. unfold Reviews.updateReview, req_user in H. proj.
  rewrite bind_ret, bind_query in H.
  destruct (reviews (db w) !! _) as [existing|] eqn:Hr;
    [|injection H as <- <-; discriminate S].
  write_inv H d1 E1. apply update_inr in E1 as (rev & Hrev & ->).
  rewrite Hrating in H. rewrite bind_assoc, bind_query in H. proj.
  write_inv H d2 E2. apply update_inr in E2 as (course0 & Hc0 & ->).
  injection H as <- <-. proj.
  rewrite Hc in Hc0. injection Hc0 as <-.
  eexists. split; [apply lookup_insert_eq|].
  split; [apply or_zero_avg|reflexivity].
Qed.

(** C8.  The derived columns of a course are averageRating, the mean of
    the ratings of its published reviews, 0 when there are none, and
    totalReviews, their number.  Both are right after a review of the
    course was created (201) or deleted (200).  An update (200) that sends
    a rating recomputes averageRating, which is right after it, and
    leaves totalReviews as it was; so an update keeps the two columns
    right when they were right before.  The invariant that they are
    right for every course is preserved by each of the three review
    routes, whatever reply it sends. *)
Theorem review_statistics_invariant env request w :
  let c := courseId request in
  (forall r w',
     run_route (Reviews.postReview env) request w = (Sent r, w') ->
     status r = 201%nat -> RatingStatisticsHold (db w') c)
  /\ (forall r w',
        run_route (Reviews.deleteReviewRoute env) request w = (Sent r, w') ->
        status r = 200%nat -> RatingStatisticsHold (db w') c)
  /\ (forall r w' newRating course,
        run_route (Reviews.putReview env) request w = (Sent r, w') ->
        status r = 200%nat ->
        rating (reviewBody request) = Some newRating ->
        courses (db w) !! c = Some course ->
        exists course',
          courses (db w') !! c = Some course'
          /\ (Course.averageRating course' == mean (Reviews.publishedRatings (db w') c))%Q
          /\ Course.totalReviews course' = Course.totalReviews course)
  /\ (forall r w',
        run_route (Reviews.putReview env) request w = (Sent r, w') ->
        RatingStatisticsHold (db w) c -> RatingStatisticsHold (db w') c)
  /\ (forall route r w',
        route ∈ [Reviews.postReview env; Reviews.putReview env; Reviews.deleteReviewRoute env] ->
        RatingStatisticsInvariant (db w) ->
        run_route route request w = (Sent r, w') ->
        RatingStatisticsInvariant (db w')).
Proof.
  intros c.
  assert (Hpost : Forall Checks [isStudent; Reviews.validate Reviews.validCreateReview])
    by (repeat constructor; [apply isStudent_checks|apply validate_checks]).
  assert (Hput : Forall Checks [isStudent; Reviews.validate Reviews.validUpdateReview])
    by (repeat constructor; [apply isStudent_checks|apply validate_checks]).
  assert (Hdel : Forall Checks [isStudent])
    by (repeat constructor; apply isStudent_checks).
  split; [|split; [|split; [|split]]].
  - intros r w' H S. unfold Reviews.postReview in H.
    apply (guarded_route_sent _ _ _ _ _ _ _ Hpost) in H as [[_ B]|[u H]]; [lia|].
    apply createReview_sent in H as [[_ N]|(_ & I & _)]; done.
  - intros r w' H S. unfold Reviews.deleteReviewRoute in H.
    apply (guarded_route_sent _ _ _ _ _ _ _ Hdel) in H as [[_ B]|[u H]]; [lia|].
    apply deleteReview_sent in H as [[_ N]|(_ & I & _)]; done.
  - intros r w' newRating course H S Hrating Hc. unfold Reviews.putReview in H.
    apply (guarded_route_sent _ _ _ _ _ _ _ Hput) in H as [[_ B]|[u H]]; [lia|].
    by apply (updateReview_rated u request w r w' newRating course).
  - intros r w' H Hold. unfold Reviews.putReview in H.
    apply (guarded_route_sent _ _ _ _ _ _ _ Hput) in H as [[-> _]|[u H]]; [done|].
    apply updateReview_sent in H as (I & _ & _). by apply I.
  - intros route r w' Hroute Inv H.
    repeat (apply elem_of_cons in Hroute as [->|Hroute]); [| | |by apply elem_of_nil in Hroute].
    + unfold Reviews.postReview in H.
      apply (guarded_route_sent _ _ _ _ _ _ _ Hpost) in H as [[-> _]|[u H]]; [done|].
      apply createReview_sent in H as [[-> _]|(_ & I & O)]; [done|].
      by apply (RatingStatisticsInvariant_step c (db w)).
    + unfold Reviews.putReview in H.
      apply (guarded_route_sent _ _ _ _ _ _ _ Hput) in H as [[-> _]|[u H]]; [done|].
      apply updateReview_sent in H as (I & S & O).
      apply (RatingStatisticsInvariant_step c (db w)); [done|done|].
      intros Hc. apply I, Inv, S, Hc.
    + unfold Reviews.deleteReviewRoute in H.
      apply (guarded_route_sent _ _ _ _ _ _ _ Hdel) in H as [[-> _]|[u H]]; [done|].
      apply deleteReview_sent in H as [[-> _]|(_ & I & O)]; [done|].
      by apply (RatingStatisticsInvariant_step c (db w)).
Qed.

(** The demo database with the statistics of its courses brought up to
    date: the one review, of "js", has rating 5. *)
Lemma demo_statistics :
  RatingStatisticsInvariant
    (set_courses (<["js" := Reviews.setStatistics 5%Q (Some 1) (Demo.course (9999 # 100) true)]>
                    (courses (Demo.database false)))
       (Demo.database false)).
Proof.
  intros c Hc.
  assert (D : c = "js" \/ c = "py" \/ c = "free" \/ c = "draft").
  { apply elem_of_dom in Hc. revert Hc.
    cbn [courses set_courses Demo.database].
    rewrite !dom_insert_L, dom_singleton_L, !elem_of_union, !elem_of_singleton. tauto. }
  destruct D as [->|[->|[->| ->]]];
    (eexists; split; [vm_compute; reflexivity|]; vm_compute; split; reflexivity).
Qed.

Lemma review_statistics_invariant_witness :
  exists r w',
    run_route (Reviews.putReview Demo.env)
      (mkRequest (Some "Bearer token-jane") "js" "" None None None Demo.watched
         (mkReviewBody (Some 3) None None))
      (mkWorld (set_courses (<["js" := Reviews.setStatistics 5%Q (Some 1)
                                         (Demo.course (9999 # 100) true)]>
                               (courses (Demo.database false)))
                  (Demo.database false)) [])
    = (Sent r, w')
    /\ status r = 200%nat
    /\ RatingStatisticsInvariant (db w').
Proof.
  eexists _, _. split; [vm_compute; reflexivity|]. split; [reflexivity|].
  refine (proj2 (proj2 (proj2 (proj2 (review_statistics_invariant Demo.env
                          (mkRequest (Some "Bearer token-jane") "js" "" None None None
                             Demo.watched (mkReviewBody (Some 3) None None))
                          (mkWorld (set_courses
                                      (<["js" := Reviews.setStatistics 5%Q (Some 1)
                                                   (Demo.course (9999 # 100) true)]>
                                         (courses (Demo.database false)))
                                      (Demo.database false)) [])))))
            (Reviews.putReview Demo.env) _ _ _ _ _).
  - set_solver.
  - apply demo_statistics.
  - vm_compute. reflexivity.
Defined.

(** C8, as the claim states it, fails for an update.  In the database of
    the seed the course "js" has one published review while its
    totalReviews is 0; Jane's update of the rating of that review is
    answered with 200, and afterwards totalReviews is still 0: the update
    route recomputes averageRating only. *)
Lemma review_update_leaves_totalReviews :
  let request :=
    mkRequest (Some "Bearer token-jane") "js" "" None None None Demo.watched
      (mkReviewBody (Some 3) None None) in
  let run := run_route (Reviews.putReview Demo.env) request
               (mkWorld (Demo.database false) []) in
  run.1 = Sent (mkResponse 200 true "Review updated successfully")
  /\ Reviews.publishedRatings (db run.2) "js" = [3]
  /\ Course.totalReviews <$> courses (db run.2) !! "js" = Some 0
  /\ ~ RatingStatisticsHold (db run.2) "js".
Proof.
  intros request run.
  assert (Hr : Reviews.publishedRatings (db run.2) "js" = [3]) by (vm_compute; reflexivity).
  assert (Ht : Course.totalReviews <$> courses (db run.2) !! "js" = Some 0)
    by (vm_compute; reflexivity).
  split; [vm_compute; reflexivity|]. split; [exact Hr|]. split; [exact Ht|].
  intros (course & Hc & _ & Htotal).
  rewrite Hc in Ht. injection Ht as Ht. rewrite Hr, Ht in Htotal. discriminate Htotal.
Qed.

(** ** GET /api/auth/me *)

Lemma mentions_omit key object :
  Forall (fun member => AuthRoutes.mentions key member.2 = false) object ->
  AuthRoutes.mentions key (JObject (AuthRoutes.omit key object)) = false.
Proof.
  unfold AuthRoutes.omit. induction 1 as [|[name value] object Hv _ IH]; [done|].
  rewrite filter_cons. case_decide as Hn; [|exact IH].
  simpl in *. rewrite Hv, orb_false_r. simpl in IH. rewrite IH, orb_false_r.
  by apply String.eqb_neq.
Qed.

Lemma mentions_optional {A} key (f : A -> Json) x :
  (forall a, AuthRoutes.mentions key (f a) = false) ->
  AuthRoutes.mentions key (AuthRoutes.optional f x) = false.
Proof. intros Hf. destruct x; [apply Hf|done]. Qed.

Lemma mentions_permissions names :
  AuthRoutes.mentions "password" (JArray (AuthRoutes.permissionJson <$> names)) = false.
Proof. induction names as [|n names IH]; [done|]. simpl in *. exact IH. Qed.

Lemma mentions_roles roles :
  AuthRoutes.mentions "password" (JArray (AuthRoutes.roleJson <$> roles)) = false.
Proof.
  induction roles as [|r roles IH]; [done|].
  cbn [fmap list_fmap AuthRoutes.mentions existsb] in *.
  rewrite IH, orb_false_r. unfold AuthRoutes.roleJson.
  pose proof (mentions_permissions (Role.permissions r)) as Hp.
  simpl in *. by rewrite Hp.
Qed.

Lemma user_object_members d userId object :
  AuthRoutes.findUserWithProfiles d userId = Some object ->
  Forall (fun member => AuthRoutes.mentions "password" member.2 = false) object.
Proof.
  unfold AuthRoutes.findUserWithProfiles.
  destruct (users d !! userId) as [u|]; [|done]. intros [= <-].
  repeat constructor; cbn [snd];
    try apply mentions_optional; try apply mentions_roles;
    try apply mentions_permissions; done.
Qed.

Lemma user_object_without_password d userId p :
  AuthRoutes.omit "password" <$> AuthRoutes.findUserWithProfiles
                                 (set_users (alter (User.with_password p) userId (users d)) d)
                                 userId
  = AuthRoutes.omit "password" <$> AuthRoutes.findUserWithProfiles d userId.
Proof.
  unfold AuthRoutes.findUserWithProfiles, tutor_of_user. proj.
  rewrite lookup_alter_eq. destruct (users d !! userId) as [u|]; reflexivity.
Qed.

Lemma user_object_other d userId userId' p :
  userId <> userId' ->
  AuthRoutes.findUserWithProfiles
    (set_users (alter (User.with_password p) userId (users d)) d) userId'
  = AuthRoutes.findUserWithProfiles d userId'.
Proof.
  intros N. unfold AuthRoutes.findUserWithProfiles, tutor_of_user. proj.
  by rewrite lookup_alter_ne.
Qed.

(** C10.  A reply of GET /api/auth/me has no member called password
    anywhere in its data, and it does not depend on a stored password: in
    the world that differs from [w] in the password of one user, whoever
    that is, the route sends the reply it sends in [w]. *)
Theorem me_hides_password env request w :
  (forall r w',
     run_route (AuthRoutes.getMe env) request w = (Sent r, w') ->
     AuthRoutes.response_mentions "password" r = false)
  /\ (forall userId p,
        (run_route (AuthRoutes.getMe env) request (with_password_of userId p w)).1
        = (run_route (AuthRoutes.getMe env) request w).1).
Proof.
  split.
  - intros r w'. unfold run_route, AuthRoutes.getMe. simpl. unfold bind at 1.
    destruct (auth env (mkCtx request None) w) as [[[response|ctx']|e] w1] eqn:Ea;
      [| |by inversion 1].
    + intros [= <- _]. unfold AuthRoutes.response_mentions.
      by rewrite (auth_reply_without_data _ _ _ _ _ Ea).
    + apply auth_sets_user in Ea as [_ [u Hu]].
      unfold AuthRoutes.me, req_user. rewrite Hu, bind_ret, bind_query.
      destruct (AuthRoutes.findUserWithProfiles (db w1) (AuthUser.id u)) as [object|] eqn:Ef;
        intros [= <- _]; [|done].
      unfold AuthRoutes.response_mentions. cbn [data].
      pose proof (mentions_omit "password" object (user_object_members _ _ _ Ef)) as Hm.
      cbn [AuthRoutes.mentions existsb] in *. by rewrite Hm.
  - intros userId p. unfold run_route, AuthRoutes.getMe.
    cbn [middlewares handler run_middlewares].
    unfold auth. cbn [req].
    destruct (authorization request) as [h|]; [|done].
    case_bool_decide; [done|].
    destruct (jwt_verify env _) as [uid|]; [|done].
    unfold with_password_of. rewrite !bind_assoc, !bind_query. proj.
    destruct (decide (userId = uid)) as [->|N].
    + rewrite lookup_alter_eq.
      destruct (users (db w) !! uid) as [u|] eqn:Hu; [|done].
      cbn [fmap option_fmap option_map User.with_password User.isActive].
      destruct (User.isActive u); [|done].
      cbn [negb].
      repeat (rewrite bind_assoc || rewrite bind_query || rewrite bind_ret).
      unfold AuthRoutes.me, req_user. cbn [user AuthUser.id].
      rewrite !bind_ret, !bind_query. proj. cbn [AuthUser.id].
      pose proof (user_object_without_password (db w) uid p) as Ho.
      destruct (AuthRoutes.findUserWithProfiles (set_users _ _) uid),
        (AuthRoutes.findUserWithProfiles (db w) uid); simpl in Ho; try done.
      injection Ho as Ho. by rewrite Ho.
    + rewrite lookup_alter_ne by done.
      destruct (users (db w) !! uid) as [u|] eqn:Hu; [|done].
      destruct (User.isActive u); [|done].
      cbn [negb].
      repeat (rewrite bind_assoc || rewrite bind_query || rewrite bind_ret).
      unfold AuthRoutes.me, req_user. cbn [user AuthUser.id].
      rewrite !bind_ret, !bind_query. proj. cbn [AuthUser.id].
      rewrite (user_object_other _ _ _ _ N).
      by destruct (AuthRoutes.findUserWithProfiles (db w) uid).
Qed.

Lemma me_hides_password_witness :
  exists r w',
    run_route (AuthRoutes.getMe Demo.env) (Demo.request "token-jane" "" "" Demo.watched)
      (mkWorld (Demo.database false) [])
    = (Sent r, w')
    /\ status r = 200%nat
    /\ AuthRoutes.response_mentions "password" r = false.
Proof.
  eexists _, _. split; [vm_compute; reflexivity|]. split; [reflexivity|].
  eapply (proj1 (me_hides_password Demo.env (Demo.request "token-jane" "" "" Demo.watched)
                   (mkWorld (Demo.database false) []))).
  vm_compute. reflexivity.
Defined.

(** * Further properties *)

(** ** The program logic *)

Lemma hoare_ret {A} (P : DB -> Prop) (a : A) (Q : A -> DB -> Prop) E :
  (forall d, P d -> Q a d) -> hoare P (ret a) Q E.
Proof. intros H w Hw. by apply H. Qed.

Lemma hoare_throw {A} (P : DB -> Prop) e (Q : A -> DB -> Prop) (E : DB -> Prop) :
  (forall d, P d -> E d) -> hoare P (throw e) Q E.
Proof. intros H w Hw. by apply H. Qed.

Lemma hoare_bind {A B} P (m : M A) (k : A -> M B) Q R E :
  hoare P m Q E -> (forall a, hoare (Q a) (k a) R E) -> hoare P (bind m k) R E.
Proof.
  intros Hm Hk w Hw. specialize (Hm w Hw). unfold bind.
  destruct (m w) as [[a|e] w']; [|done]. by apply Hk.
Qed.

Lemma hoare_write (P : DB -> Prop) f (Q : unit -> DB -> Prop) (E : DB -> Prop) :
  (forall d, P d -> E d) ->
  (forall d d', P d -> f d = inr d' -> Q tt d') ->
  hoare P (write f) Q E.
Proof.
  intros HE HQ w Hw. destruct (write_cases f w) as [(d' & Ef & ->)|(e & ->)].
  - by apply (HQ (db w)).
  - by apply HE.
Qed.

Lemma auth_keeps env ctx (P : DB -> Prop) E :
  hoare P (auth env ctx)
    (fun res d => P d /\ match res with
                         | inl _ => True
                         | inr ctx' => req ctx' = req ctx /\ is_Some (user ctx')
                         end) E.
Proof.
  intros w Hw. destruct (auth env ctx w) as [[res|e] w'] eqn:Ea.
  - pose proof (auth_reads_only _ _ _ _ _ Ea) as ->. split; [done|].
    destruct res as [r|ctx']; [done|]. by apply auth_sets_user in Ea.
  - exfalso. revert Ea. unfold auth.
    destruct (authorization (req ctx)) as [h|]; [|by inversion 1].
    case_bool_decide; [by inversion 1|].
    destruct (jwt_verify env _) as [uid|]; [|by inversion 1].
    unfold bind, query, ret. destruct (users (db w) !! uid) as [u|]; [|by inversion 1].
    destruct (User.isActive u); simpl; by inversion 1.
Qed.

(** What a route behind [auth] and checks keeps, its handler keeping it
    for every context the checks let through. *)
Lemma hoare_route env checks h request w (P : DB -> Prop) :
  Forall Checks checks ->
  (forall u, hoare P (h (mkCtx request (Some u))) (fun _ d => P d) P) ->
  P (db w) ->
  P (db_after (mkRoute (auth env :: checks) h) request w).
Proof.
  intros Hc Hh Hw. unfold db_after, run_route. simpl. unfold bind at 1.
  pose proof (auth_keeps env (mkCtx request None) P P w Hw) as Ha.
  destruct (auth env (mkCtx request None) w) as [[[r|ctx']|e] w1]; [by destruct Ha| |done].
  destruct Ha as (Hw1 & Hreq & [u Hu]).
  destruct ctx' as [request' user']. simpl in Hreq, Hu. subst request' user'.
  destruct (run_middlewares checks h (mkCtx request (Some u)) w1) as [o w2] eqn:Er.
  destruct (run_checks _ _ _ _ _ _ Hc Er) as [(-> & r & -> & _)|Eh]; [done|].
  specialize (Hh u w1 Hw1). rewrite Eh in Hh. by destruct o.
Qed.

(** ** The gates of middleware/auth.js *)

Lemma dedup_elem seen l x : x ∈ dedup seen l <-> x ∈ l /\ x ∉ seen.
Proof.
  revert seen. induction l as [|a l IH]; intros seen; simpl.
  - rewrite elem_of_nil. tauto.
  - case_bool_decide as Ha.
    + rewrite IH, elem_of_cons. split; [tauto|].
      intros [[->|Hl] Hs]; [done|tauto].
    + rewrite !elem_of_cons, IH, elem_of_cons.
      destruct (decide (x = a)) as [->|N]; tauto.
Qed.

Lemma dedup_NoDup seen l : NoDup (dedup seen l).
Proof.
  revert seen. induction l as [|a l IH]; intros seen; simpl; [constructor|].
  case_bool_decide; [apply IH|].
  constructor; [|apply IH]. rewrite dedup_elem, elem_of_cons. tauto.
Qed.

Lemma auth_user env request w userId :
  Authenticated env (db w) request userId ->
  exists account,
    users (db w) !! userId = Some account
    /\ User.isActive account = true
    /\ auth env (mkCtx request None) w
       = (Ok (inr (mkCtx request
                     (Some (AuthUser.mk userId account
                              (dedup [] (flat_map Role.permissions (User.roles account)
                                         ++ User.permissions account))
                              (students (db w) !! userId)
                              (tutor_of_user (db w) userId)
                              (admins (db w) !! userId))))), w).
Proof.
  intros (h & acc & Hh & Hne & Hjwt & Hu & Hact).
  exists acc. split; [done|]. split; [done|].
  unfold auth. simpl. rewrite Hh.
  rewrite bool_decide_false by done. rewrite Hjwt.
  unfold bind, query, ret. by rewrite Hu, Hact.
Qed.

Lemma auth_passed env ctx w ctx' w' :
  auth env ctx w = (Ok (inr ctx'), w') ->
  exists u, user ctx' = Some u /\ Authenticated env (db w) (req ctx) (AuthUser.id u)
            /\ users (db w) !! AuthUser.id u = Some (AuthUser.account u)
            /\ AuthUser.permissions u
               = dedup [] (flat_map Role.permissions (User.roles (AuthUser.account u))
                           ++ User.permissions (AuthUser.account u)).
Proof.
  unfold auth, Authenticated.
  destruct (authorization (req ctx)) as [h|]; [|by inversion 1].
  case_bool_decide as Hne; [by inversion 1|].
  destruct (jwt_verify env _) as [uid|] eqn:Hjwt; [|by inversion 1].
  unfold bind, query, ret. destruct (users (db w) !! uid) as [acc|] eqn:Hu; [|by inversion 1].
  destruct (User.isActive acc) eqn:Hact; simpl; [|by inversion 1].
  intros [= <- <-]. eexists. split; [reflexivity|]. simpl.
  split; [|done]. exists h, acc. done.
Qed.

(** X1.  A route that starts with [auth] lets a request through exactly
    when it carries a token that verifies for an existing, active user;
    every other request (no header, an empty or invalid token, a deleted or
    deactivated account) gets 401 with the world untouched, whatever
    follows in the chain. *)
Theorem auth_admits_active_users_only env ms h request w :
  (forall userId,
     Authenticated env (db w) request userId ->
     exists u,
       AuthUser.id u = userId
       /\ users (db w) !! userId = Some (AuthUser.account u)
       /\ run_route (mkRoute (auth env :: ms) h) request w
          = match run_middlewares ms h (mkCtx request (Some u)) w with
            | (Ok response, w') => (Sent response, w')
            | (Throw e, w') => (NextError e, w')
            end)
  /\ ((forall userId, ~ Authenticated env (db w) request userId) ->
      exists r, run_route (mkRoute (auth env :: ms) h) request w = (Sent r, w)
                /\ status r = 401%nat /\ success r = false).
Proof.
  split.
  - intros userId Hauth. destruct (auth_user _ _ _ _ Hauth) as (account & Hu & _ & Ea).
    eexists. split; [|split]; [| |apply (route_after_auth _ _ _ _ _ _ Ea)]; done.
  - intros Hno. unfold run_route. simpl. unfold bind at 1.
    destruct (auth env (mkCtx request None) w) as [[[r|ctx']|e] w1] eqn:Ea.
    + pose proof (auth_reads_only _ _ _ _ _ Ea) as ->. exists r. split; [done|].
      revert Ea. unfold auth. simpl.
      destruct (authorization request) as [hd|]; [|by intros [= <-]].
      case_bool_decide; [by intros [= <-]|].
      destruct (jwt_verify env _) as [uid|]; [|by intros [= <-]].
      unfold bind, query, ret. destruct (users (db w) !! uid) as [acc|]; [|by intros [= <-]].
      destruct (User.isActive acc); simpl; [done|by intros [= <-]].
    + apply auth_passed in Ea as (u & _ & Hauth & _). by destruct (Hno _ Hauth).
    + pose proof (auth_keeps env (mkCtx request None) (fun _ => True) (fun _ => False) w I) as Hk.
      by rewrite Ea in Hk.
Qed.

Lemma auth_admits_active_users_only_witness :
  exists r,
    run_route (mkRoute [auth Demo.env; isStudent] Enrollments.listEnrollments)
      (mkRequest None "" "" None None None Demo.watched (mkReviewBody None None None))
      (mkWorld (Demo.database false) [])
    = (Sent r, mkWorld (Demo.database false) [])
    /\ status r = 401%nat /\ success r = false.
Proof.
  apply (proj2 (auth_admits_active_users_only Demo.env [isStudent] Enrollments.listEnrollments
                  (mkRequest None "" "" None None None Demo.watched
                     (mkReviewBody None None None))
                  (mkWorld (Demo.database false) []))).
  intros userId (hd & acc & Hh & _). discriminate Hh.
Defined.

(** X2.  [req.user.permissions], as [auth] builds it, lists every
    permission once, and holds exactly the permissions that a role of the
    account grants or that the account holds directly. *)
Theorem request_permissions env ctx w ctx' w' :
  auth env ctx w = (Ok (inr ctx'), w') ->
  exists u account,
    user ctx' = Some u
    /\ users (db w) !! AuthUser.id u = Some account
    /\ NoDup (AuthUser.permissions u)
    /\ forall p,
         p ∈ AuthUser.permissions u
         <-> (exists role, role ∈ User.roles account /\ p ∈ Role.permissions role)
             \/ p ∈ User.permissions account.
Proof.
  intros Ea. apply auth_passed in Ea as (u & Hu & _ & Hacc & Hp).
  exists u, (AuthUser.account u). split; [done|]. split; [done|].
  rewrite Hp. split; [apply dedup_NoDup|].
  intros p. rewrite dedup_elem, elem_of_app, list_elem_of_In, in_flat_map.
  setoid_rewrite <- list_elem_of_In. rewrite elem_of_nil. tauto.
Qed.

Lemma request_permissions_witness :
  exists u account,
    users (Demo.database false) !! AuthUser.id u = Some account
    /\ NoDup (AuthUser.permissions u)
    /\ forall p,
         p ∈ AuthUser.permissions u
         <-> (exists role, role ∈ User.roles account /\ p ∈ Role.permissions role)
             \/ p ∈ User.permissions account.
Proof.
  destruct (auth_user Demo.env (Demo.request "token-john" "" "" Demo.watched)
              (mkWorld (Demo.database false) []) "u-john"
              (john_authenticated false "" "" Demo.watched)) as (account & _ & _ & Ea).
  destruct (request_permissions _ _ _ _ _ Ea) as (u & account' & _ & H).
  exists u, account'. exact H.
Defined.

Lemma permission_granted (account : User.t) p :
  p ∈ dedup [] (flat_map Role.permissions (User.roles account) ++ User.permissions account)
  <-> (exists role, role ∈ User.roles account /\ p ∈ Role.permissions role)
      \/ p ∈ User.permissions account.
Proof.
  rewrite dedup_elem, elem_of_app, list_elem_of_In, in_flat_map.
  setoid_rewrite <- list_elem_of_In. rewrite elem_of_nil. tauto.
Qed.

(** X3.  Behind [auth], [hasPermission(p)] lets an authenticated user
    through when a role of the account grants [p] or the account holds
    [p] directly, and answers 403 with the world untouched otherwise. *)
Theorem permission_gate env p ms h request w userId account :
  Authenticated env (db w) request userId ->
  users (db w) !! userId = Some account ->
  let granted :=
    (exists role, role ∈ User.roles account /\ p ∈ Role.permissions role)
    \/ p ∈ User.permissions account in
  let route := mkRoute (auth env :: hasPermission p :: ms) h in
  (granted ->
   exists u,
     AuthUser.id u = userId
     /\ run_route route request w
        = match run_middlewares ms h (mkCtx request (Some u)) w with
          | (Ok response, w') => (Sent response, w')
          | (Throw e, w') => (NextError e, w')
          end)
  /\ (~ granted ->
      run_route route request w
      = (Sent (mkResponse 403 false "Insufficient permissions"), w)).
Proof.
  intros Hauth Hacc granted route.
  destruct (auth_user _ _ _ _ Hauth) as (account' & Hu & _ & Ea).
  rewrite Hacc in Hu. injection Hu as <-.
  subst route. rewrite (route_after_auth _ _ _ _ _ _ Ea).
  cbn [run_middlewares]. unfold hasPermission. cbn [user AuthUser.permissions].
  subst granted. split.
  - intros G. apply permission_granted in G.
    rewrite bool_decide_true by done. rewrite bind_ret. eexists. split; [|reflexivity]. done.
  - intros G. rewrite <- permission_granted in G.
    rewrite bool_decide_false by done. by rewrite bind_ret.
Qed.

Lemma permission_gate_witness :
  exists u,
    AuthUser.id u = "u-john"
    /\ run_route (mkRoute [auth Demo.env; hasPermission "create_course"]
                    Enrollments.listEnrollments)
         (Demo.request "token-john" "" "" Demo.watched) (mkWorld (Demo.database false) [])
       = match Enrollments.listEnrollments
                 (mkCtx (Demo.request "token-john" "" "" Demo.watched) (Some u))
                 (mkWorld (Demo.database false) []) with
         | (Ok response, w') => (Sent response, w')
         | (Throw e, w') => (NextError e, w')
         end.
Proof.
  apply (proj1 (permission_gate Demo.env "create_course" [] Enrollments.listEnrollments
                  (Demo.request "token-john" "" "" Demo.watched)
                  (mkWorld (Demo.database false) []) "u-john" Demo.john
                  (john_authenticated false "" "" Demo.watched) eq_refl)).
  left. exists (Role.mk "tutor" ["create_course"; "read_course"; "update_course"; "view_analytics"]).
  split; [apply list_elem_of_here|apply list_elem_of_here].
Defined.

(** X4.  Behind [auth], [hasRole(roles)] lets an authenticated user
    through when the account has a role whose name is among [roles], and
    answers 403 with the world untouched otherwise; with no role listed it
    refuses everyone. *)
Theorem role_gate env roles ms h request w userId account :
  Authenticated env (db w) request userId ->
  users (db w) !! userId = Some account ->
  let held := exists role, role ∈ User.roles account /\ Role.name role ∈ roles in
  let route := mkRoute (auth env :: hasRole roles :: ms) h in
  (held ->
   exists u,
     AuthUser.id u = userId
     /\ run_route route request w
        = match run_middlewares ms h (mkCtx request (Some u)) w with
          | (Ok response, w') => (Sent response, w')
          | (Throw e, w') => (NextError e, w')
          end)
  /\ (~ held ->
      run_route route request w
      = (Sent (mkResponse 403 false "Insufficient role privileges"), w))
  /\ (roles = [] -> ~ held).
Proof.
  intros Hauth Hacc held route.
  destruct (auth_user _ _ _ _ Hauth) as (account' & Hu & _ & Ea).
  rewrite Hacc in Hu. injection Hu as <-.
  subst route. rewrite (route_after_auth _ _ _ _ _ _ Ea).
  cbn [run_middlewares]. unfold hasRole. cbn [user AuthUser.account].
  assert (Hex : existsb (fun role => bool_decide (role ∈ Role.name <$> User.roles account)) roles
                = true <-> held).
  { rewrite existsb_exists. subst held. split.
    - intros (name & Hin & Hb). apply bool_decide_eq_true in Hb.
      apply list_elem_of_fmap in Hb as (role & -> & Hr).
      exists role. split; [done|]. by apply list_elem_of_In.
    - intros (role & Hr & Hn). exists (Role.name role).
      split; [by apply list_elem_of_In|]. apply bool_decide_eq_true.
      apply list_elem_of_fmap. eauto. }
  split; [|split].
  - intros G. apply Hex in G. rewrite G, bind_ret. eexists. split; [|reflexivity]. done.
  - intros G. destruct (existsb _ roles) eqn:Eb; [by destruct G; apply Hex|].
    by rewrite bind_ret.
  - intros -> (role & _ & Hn). by apply elem_of_nil in Hn.
Qed.

Lemma role_gate_witness :
  run_route (mkRoute [auth Demo.env; hasRole ["admin"; "super_admin"]]
               Enrollments.listEnrollments)
    (Demo.request "token-john" "" "" Demo.watched) (mkWorld (Demo.database false) [])
  = (Sent (mkResponse 403 false "Insufficient role privileges"),
     mkWorld (Demo.database false) []).
Proof.
  apply (proj1 (proj2 (role_gate Demo.env ["admin"; "super_admin"] []
                         Enrollments.listEnrollments
                         (Demo.request "token-john" "" "" Demo.watched)
                         (mkWorld (Demo.database false) []) "u-john" Demo.john
                         (john_authenticated false "" "" Demo.watched) eq_refl))).
  intros (role & Hr & Hn). apply list_elem_of_singleton in Hr as ->.
  cbn [Role.name] in Hn.
  repeat (apply elem_of_cons in Hn as [Hn|Hn]; [discriminate Hn|]).
  by apply elem_of_nil in Hn.
Defined.

Lemma tutor_of_user_is_Some d userId :
  is_Some (tutor_of_user d userId)
  <-> exists tutorId tutor, tutors d !! tutorId = Some tutor /\ Tutor.userId tutor = userId.
Proof.
  unfold tutor_of_user.
  destruct (filter _ (map_to_list (tutors d))) as [|[tid t] rest] eqn:Ef; simpl.
  - split; [by intros [? ?]|]. intros (tid & t & Ht & Hu).
    assert (Hin : (tid, t) ∈ filter (fun kv : Id * Tutor.t => Tutor.userId kv.2 = userId)
                               (map_to_list (tutors d))).
    { apply list_elem_of_filter. split; [done|]. by apply elem_of_map_to_list. }
    rewrite Ef in Hin. by apply elem_of_nil in Hin.
  - split; [|by eauto]. intros _.
    assert (Hin : (tid, t) ∈ filter (fun kv : Id * Tutor.t => Tutor.userId kv.2 = userId)
                               (map_to_list (tutors d))).
    { rewrite Ef. apply list_elem_of_here. }
    apply list_elem_of_filter in Hin as [Hu Hin]. apply elem_of_map_to_list in Hin.
    by exists tid, t.
Qed.

(** X5.  Behind [auth], [isTutor] lets a user through exactly when some
    tutor row belongs to the user, and [isAdmin] exactly when the user has
    an admin row; otherwise the answer is 403 and the world is untouched. *)
Theorem profile_gates env h request w userId :
  Authenticated env (db w) request userId ->
  let d := db w in
  let reaches gate :=
    exists u,
      AuthUser.id u = userId
      /\ run_route (mkRoute [auth env; gate] h) request w
         = match h (mkCtx request (Some u)) w with
           | (Ok response, w') => (Sent response, w')
           | (Throw e, w') => (NextError e, w')
           end in
  ((exists tutorId tutor, tutors d !! tutorId = Some tutor /\ Tutor.userId tutor = userId) ->
   reaches isTutor)
  /\ ((forall tutorId tutor, tutors d !! tutorId = Some tutor -> Tutor.userId tutor <> userId) ->
      run_route (mkRoute [auth env; isTutor] h) request w
      = (Sent (mkResponse 403 false "Tutor access required"), w))
  /\ (is_Some (admins d !! userId) -> reaches isAdmin)
  /\ (admins d !! userId = None ->
      run_route (mkRoute [auth env; isAdmin] h) request w
      = (Sent (mkResponse 403 false "Admin access required"), w)).
Proof.
  intros Hauth d reaches.
  destruct (auth_user _ _ _ _ Hauth) as (account & Hu & _ & Ea).
  subst reaches. cbv beta. rewrite !(route_after_auth _ _ _ _ _ _ Ea).
  cbn [run_middlewares]. unfold isTutor, isAdmin.
  cbn [user AuthUser.tutorProfile AuthUser.adminProfile].
  split; [|split; [|split]].
  - intros Ht. apply tutor_of_user_is_Some in Ht as [t Ht]. fold d. rewrite Ht, bind_ret.
    eexists. split; [|reflexivity]. done.
  - intros Hno. destruct (tutor_of_user (db w) userId) as [t|] eqn:Ht; [|by rewrite bind_ret].
    assert (Hs : is_Some (tutor_of_user d userId)) by (subst d; rewrite Ht; eauto).
    apply tutor_of_user_is_Some in Hs as (tid & t' & Ht' & Hu'). by destruct (Hno _ _ Ht').
  - intros [a Ha]. fold d. rewrite Ha, bind_ret. eexists. split; [|reflexivity]. done.
  - intros Ha. fold d. by rewrite Ha, bind_ret.
Qed.

Lemma profile_gates_witness :
  run_route (mkRoute [auth Demo.env; isTutor] Enrollments.listEnrollments)
    (Demo.request "token-jane" "" "" Demo.watched) (mkWorld (Demo.database false) [])
  = (Sent (mkResponse 403 false "Tutor access required"), mkWorld (Demo.database false) []).
Proof.
  apply (proj1 (proj2 (profile_gates Demo.env Enrollments.listEnrollments
                         (Demo.request "token-jane" "" "" Demo.watched)
                         (mkWorld (Demo.database false) []) "u-jane"
                         (jane_authenticated false "" "" Demo.watched)))).
  intros tid t. cbn [db tutors Demo.database].
  intros Ht%lookup_singleton_Some. by destruct Ht as [_ <-].
Defined.

(** X6.  No role of the seed grants "manage_categories", the permission
    that the category routes that write ask for: a user whose roles are
    seeded roles and who holds no such permission directly is refused by
    all three routes with 403, the world untouched. *)
Theorem seeded_roles_cannot_manage_categories env h request w userId account :
  Authenticated env (db w) request userId ->
  users (db w) !! userId = Some account ->
  (forall role, role ∈ User.roles account -> role ∈ Seed.roles) ->
  "manage_categories" ∉ User.permissions account ->
  run_route (mkRoute (Categories.writeGate env) h) request w
  = (Sent (mkResponse 403 false "Insufficient permissions"), w).
Proof.
  intros Hauth Hacc Hroles Hdirect.
  apply (proj2 (permission_gate env "manage_categories" [] h request w userId account
                  Hauth Hacc)).
  intros [(role & Hr & Hp)|Hp]; [|done].
  apply Hroles in Hr. unfold Seed.roles, Seed.rolePermissions in Hr. cbn [fmap list_fmap] in Hr.
  repeat (apply elem_of_cons in Hr as [->|Hr];
          [cbn [Role.permissions snd Seed.permissions] in Hp;
           repeat (apply elem_of_cons in Hp as [Hp|Hp]; [discriminate Hp|]);
           by apply elem_of_nil in Hp|]).
  by apply elem_of_nil in Hr.
Qed.

Lemma seeded_roles_cannot_manage_categories_witness :
  run_route (mkRoute (Categories.writeGate Demo.env) Enrollments.listEnrollments)
    (Demo.request "token-john" "" "" Demo.watched) (mkWorld (Demo.database false) [])
  = (Sent (mkResponse 403 false "Insufficient permissions"), mkWorld (Demo.database false) []).
Proof.
  apply (seeded_roles_cannot_manage_categories Demo.env Enrollments.listEnrollments
           (Demo.request "token-john" "" "" Demo.watched)
           (mkWorld (Demo.database false) []) "u-john" Demo.john
           (john_authenticated false "" "" Demo.watched) eq_refl).
  - intros role Hr. apply list_elem_of_singleton in Hr as ->.
    unfold Seed.roles, Seed.rolePermissions. cbn [fmap list_fmap fst snd].
    do 3 apply list_elem_of_further. apply list_elem_of_here.
  - cbn [User.permissions Demo.john]. apply not_elem_of_nil.
Defined.

(** ** More on PUT /api/enrollments/:courseId/progress/:lessonId *)

Lemma upsert_completion_kept (t : gmap (Id * Id) Progress.t) k onUpdate onCreate k' :
  (forall row, Progress.isCompleted (onUpdate row) = Progress.isCompleted row) ->
  Progress.isCompleted onCreate = false ->
  match t !! k', upsert k onUpdate onCreate t !! k' with
  | Some row, Some row' => Progress.isCompleted row' = Progress.isCompleted row
  | None, Some row' => Progress.isCompleted row' = false
  | None, None => True
  | Some _, None => False
  end.
Proof.
  intros Hu Hc. unfold upsert.
  destruct (decide (k = k')) as [->|N].
  - destruct (t !! k') as [row|] eqn:E; rewrite lookup_insert_eq; [apply Hu|done].
  - destruct (t !! k) as [row|]; rewrite lookup_insert_ne by done;
      by destruct (t !! k').
Qed.

Lemma countCompletedLessons_upsert_any d k studentId courseId onUpdate onCreate :
  (forall row, Progress.isCompleted (onUpdate row) = Progress.isCompleted row) ->
  Progress.isCompleted onCreate = false ->
  Enrollments.countCompletedLessons
    (set_progress (upsert k onUpdate onCreate (progress d)) d) studentId courseId
  = Enrollments.countCompletedLessons d studentId courseId.
Proof.
  intros Hu Hc. unfold Enrollments.countCompletedLessons, upsert. proj.
  destruct (progress d !! k) as [row|] eqn:E.
  - apply (count_insert_same _ _ _ row); [done|].
    unfold Enrollments.completedInCourse. proj. simpl. by rewrite Hu.
  - apply count_insert_fresh; [done|].
    unfold Enrollments.completedInCourse. simpl. rewrite Hc.
    rewrite andb_false_r. simpl. done.
Qed.

(** In the goal, the next write either fails, which leaves [finish] to
    prove the goal on the database before it, or goes through. *)
Ltac step_write finish :=
  cbv beta zeta;
  match goal with
  | |- context [bind (write ?f) ?k ?w] =>
      let d := fresh "d" in
      let E := fresh "E" in
      let e := fresh "e" in
      destruct (bind_write_cases f k w) as [(d & E & ->)|(e & ->)];
      [apply on_table_inr in E as (? & E & ->); proj|solve [finish]]
  | |- context [write ?f ?w] =>
      let d := fresh "d" in
      let E := fresh "E" in
      let e := fresh "e" in
      destruct (write_cases f w) as [(d & E & ->)|(e & ->)];
      [apply on_table_inr in E as (? & E & ->); proj|solve [finish]]
  end.

(** X7.  The progress route never changes which lessons a student has
    completed.  Whatever the request and whichever writes fail, every
    progress row that was there is still there and completed or not as
    before, a row the request adds is not completed, and the number of
    completed lessons of every student in every course is what it was. *)
Theorem progress_update_never_completes env request w :
  let d' := db_after (Enrollments.putProgress env) request w in
  CompletionKept (db w) d'
  /\ forall studentId courseId,
       Enrollments.countCompletedLessons d' studentId courseId
       = Enrollments.countCompletedLessons (db w) studentId courseId.
Proof.
  intros d'. subst d'.
  set (Good := fun d' : DB =>
                 CompletionKept (db w) d'
                 /\ forall s c, Enrollments.countCompletedLessons d' s c
                                = Enrollments.countCompletedLessons (db w) s c).
  change (Good (db_after (Enrollments.putProgress env) request w)).
  assert (Same : Good (db w)).
  { split; [|done]. intros k. by destruct (progress (db w) !! k). }
  unfold db_after, run_route, Enrollments.putProgress. simpl. unfold bind at 1.
  destruct (auth env (mkCtx request None) w) as [[[r|ctx']|e] w1] eqn:Ea;
    pose proof (auth_reads_only _ _ _ _ _ Ea) as ->; [exact Same| |exact Same].
  apply auth_sets_user in Ea as [Hreq [u Hu]].
  destruct ctx' as [request' user']. simpl in Hreq, Hu. subst request' user'.
  unfold bind at 1, isStudent, ret. cbn [user].
  destruct (AuthUser.studentProfile u); [|exact Same].
  unfold Enrollments.updateProgress, req_user. proj.
  rewrite bind_ret, bind_query.
  destruct (enrollments (db w) !! _) as [enrollment|]; [|exact Same].
  rewrite bind_query.
  destruct (Enrollments.findLessonOfCourse _ _ _) as [lesson|]; [|exact Same].
  destruct (truthy_bool (isCompleted (progressBody request))) eqn:Ht.
  { rewrite (bind_Throw _ _ _ _ _ (progressUpdate_truthy env _ _ Ht)). exact Same. }
  destruct (progressUpdate_falsy env (progressBody request) Uninitialized w Ht)
    as (onUpdate & Eu & Hkeep).
  rewrite (bind_Ok _ _ _ _ _ Eu).
  assert (After : forall d1,
             progress d1 = upsert (AuthUser.id u, lessonId request) onUpdate
                             (Enrollments.progressCreate env (progressBody request) enrollment)
                             (progress (db w)) ->
             lessons d1 = lessons (db w) -> sections d1 = sections (db w) ->
             Good d1).
  { intros d1 Hp Hl Hs. split.
    - intros k. rewrite Hp. by apply upsert_completion_kept.
    - intros s c.
      rewrite <- (countCompletedLessons_upsert_any (db w) (AuthUser.id u, lessonId request)
                    s c onUpdate
                    (Enrollments.progressCreate env (progressBody request) enrollment)
                    Hkeep Ht).
      unfold Enrollments.countCompletedLessons, Enrollments.completedInCourse,
        Enrollments.lessonInCourse. proj. by rewrite Hp, Hl, Hs. }
  step_write ltac:(exact Same).
  injection E as <-.
  rewrite !bind_query. proj.
  step_write ltac:(by apply After).
  destruct (Enrollments.justCompleted _ enrollment).
  - rewrite bind_assoc. step_write ltac:(by apply After).
    step_write ltac:(by apply After).
    by apply After.
  - rewrite bind_ret. by apply After.
Qed.

(** ** Enrolling and unenrolling, one after the other *)

Lemma Authenticated_users env d d' request userId :
  users d' = users d ->
  Authenticated env d request userId -> Authenticated env d' request userId.
Proof.
  intros E (h & acc & H). exists h, acc. by rewrite E.
Qed.

Lemma incrementTotalEnrollments_back c :
  Enrollments.incrementTotalEnrollments (-1) (Enrollments.incrementTotalEnrollments 1 c) = c.
Proof.
  destruct c. unfold Enrollments.incrementTotalEnrollments. simpl. f_equal. lia.
Qed.

Lemma incrementTotalCoursesEnrolled_back s :
  Enrollments.incrementTotalCoursesEnrolled (-1) (Enrollments.incrementTotalCoursesEnrolled 1 s)
  = s.
Proof.
  destruct s. unfold Enrollments.incrementTotalCoursesEnrolled. simpl. f_equal. lia.
Qed.

(** The run of the enroll handler on a free, published course the
    student is not enrolled in, when no write fails. *)
Lemma enroll_free_run env request u d course tutor student :
  courses d !! courseId request = Some course ->
  Course.isPublished course = true ->
  Course.status course = CourseStatus.PUBLISHED ->
  (Course.price course == 0)%Q ->
  enrollments d !! (AuthUser.id u, courseId request) = None ->
  tutors d !! Course.tutorId course = Some tutor ->
  students d !! AuthUser.id u = Some student ->
  Enrollments.enroll env (mkCtx request (Some u)) (mkWorld d [])
  = (Ok (mkResponse 201 true "Successfully enrolled in course"),
     mkWorld
       (mkDB (users d)
          (<[AuthUser.id u := Enrollments.incrementTotalCoursesEnrolled 1 student]> (students d))
          (<[Course.tutorId course := Enrollments.incrementTotalStudents tutor]> (tutors d))
          (admins d)
          (<[courseId request := Enrollments.incrementTotalEnrollments 1 course]> (courses d))
          (sections d) (lessons d)
          (<[(AuthUser.id u, courseId request) := Enrollments.newEnrollment env]>
             (enrollments d))
          (progress d) (certificates d) (payments d) (reviews d))
       []).
Proof.
  intros Hc Hp Hs Hprice He Ht Hst.
  unfold Enrollments.enroll, req_user. proj.
  rewrite bind_ret, bind_query. proj.
  rewrite (findPublishedCourse_Some _ _ _ Hc Hp Hs), bind_query. proj. rewrite He.
  apply Qeq_bool_iff in Hprice. rewrite Hprice.
  do 4 write_ok. done.
Qed.

(** The run of the unenroll handler on an enrollment that is not
    COMPLETED, when no write fails. *)
Lemma unenroll_run request u d enrollment course student :
  enrollments d !! (AuthUser.id u, courseId request) = Some enrollment ->
  Enrollment.status enrollment <> EnrollmentStatus.COMPLETED ->
  courses d !! courseId request = Some course ->
  students d !! AuthUser.id u = Some student ->
  Enrollments.unenroll (mkCtx request (Some u)) (mkWorld d [])
  = (Ok (mkResponse 200 true "Successfully unenrolled from course"),
     mkWorld
       (mkDB (users d)
          (<[AuthUser.id u := Enrollments.incrementTotalCoursesEnrolled (-1) student]>
             (students d))
          (tutors d) (admins d)
          (<[courseId request := Enrollments.incrementTotalEnrollments (-1) course]> (courses d))
          (sections d) (lessons d)
          (filter (fun kv => Enrollment.id kv.2 ≠ Enrollment.id enrollment) (enrollments d))
          (Enrollments.deleteProgressOf (Enrollment.id enrollment) (progress d))
          (certificates d) (payments d) (reviews d))
       []).
Proof.
  intros He Hs Hc Hst.
  unfold Enrollments.unenroll, req_user. proj.
  rewrite bind_ret, bind_query. proj. rewrite He.
  replace (EnrollmentStatus.isCompleted (Enrollment.status enrollment)) with false
    by (by destruct (Enrollment.status enrollment)).
  erewrite bind_Ok; [reflexivity|]. apply transaction_Ok.
  unfold Enrollments.unenrollWrites.
  write_ok.
  erewrite bind_write_ok;
    [|apply on_table_ok; proj;
      by apply (deleteEnrollment_found _ (AuthUser.id u, courseId request))].
  write_ok.
  erewrite write_run_ok; [|apply on_table_ok; proj; eapply update_ok; eassumption].
  reflexivity.
Qed.

(** X8.  Enrolling in a free course and then unenrolling brings every
    table back to what it was, but for one column: the tutor's
    totalStudents stays one higher, since unenrolling does not touch the
    tutor.  (The id given to the enrollment is one no row refers to.) *)
Theorem enroll_then_unenroll env env' request request' d userId student course tutor :
  Authenticated env d request userId ->
  Authenticated env' d request' userId ->
  courseId request' = courseId request ->
  students d !! userId = Some student ->
  courses d !! courseId request = Some course ->
  Course.isPublished course = true ->
  Course.status course = CourseStatus.PUBLISHED ->
  (Course.price course == 0)%Q ->
  tutors d !! Course.tutorId course = Some tutor ->
  enrollments d !! (userId, courseId request) = None ->
  (forall k e, enrollments d !! k = Some e -> Enrollment.id e <> cuid env) ->
  (forall k p, progress d !! k = Some p -> Progress.enrollmentId p <> cuid env) ->
  exists d1,
    run_route (Enrollments.postEnroll env) request (mkWorld d [])
    = (Sent (mkResponse 201 true "Successfully enrolled in course"), mkWorld d1 [])
    /\ run_route (Enrollments.deleteUnenroll env') request' (mkWorld d1 [])
       = (Sent (mkResponse 200 true "Successfully unenrolled from course"),
          mkWorld
            (set_tutors (<[Course.tutorId course := Enrollments.incrementTotalStudents tutor]>
                           (tutors d)) d)
            []).
Proof.
  intros Hauth Hauth' Hcid Hst Hc Hp Hs Hprice Ht He Hfresh Hfresh'.
  destruct (student_route env (Enrollments.enroll env) request (mkWorld d []) userId student
              Hauth Hst) as (u & Hid & R).
  subst userId. eexists. split.
  { unfold Enrollments.postEnroll. rewrite R.
    by rewrite (enroll_free_run env request u d course tutor student). }
  set (d1 := mkDB _ _ _ _ _ _ _ _ _ _ _ _).
  destruct (student_route env' Enrollments.unenroll request' (mkWorld d1 []) (AuthUser.id u)
              (Enrollments.incrementTotalCoursesEnrolled 1 student))
    as (u' & Hid' & R').
  { by apply (Authenticated_users env' d). }
  { apply lookup_insert_eq. }
  unfold Enrollments.deleteUnenroll. rewrite R'.
  rewrite (unenroll_run request' u' d1 (Enrollments.newEnrollment env)
             (Enrollments.incrementTotalEnrollments 1 course)
             (Enrollments.incrementTotalCoursesEnrolled 1 student)).
  - f_equal. f_equal. subst d1. unfold set_tutors. proj. rewrite Hid', Hcid.
    f_equal.
    + rewrite insert_insert_eq, incrementTotalCoursesEnrolled_back. by apply insert_id.
    + rewrite insert_insert_eq, incrementTotalEnrollments_back. by apply insert_id.
    + rewrite map_filter_insert_False by (cbn [snd Enrollment.id Enrollments.newEnrollment]; tauto).
      rewrite (delete_id _ _ He). apply map_filter_id.
      intros k e Hk. cbn [snd Enrollment.id Enrollments.newEnrollment]. by apply (Hfresh k).
    + unfold Enrollments.deleteProgressOf. apply map_filter_id.
      intros k p Hk. cbn [snd Enrollment.id Enrollments.newEnrollment]. by apply (Hfresh' k).
  - subst d1. proj. rewrite Hid', Hcid. apply lookup_insert_eq.
  - done.
  - subst d1. proj. rewrite Hcid. apply lookup_insert_eq.
  - subst d1. proj. rewrite Hid'. apply lookup_insert_eq.
Qed.

Lemma enroll_then_unenroll_witness :
  exists d1,
    run_route (Enrollments.postEnroll Demo.env) (Demo.request "token-jane" "free" "" Demo.watched)
      (mkWorld (Demo.database false) [])
    = (Sent (mkResponse 201 true "Successfully enrolled in course"), mkWorld d1 [])
    /\ run_route (Enrollments.deleteUnenroll Demo.env)
         (Demo.request "token-jane" "free" "" Demo.watched) (mkWorld d1 [])
       = (Sent (mkResponse 200 true "Successfully unenrolled from course"),
          mkWorld
            (set_tutors (<["t-john" := Tutor.mk "u-john" 2 0%Q 0]> (tutors (Demo.database false)))
               (Demo.database false))
            []).
Proof.
  apply (enroll_then_unenroll Demo.env Demo.env
           (Demo.request "token-jane" "free" "" Demo.watched)
           (Demo.request "token-jane" "free" "" Demo.watched)
           (Demo.database false) "u-jane" (Student.mk "st-jane" 1 0)
           (Demo.course 0%Q true) (Tutor.mk "u-john" 1 0%Q 0));
    try reflexivity; try apply jane_authenticated.
  - intros k e Hk. unfold Demo.database in Hk. cbn [enrollments] in Hk.
    apply lookup_singleton_Some in Hk as [_ <-]. discriminate.
  - intros k p Hk. unfold Demo.database in Hk. cbn [progress] in Hk.
    apply lookup_singleton_Some in Hk as [_ <-]. discriminate.
Defined.

(** ** Buying a course: the payment intent and the webhook *)

Lemma paymentSuccessWrites_run env paymentIntent d payment course tutor student :
  payments d !! Payments.id paymentIntent = Some payment ->
  enrollments d !! (Payments.studentId paymentIntent, Payments.courseId paymentIntent) = None ->
  courses d !! Payments.courseId paymentIntent = Some course ->
  tutors d !! Payments.tutorId paymentIntent = Some tutor ->
  students d !! Payments.studentId paymentIntent = Some student ->
  Payments.paymentSuccessWrites env paymentIntent (mkWorld d [])
  = (Ok tt,
     mkWorld
       (mkDB (users d)
          (<[Payments.studentId paymentIntent :=
               Enrollments.incrementTotalCoursesEnrolled 1 student]> (students d))
          (<[Payments.tutorId paymentIntent := Payments.recordEarnings paymentIntent tutor]>
             (tutors d))
          (admins d)
          (<[Payments.courseId paymentIntent := Payments.recordSale paymentIntent course]>
             (courses d))
          (sections d) (lessons d)
          (<[(Payments.studentId paymentIntent, Payments.courseId paymentIntent) :=
               Enrollments.newEnrollment env]> (enrollments d))
          (progress d) (certificates d)
          (<[Payments.id paymentIntent := Payments.markPaid env payment]> (payments d))
          (reviews d))
       []).
Proof.
  intros Hp He Hc Ht Hs. unfold Payments.paymentSuccessWrites.
  do 4 write_ok.
  erewrite write_run_ok; [|apply on_table_ok; proj; eapply update_ok; eassumption].
  reflexivity.
Qed.

(** X9.  A request for a payment intent by a student has six outcomes,
    tried in this order: 404 for a course that is missing or not
    published, 400 for a free course, 400 for a course the student is
    enrolled in, an error when Stripe refuses the intent, an error when a
    payment with the intent's id exists, and otherwise 200 with one new
    PENDING payment of the course's price, keyed by the intent's id.  In
    all but the last the database stays as it was.  (Whatever the price
    in cents is that the handler computes for Stripe.) *)
Theorem create_intent_outcomes env toCents stripe courseId request d userId student :
  Authenticated env d request userId ->
  students d !! userId = Some student ->
  let run :=
    run_route (Checkout.postCreateIntent env toCents stripe courseId) request (mkWorld d []) in
  match Enrollments.findPublishedCourse d courseId with
  | None =>
      run = (Sent (mkResponse 404 false "Course not found or not available for purchase"),
             mkWorld d [])
  | Some course =>
      if Qeq_bool (Course.price course) 0
      then run = (Sent (mkResponse 400 false "This course is free"), mkWorld d [])
      else
        match enrollments d !! (userId, courseId) with
        | Some _ =>
            run = (Sent (mkResponse 400 false "Already enrolled in this course"), mkWorld d [])
        | None =>
            match stripe (Checkout.intentParams toCents userId courseId course) with
            | None => exists e, run = (NextError e, mkWorld d [])
            | Some created =>
                match payments d !! Checkout.id created with
                | Some _ => exists e, run = (NextError e, mkWorld d [])
                | None =>
                    run = (Sent (mkResponse 200 true ""),
                           mkWorld
                             (set_payments
                                (<[Checkout.id created :=
                                     Payment.mk userId courseId (Course.price course)
                                       PaymentStatus.PENDING None None]> (payments d)) d)
                             [])
                end
            end
        end
  end.
Proof.
  intros Hauth Hst run.
  destruct (student_route env (Checkout.createIntent toCents stripe courseId) request
              (mkWorld d []) userId student Hauth Hst) as (u & Hid & R).
  subst run userId. unfold Checkout.postCreateIntent. rewrite R. clear R.
  unfold Checkout.createIntent, req_user. proj.
  rewrite bind_ret, bind_query. proj.
  destruct (Enrollments.findPublishedCourse d courseId) as [course|]; [|done].
  destruct (Qeq_bool (Course.price course) 0); [done|].
  rewrite bind_query. proj.
  destruct (enrollments d !! (AuthUser.id u, courseId)); [done|].
  destruct (stripe _) as [created|]; [|by eexists].
  destruct (payments d !! Checkout.id created) as [p|] eqn:Hp.
  - erewrite bind_write_error; [by eexists|].
    unfold on_table, create. proj. by rewrite Hp.
  - write_ok. done.
Qed.

Lemma create_intent_outcomes_witness :
  run_route
    (Checkout.postCreateIntent Demo.env (fun _ => 4999)
       (fun _ => Some (Checkout.mkCreatedIntent "pi_2" "pi_2_secret")) "py")
    (Demo.request "token-jane" "" "" Demo.watched) (mkWorld (Demo.database false) [])
  = (Sent (mkResponse 200 true ""),
     mkWorld
       (set_payments
          (<["pi_2" := Payment.mk "u-jane" "py" (4999 # 100) PaymentStatus.PENDING None None]>
             (payments (Demo.database false)))
          (Demo.database false))
       []).
Proof.
  apply (create_intent_outcomes Demo.env (fun _ => 4999)
           (fun _ => Some (Checkout.mkCreatedIntent "pi_2" "pi_2_secret")) "py"
           (Demo.request "token-jane" "" "" Demo.watched) (Demo.database false) "u-jane"
           (Student.mk "st-jane" 1 0)).
  - apply jane_authenticated.
  - reflexivity.
Defined.

(** The run that creates the intent and its PENDING payment. *)
Lemma createIntent_run toCents stripe courseId request u d course created :
  courses d !! courseId = Some course ->
  Course.isPublished course = true ->
  Course.status course = CourseStatus.PUBLISHED ->
  ~ (Course.price course == 0)%Q ->
  enrollments d !! (AuthUser.id u, courseId) = None ->
  stripe (Checkout.intentParams toCents (AuthUser.id u) courseId course) = Some created ->
  payments d !! Checkout.id created = None ->
  Checkout.createIntent toCents stripe courseId (mkCtx request (Some u)) (mkWorld d [])
  = (Ok (mkResponse 200 true ""),
     mkWorld
       (set_payments
          (<[Checkout.id created := Checkout.pendingPayment (AuthUser.id u) courseId course]>
             (payments d)) d)
       []).
Proof.
  intros Hc Hp Hs Hprice He Hstripe Hfresh.
  unfold Checkout.createIntent, req_user. proj.
  rewrite bind_ret, bind_query. proj.
  rewrite (findPublishedCourse_Some _ _ _ Hc Hp Hs).
  destruct (Qeq_bool (Course.price course) 0) eqn:Q0;
    [by apply Qeq_bool_iff in Q0|].
  rewrite bind_query. proj. rewrite He, Hstripe.
  write_ok. done.
Qed.

(** The webhook on a constructed event: 200 when the dispatch returns,
    500 when it throws. *)
Lemma webhook_event env event w :
  Payments.webhook env (inr event) w
  = match Payments.dispatch env event w with
    | (Ok _, w') => (Ok (Payments.json 200 (JObject [("received", JBool true)])), w')
    | (Throw _, w') =>
        (Ok (Payments.json 500 (JObject [("success", JBool false);
                                         ("message", JString "Webhook error")])), w')
    end.
Proof.
  unfold Payments.webhook, Payments.try_catch, bind.
  by destruct (Payments.dispatch env event w) as [[[]|e] w'].
Qed.

(** X10.  The purchase of a paid course through its two handlers.  The
    student asks for a payment intent and Stripe creates it; later the
    webhook is handed a delivery from which constructEvent returns the
    payment_intent.succeeded event of that intent.  Afterwards the
    payment is COMPLETED, the student has an ACTIVE enrollment, the three
    counters are one higher, totalRevenue is higher by the cents the
    handler computed for Stripe over 100 and totalEarnings by 85% of
    that; nothing else has changed. *)
Theorem purchase_flow env env' toCents stripe courseId request d userId student course tutor
    created :
  Authenticated env d request userId ->
  students d !! userId = Some student ->
  courses d !! courseId = Some course ->
  Course.isPublished course = true ->
  Course.status course = CourseStatus.PUBLISHED ->
  ~ (Course.price course == 0)%Q ->
  tutors d !! Course.tutorId course = Some tutor ->
  enrollments d !! (userId, courseId) = None ->
  stripe (Checkout.intentParams toCents userId courseId course) = Some created ->
  payments d !! Checkout.id created = None ->
  let paymentIntent :=
    Payments.mkPaymentIntent (Checkout.id created) (toCents (Course.price course))
      courseId userId (Course.tutorId course) in
  exists d1,
    run_route (Checkout.postCreateIntent env toCents stripe courseId) request (mkWorld d [])
    = (Sent (mkResponse 200 true ""), mkWorld d1 [])
    /\ Payments.webhook env' (inr (Payments.payment_intent_succeeded paymentIntent))
         (mkWorld d1 [])
       = (Ok (Payments.json 200 (JObject [("received", JBool true)])),
          mkWorld
            (mkDB (users d)
               (<[userId := Student.mk (Student.id student)
                              (Student.totalCoursesEnrolled student + 1)
                              (Student.totalCoursesCompleted student)]> (students d))
               (<[Course.tutorId course :=
                    Tutor.mk (Tutor.userId tutor) (Tutor.totalStudents tutor + 1)
                      (Tutor.totalEarnings tutor
                       + inject_Z (toCents (Course.price course)) / 100 * (85 # 100))%Q
                      (Tutor.totalReviews tutor)]> (tutors d))
               (admins d)
               (<[courseId :=
                    Course.mk (Course.title course) (Course.tutorId course)
                      (Course.price course) (Course.currency course)
                      (Course.isPublished course) (Course.status course)
                      (Course.totalEnrollments course + 1)
                      (Course.totalRevenue course
                       + inject_Z (toCents (Course.price course)) / 100)%Q
                      (Course.averageRating course) (Course.totalReviews course)]> (courses d))
               (sections d) (lessons d)
               (<[(userId, courseId) :=
                    Enrollment.mk (cuid env') EnrollmentStatus.ACTIVE 0%Q (now env') None None]>
                  (enrollments d))
               (progress d) (certificates d)
               (<[Checkout.id created :=
                    Payment.mk userId courseId (Course.price course) PaymentStatus.COMPLETED
                      (Some (now env')) None]> (payments d))
               (reviews d))
            []).
Proof.
  intros Hauth Hst Hc Hp Hs Hprice Ht He Hstripe Hfresh paymentIntent.
  destruct (student_route env (Checkout.createIntent toCents stripe courseId) request
              (mkWorld d []) userId student Hauth Hst) as (u & Hid & R).
  subst userId. eexists. split.
  { unfold Checkout.postCreateIntent. rewrite R.
    by rewrite (createIntent_run toCents stripe courseId request u d course created). }
  rewrite webhook_event.
  unfold Payments.dispatch, Payments.handlePaymentSuccess, Payments.catch_and_log.
  erewrite transaction_Ok;
    [|apply (paymentSuccessWrites_run env' paymentIntent _
               (Checkout.pendingPayment (AuthUser.id u) courseId course) course tutor student);
      subst paymentIntent; proj; cbn; try done; by rewrite lookup_insert_eq].
  subst paymentIntent. proj. cbn. by rewrite insert_insert_eq.
Qed.

Lemma purchase_flow_witness :
  exists d1 d2,
    run_route
      (Checkout.postCreateIntent Demo.env (fun _ => 4999)
         (fun _ => Some (Checkout.mkCreatedIntent "pi_2" "pi_2_secret")) "py")
      (Demo.request "token-jane" "" "" Demo.watched) (mkWorld (Demo.database false) [])
    = (Sent (mkResponse 200 true ""), mkWorld d1 [])
    /\ payments d1 !! "pi_2"
       = Some (Payment.mk "u-jane" "py" (4999 # 100) PaymentStatus.PENDING None None)
    /\ Payments.webhook Demo.env
         (inr (Payments.payment_intent_succeeded
                 (Payments.mkPaymentIntent "pi_2" 4999 "py" "u-jane" "t-john")))
         (mkWorld d1 [])
       = (Ok (Payments.json 200 (JObject [("received", JBool true)])), mkWorld d2 [])
    /\ payments d2 !! "pi_2"
       = Some (Payment.mk "u-jane" "py" (4999 # 100) PaymentStatus.COMPLETED
                 (Some 1700000000000) None)
    /\ enrollments d2 !! ("u-jane", "py")
       = Some (Enrollment.mk "enr-2" EnrollmentStatus.ACTIVE 0%Q 1700000000000 None None)
    /\ Course.totalEnrollments <$> courses d2 !! "py" = Some 2
    /\ (Course.totalRevenue <$> courses d2 !! "py") = Some (0 + 4999 / 100)%Q
    /\ Tutor.totalStudents <$> tutors d2 !! "t-john" = Some 2
    /\ (Tutor.totalEarnings <$> tutors d2 !! "t-john") = Some (0 + 4999 / 100 * (85 # 100))%Q
    /\ Student.totalCoursesEnrolled <$> students d2 !! "u-jane" = Some 2.
Proof.
  destruct (purchase_flow Demo.env Demo.env (fun _ => 4999)
              (fun _ => Some (Checkout.mkCreatedIntent "pi_2" "pi_2_secret")) "py"
              (Demo.request "token-jane" "" "" Demo.watched) (Demo.database false)
              "u-jane" (Student.mk "st-jane" 1 0) (Demo.course (4999 # 100) true)
              (Tutor.mk "u-john" 1 0%Q 0) (Checkout.mkCreatedIntent "pi_2" "pi_2_secret"))
    as (d1 & R1 & R2); try reflexivity.
  - apply jane_authenticated.
  - intros Q0. vm_compute in Q0. discriminate Q0.
  - exists d1. eexists. split; [exact R1|].
    split; [vm_compute in R1; injection R1 as <-; reflexivity|].
    split; [exact R2|].
    vm_compute. repeat split; reflexivity.
Defined.

Lemma handlePaymentSuccess_cases env paymentIntent w :
  exists w',
    Payments.handlePaymentSuccess env paymentIntent w = (Ok tt, w')
    /\ (db w' = db w
        \/ enrollments (db w) !! (Payments.studentId paymentIntent,
                                  Payments.courseId paymentIntent) = None
           /\ enrollments (db w') !! (Payments.studentId paymentIntent,
                                      Payments.courseId paymentIntent)
              = Some (Enrollments.newEnrollment env)).
Proof.
  unfold Payments.handlePaymentSuccess, Payments.catch_and_log.
  destruct (paymentSuccessWrites_cases env paymentIntent w)
    as [(payment & course & tutor & student & Hp & He & Hc & Ht & Hs & E)|(e & w' & E)].
  - rewrite (transaction_Ok _ _ _ _ E). eexists. split; [done|]. right.
    split; [done|]. proj. by rewrite lookup_insert_eq.
  - rewrite (transaction_Throw _ _ _ _ E). eexists. split; [done|]. by left.
Qed.

Lemma handlePaymentFailure_cases env paymentIntent w :
  exists w',
    Payments.handlePaymentFailure env paymentIntent w = (Ok tt, w')
    /\ (db w' = db w
        \/ exists payment,
             payments (db w) !! Payments.id paymentIntent = Some payment
             /\ db w' = set_payments
                          (<[Payments.id paymentIntent := Payments.markFailed env payment]>
                             (payments (db w))) (db w)).
Proof.
  unfold Payments.handlePaymentFailure, Payments.catch_and_log.
  match goal with |- context [write ?f w] =>
    destruct (write_cases f w) as [(d' & E & ->)|(e & ->)] end.
  - apply on_table_inr in E as (t & E & ->).
    apply update_inr in E as (payment & Hp & ->).
    eexists. split; [done|]. right. by exists payment.
  - eexists. split; [done|]. by left.
Qed.

(** X12.  The webhook never hands an error to Express, and its reply
    depends on what constructEvent made of the delivery alone, not on the
    database nor on what became of the writes: the text of the error
    with 400 when constructEvent threw; 500 for an event of a handled
    type that cannot be read, the TypeError being caught by the outer
    catch; and 200 with received: true for every other event, also when
    the transaction of a payment was rolled back.  Only a readable
    payment_intent.succeeded or payment_intent.payment_failed event may
    change anything. *)
Theorem webhook_acknowledges env constructed w :
  (Payments.webhook env constructed w).1
  = Ok (match constructed with
        | inl message => Payments.text 400 ("Webhook Error: " +:+ message)
        | inr Payments.unreadable =>
            Payments.json 500 (JObject [("success", JBool false);
                                        ("message", JString "Webhook error")])
        | inr _ => Payments.json 200 (JObject [("received", JBool true)])
        end)
  /\ match constructed with
     | inr (Payments.payment_intent_succeeded _)
     | inr (Payments.payment_intent_payment_failed _) => True
     | _ => (Payments.webhook env constructed w).2 = w
     end.
Proof.
  destruct constructed as [message|[paymentIntent|paymentIntent|type|]];
    [done|rewrite webhook_event; cbn [Payments.dispatch]..].
  - by destruct (handlePaymentSuccess_cases env paymentIntent w) as (w' & -> & _).
  - by destruct (handlePaymentFailure_cases env paymentIntent w) as (w' & -> & _).
  - done.
  - done.
Qed.

(** X13.  A payment_intent.succeeded event for a student who is already
    enrolled in the course changes nothing; so once
    a delivery of the event has taken effect, delivering it again, under
    any clock and with any writes failing, leaves the database as the
    first delivery left it. *)
Theorem webhook_redelivery env env' paymentIntent w faults' :
  let event := inr (Payments.payment_intent_succeeded paymentIntent) in
  let w1 := (Payments.webhook env event w).2 in
  let w2 := (Payments.webhook env' event (mkWorld (db w1) faults')).2 in
  (enrollments (db w) !! (Payments.studentId paymentIntent, Payments.courseId paymentIntent)
   <> None -> db w1 = db w)
  /\ (db w1 <> db w -> db w2 = db w1).
Proof.
  intros event w1 w2.
  assert (Enrolled : forall env0 w0,
            enrollments (db w0) !! (Payments.studentId paymentIntent,
                                    Payments.courseId paymentIntent) <> None ->
            db (Payments.webhook env0 event w0).2 = db w0).
  { intros env0 w0 He. unfold event. rewrite webhook_event. cbn [Payments.dispatch].
    destruct (handlePaymentSuccess_cases env0 paymentIntent w0) as (w' & E & [Same|[Hn _]]).
    - by rewrite E.
    - done. }
  split; [apply Enrolled|].
  intros Changed. subst w2. rewrite Enrolled; [done|]. proj.
  subst w1. unfold event in *. rewrite webhook_event in *. cbn [Payments.dispatch] in *.
  destruct (handlePaymentSuccess_cases env paymentIntent w) as (w' & E & [Same|[_ Hs]]).
  - rewrite E in Changed. done.
  - rewrite E. cbn. by rewrite Hs.
Qed.

Lemma webhook_redelivery_witness :
  let event := inr (Payments.payment_intent_succeeded Demo.intent) in
  let w1 := (Payments.webhook Demo.env event (mkWorld (Demo.database false) [])).2 in
  db (Payments.webhook Demo.env event (mkWorld (db w1) [false; true])).2 = db w1.
Proof.
  intros event w1.
  apply (proj2 (webhook_redelivery Demo.env Demo.env Demo.intent
                  (mkWorld (Demo.database false) []) [false; true])).
  intros E. apply (f_equal (fun d => Payment.status <$> payments d !! "pi_1")) in E.
  vm_compute in E. discriminate E.
Defined.

(** X14.  A payment_intent.payment_failed event touches the payment row
    of the intent and nothing else: the row becomes FAILED with a
    failedAt, keeping its other columns, whatever its status was; no
    enrollment, course, tutor or student is changed, also when the
    payment had been COMPLETED before.  Without such a row, or when the
    write fails, nothing changes.  The reply is 200 with received: true
    in each case. *)
Theorem payment_failure_marks_the_payment env paymentIntent w :
  let run := Payments.webhook env (inr (Payments.payment_intent_payment_failed paymentIntent)) w in
  let d := db w in
  let marked payment :=
    set_payments
      (<[Payments.id paymentIntent :=
           Payment.mk (Payment.userId payment) (Payment.courseId payment)
             (Payment.amount payment) PaymentStatus.FAILED (Payment.paidAt payment)
             (Some (now env))]> (payments d)) d in
  run.1 = Ok (Payments.json 200 (JObject [("received", JBool true)]))
  /\ (db run.2 = d
      \/ exists payment,
           payments d !! Payments.id paymentIntent = Some payment
           /\ db run.2 = marked payment)
  /\ (payments d !! Payments.id paymentIntent = None -> db run.2 = d)
  /\ (forall payment,
        faults w = [] ->
        payments d !! Payments.id paymentIntent = Some payment ->
        db run.2 = marked payment).
Proof.
  intros run d marked. subst d marked. cbv beta.
  destruct (handlePaymentFailure_cases env paymentIntent w) as (w' & E & Cases).
  unfold Payments.markFailed in Cases.
  assert (R : run = (Ok (Payments.json 200 (JObject [("received", JBool true)])), w')).
  { subst run. rewrite webhook_event. cbn [Payments.dispatch]. by rewrite E. }
  rewrite R. cbn [fst snd].
  split; [done|]. split; [exact Cases|]. split.
  - intros Hn. destruct Cases as [Same|(payment & Hp & _)]; [done|]. congruence.
  - intros payment Hf Hp. destruct w as [d0 fs]. proj. subst fs.
    clear R. unfold Payments.handlePaymentFailure, Payments.catch_and_log in E.
    erewrite write_run_ok in E;
      [|apply on_table_ok; proj; eapply update_ok; eassumption].
    by injection E as <-.
Qed.

Lemma payment_failure_marks_the_payment_witness :
  db (Payments.webhook Demo.env (inr (Payments.payment_intent_payment_failed Demo.intent))
        (mkWorld (Demo.database false) [])).2
  = set_payments
      {["pi_1" := Payment.mk "u-jane" "py" (4999 # 100) PaymentStatus.FAILED None
                    (Some 1700000000000)]}
      (Demo.database false).
Proof.
  rewrite (proj2 (proj2 (proj2 (payment_failure_marks_the_payment Demo.env Demo.intent
                                  (mkWorld (Demo.database false) []))))
             (Payment.mk "u-jane" "py" (4999 # 100) PaymentStatus.PENDING None None)
             eq_refl eq_refl).
  cbn. by rewrite insert_singleton_eq.
Defined.

(** ** Ratings stay in range *)

Lemma keeps_ret {A B} (P : DB -> Prop) (a : A) (k : A -> M B) Q E :
  hoare P (k a) Q E -> hoare P (bind (ret a) k) Q E.
Proof. intros Hk w Hw. rewrite bind_ret. by apply Hk. Qed.

Lemma keeps_query {A B} (P : DB -> Prop) (f : DB -> A) (k : A -> M B) Q E :
  (forall a, hoare P (k a) Q E) -> hoare P (bind (query f) k) Q E.
Proof. intros Hk w Hw. rewrite bind_query. by apply Hk. Qed.

(** What a query returns on a database with [P] may be used afterwards. *)
Lemma keeps_query_pure {A B} (phi : A -> Prop) (P : DB -> Prop) (f : DB -> A) (k : A -> M B)
    Q E :
  (forall d, P d -> phi (f d)) ->
  (forall a, phi a -> hoare P (k a) Q E) ->
  hoare P (bind (query f) k) Q E.
Proof. intros Hf Hk w Hw. rewrite bind_query. apply Hk; [by apply Hf|done]. Qed.

Lemma keeps_write {B} (P P' : DB -> Prop) f (k : unit -> M B) Q (E : DB -> Prop) :
  (forall d, P d -> E d) ->
  (forall d d', P d -> f d = inr d' -> P' d') ->
  hoare P' (k tt) Q E ->
  hoare P (bind (write f) k) Q E.
Proof.
  intros HE Hf Hk. apply (hoare_bind _ _ _ (fun _ => P')).
  - apply hoare_write; [exact HE|exact Hf].
  - intros []. exact Hk.
Qed.

Lemma sumZ_bounds l :
  Forall (fun x => 1 <= x <= 5) l ->
  Z.of_nat (length l) <= Reviews.sumZ l <= 5 * Z.of_nat (length l).
Proof.
  induction 1 as [|x l Hx _ IH]; simpl; [lia|].
  unfold Reviews.sumZ in *. simpl. lia.
Qed.

Lemma avg_in_range l :
  Forall (fun x => 1 <= x <= 5) l -> averageInRange (Reviews.or_zero (Reviews.avg l)).
Proof.
  intros Hl. destruct l as [|x l]; [by left|].
  pose proof (sumZ_bounds _ Hl) as [L U].
  set (n := Z.of_nat (length (x :: l))) in *.
  assert (0 < n) by (subst n; simpl; lia).
  assert (Hn : (0 < inject_Z n)%Q) by (change 0%Q with (inject_Z 0); by rewrite <- Zlt_Qlt).
  unfold Reviews.avg, Reviews.or_zero. fold n.
  destruct (Qeq_bool _ 0); [by left|]. right. split.
  - apply Qle_shift_div_l; [done|]. rewrite Qmult_1_l. by rewrite <- Zle_Qle.
  - apply Qle_shift_div_r; [done|].
    change 5%Q with (inject_Z 5). rewrite <- inject_Z_mult. by rewrite <- Zle_Qle.
Qed.

Lemma publishedRatings_in_range d courseId :
  RatingsInRange d -> Forall (fun x => 1 <= x <= 5) (Reviews.publishedRatings d courseId).
Proof.
  intros Hd. apply Forall_forall. intros x Hx.
  unfold Reviews.publishedRatings in Hx.
  apply list_elem_of_fmap in Hx as ([k review] & -> & Hkv).
  apply list_elem_of_filter in Hkv as [_ Hkv].
  apply elem_of_map_to_list in Hkv. by apply (Hd k).
Qed.

Lemma RatingsSound_set_courses d c course f :
  RatingsSound d ->
  courses d !! c = Some course ->
  averageInRange (Course.averageRating (f course)) ->
  RatingsSound (set_courses (<[c := f course]> (courses d)) d).
Proof.
  intros [Hr Ha] Hc Hf. split; [exact Hr|].
  intros c' course'. proj.
  destruct (decide (c' = c)) as [->|N].
  - rewrite lookup_insert_eq. by intros [= <-].
  - rewrite lookup_insert_ne by done. apply Ha.
Qed.

Lemma RatingsSound_set_reviews d t :
  RatingsSound d ->
  (forall k review, t !! k = Some review -> 1 <= Review.rating review <= 5) ->
  RatingsSound (set_reviews t d).
Proof. intros [_ Ha] Ht. by split. Qed.

Lemma RatingsSound_set_tutors d t : RatingsSound d -> RatingsSound (set_tutors t d).
Proof. by intros [Hr Ha]. Qed.

Ltac keeps_course_write :=
  let d := fresh "d" in let d' := fresh "d'" in
  let Hd := fresh "Hd" in let E := fresh "E" in
  intros d d' Hd E;
  apply on_table_inr in E as (? & E & ->);
  apply update_inr in E as (? & ? & ->);
  apply (RatingsSound_set_courses _ _ _ (Reviews.setStatistics _ _)); done.

Ltac keeps_tutor_write :=
  let d := fresh "d" in let d' := fresh "d'" in
  let Hd := fresh "Hd" in let E := fresh "E" in
  intros d d' Hd E;
  apply on_table_inr in E as (? & E & ->);
  by apply RatingsSound_set_tutors.

Lemma createReview_keeps u request :
  Reviews.validCreateReview (reviewBody request) = true ->
  hoare RatingsSound (Reviews.createReview (mkCtx request (Some u)))
    (fun _ => RatingsSound) RatingsSound.
Proof.
  intros V. unfold Reviews.validCreateReview in V.
  unfold Reviews.createReview, req_user. proj.
  apply keeps_ret.
  apply keeps_query. intros [course|]; [|by apply hoare_ret].
  apply keeps_query. intros [enrollment|]; [|by apply hoare_ret].
  apply keeps_query. intros [existing|]; [by apply hoare_ret|].
  destruct (rating (reviewBody request)) as [newRating|]; [|done].
  apply andb_prop in V as [V _]. apply andb_prop in V as [V _].
  unfold Reviews.validRating in V.
  apply keeps_ret.
  apply (keeps_write _ RatingsSound); [done| |cbv beta].
  { intros d d' Hd E. apply on_table_inr in E as (t & E & ->).
    apply create_inr in E as (_ & ->).
    apply RatingsSound_set_reviews; [done|].
    intros k review. destruct (decide (k = (AuthUser.id u, courseId request))) as [->|N].
    - rewrite lookup_insert_eq. intros [= <-]. cbn. lia.
    - rewrite lookup_insert_ne by done. apply Hd. }
  apply (keeps_query_pure (fun a => averageInRange (Reviews.or_zero a))).
  { intros d [Hd _]. by apply avg_in_range, publishedRatings_in_range. }
  intros newAvgRating Havg.
  apply keeps_query. intros reviewCount.
  apply (keeps_write _ RatingsSound); [done|keeps_course_write|cbv beta].
  apply (keeps_write _ RatingsSound); [done|keeps_tutor_write|cbv beta].
  by apply hoare_ret.
Qed.

Lemma updateReview_keeps u request :
  Reviews.validUpdateReview (reviewBody request) = true ->
  hoare RatingsSound (Reviews.updateReview (mkCtx request (Some u)))
    (fun _ => RatingsSound) RatingsSound.
Proof.
  intros V. unfold Reviews.validUpdateReview in V.
  apply andb_prop in V as [V _]. apply andb_prop in V as [V _].
  unfold Reviews.updateReview, req_user. proj.
  apply keeps_ret.
  apply keeps_query. intros [existing|]; [|by apply hoare_ret].
  apply (keeps_write _ RatingsSound); [done| |cbv beta].
  { intros d d' Hd E. apply on_table_inr in E as (t & E & ->).
    apply update_inr in E as (review0 & Hr & ->).
    apply RatingsSound_set_reviews; [done|].
    intros k review. destruct (decide (k = (AuthUser.id u, courseId request))) as [->|N].
    - rewrite lookup_insert_eq. intros [= <-].
      cbn [Reviews.applyUpdateData Review.rating].
      destruct (rating (reviewBody request)) as [r|]; simpl.
      + unfold Reviews.validRating in V. lia.
      + by apply (proj1 Hd) in Hr.
    - rewrite lookup_insert_ne by done. apply Hd. }
  destruct (rating (reviewBody request)) as [r|].
  - apply (hoare_bind _ _ _ (fun _ => RatingsSound)); [|intros []; by apply hoare_ret].
    apply (keeps_query_pure (fun a => averageInRange (Reviews.or_zero a))).
    { intros d [Hd _]. by apply avg_in_range, publishedRatings_in_range. }
    intros newAvgRating Havg.
    apply hoare_write; [done|keeps_course_write].
  - apply keeps_ret. by apply hoare_ret.
Qed.

Lemma deleteReview_keeps u request :
  hoare RatingsSound (Reviews.deleteReview (mkCtx request (Some u)))
    (fun _ => RatingsSound) RatingsSound.
Proof.
  unfold Reviews.deleteReview, req_user. proj.
  apply keeps_ret.
  apply keeps_query. intros [review|]; [|by apply hoare_ret].
  apply keeps_query. intros reviewCourse.
  apply (keeps_write _ RatingsSound); [done| |cbv beta].
  { intros d d' Hd E. apply on_table_inr in E as (t & E & ->).
    unfold Reviews.deleteRow in E.
    destruct (reviews d !! _); [|done]. injection E as <-.
    apply RatingsSound_set_reviews; [done|].
    intros k review0 Hk. apply lookup_delete_Some in Hk as [_ Hk]. by apply (proj1 Hd) in Hk. }
  apply (keeps_query_pure (fun a => averageInRange (Reviews.or_zero a))).
  { intros d [Hd _]. by apply avg_in_range, publishedRatings_in_range. }
  intros newAvgRating Havg.
  apply keeps_query. intros reviewCount.
  apply (keeps_write _ RatingsSound); [done|keeps_course_write|cbv beta].
  apply (hoare_bind _ _ _ (fun _ => RatingsSound)); [|intros []; by apply hoare_ret].
  destruct reviewCourse as [course|]; [|by apply hoare_throw].
  apply hoare_write; [done|keeps_tutor_write].
Qed.

(** A route behind [auth], [isStudent] and the validation of the body
    keeps what its handler keeps on valid bodies. *)
Lemma hoare_validated_route env schema h request w (P : DB -> Prop) :
  (schema (reviewBody request) = true ->
   forall u, hoare P (h (mkCtx request (Some u))) (fun _ d => P d) P) ->
  P (db w) ->
  P (db_after (mkRoute [auth env; isStudent; Reviews.validate schema] h) request w).
Proof.
  intros Hh Hw.
  apply (hoare_route env [isStudent] (run_middlewares [Reviews.validate schema] h)
           request w P); [repeat constructor; apply isStudent_checks| |done].
  intros u. cbn [run_middlewares]. unfold Reviews.validate. proj.
  destruct (schema (reviewBody request)).
  - apply keeps_ret. by apply Hh.
  - apply keeps_ret. by apply hoare_ret.
Qed.

(** X15.  Ratings stay in range.  If every stored review has a rating
    from 1 to 5 and every course an average that is 0 or from 1 to 5,
    then so it is after any request to the three review routes, whoever
    sends it, whatever its body, whatever the reply and whichever writes
    fail: the validation lets only ratings from 1 to 5 through, and the
    averages are recomputed from stored ratings. *)
Theorem review_routes_keep_ratings_in_range env request w :
  RatingsSound (db w) ->
  RatingsSound (db_after (Reviews.postReview env) request w)
  /\ RatingsSound (db_after (Reviews.putReview env) request w)
  /\ RatingsSound (db_after (Reviews.deleteReviewRoute env) request w).
Proof.
  intros Hw. split; [|split].
  - apply (hoare_validated_route env Reviews.validCreateReview Reviews.createReview request w
             RatingsSound); [|done].
    intros V u. by apply createReview_keeps.
  - apply (hoare_validated_route env Reviews.validUpdateReview Reviews.updateReview request w
             RatingsSound); [|done].
    intros V u. by apply updateReview_keeps.
  - apply (hoare_route env [isStudent] Reviews.deleteReview request w RatingsSound);
      [|intros u; apply deleteReview_keeps|done].
    repeat constructor. apply isStudent_checks.
Qed.

Lemma review_routes_keep_ratings_in_range_witness :
  RatingsSound
    (db_after (Reviews.putReview Demo.env)
       (mkRequest (Some "Bearer token-jane") "js" "" None None None Demo.watched
          (mkReviewBody (Some 3) None None))
       (mkWorld (Demo.database false) [])).
Proof.
  apply (review_routes_keep_ratings_in_range Demo.env
           (mkRequest (Some "Bearer token-jane") "js" "" None None None Demo.watched
              (mkReviewBody (Some 3) None None))
           (mkWorld (Demo.database false) [])).
  split.
  - intros k review Hk. unfold Demo.database in Hk. cbn [db reviews] in Hk.
    apply lookup_singleton_Some in Hk as [_ <-]. cbn. lia.
  - intros c course Hc. unfold Demo.database in Hc. cbn [db courses] in Hc.
    repeat (apply lookup_insert_Some in Hc as [[_ <-]|[_ Hc]]; [by left|]).
    apply lookup_singleton_Some in Hc as [_ <-]. by left.
Defined.

(** ** Writing a review and deleting it again *)







(** ** The pages of a course's reviews *)

Lemma lt_Qceiling (p : Z) (q : Q) : (p < Qceiling q)%Z <-> (inject_Z p < q)%Q.
Proof.
  split.
  - intros H. apply Qle_lt_trans with (inject_Z (Qceiling q - 1)).
    + rewrite <- Zle_Qle. lia.
    + apply Qceiling_lt.
  - intros H. rewrite Zlt_Qlt. apply Qlt_le_trans with q; [done|]. apply Qle_ceiling.
Qed.

Lemma lt_totalPages (page total limit : Z) :
  (1 <= limit)%Z ->
  (page < Qceiling (inject_Z total / inject_Z limit))%Z <-> (page * limit < total)%Z.
Proof.
  intros Hl. rewrite lt_Qceiling.
  assert (Hn : (0 < inject_Z limit)%Q) by (change 0%Q with (inject_Z 0); rewrite <- Zlt_Qlt; lia).
  rewrite Zlt_Qlt, inject_Z_mult. split.
  - intros H. apply (Qmult_lt_r _ _ _ Hn) in H.
    rewrite H || idtac. revert H. unfold Qdiv. rewrite <- Qmult_assoc.
    rewrite (Qmult_comm (/ _)), Qmult_inv_r, Qmult_1_r; [done|].
    intros E. rewrite E in Hn. by apply Qlt_irrefl in Hn.
  - intros H. by apply Qlt_shift_div_l.
Qed.

Lemma publishedReviews_length d courseId :
  length (ReviewList.publishedReviews d courseId) = length (Reviews.publishedRatings d courseId).
Proof. unfold Reviews.publishedRatings. by rewrite length_fmap. Qed.

(** Cutting a list into [n] pages of [l] rows loses nothing when the
    pages have room for all rows. *)
Lemma pages_concat {A} (l : nat) (xs : list A) (n : nat) :
  (length xs <= n * l)%nat ->
  concat ((fun i => take l (drop (i * l) xs)) <$> seq 0 n) = xs.
Proof.
  revert xs. induction n as [|n IH]; intros xs Hn.
  - destruct xs; [done|simpl in Hn; lia].
  - cbn [seq fmap list_fmap concat]. rewrite Nat.mul_0_l, drop_0.
    rewrite <- seq_shift, <- list_fmap_compose.
    rewrite <- (take_drop l xs) at 2. f_equal.
    rewrite <- (IH (drop l xs)) by (rewrite length_drop; lia).
    f_equal. apply list_fmap_ext. intros _ i _. cbn.
    by rewrite drop_drop, (Nat.add_comm l).
Qed.

Lemma validPaginationQuery_bounds request :
  ReviewList.validPaginationQuery request = true ->
  1 <= ReviewList.pageOf request /\ 1 <= ReviewList.limitOf request <= 100.
Proof.
  unfold ReviewList.validPaginationQuery, ReviewList.pageOf, ReviewList.limitOf.
  destruct (page request), (limit request); simpl; lia.
Qed.

(** X17.  A page of a course's reviews.  For every query the validation
    lets through: the rows are published reviews of the course; their
    number is the limit, or what is left of the reviews from the page's
    offset on when that is less; hasNext says exactly whether reviews
    remain after this page, and then the page is full. *)
Theorem review_page orderBy request d ls :
  (forall l, orderBy l ≡ₚ l) ->
  ReviewList.getCourseReviews orderBy request d = inr ls ->
  let p := ReviewList.pagination ls in
  let limit := ReviewList.limitOf request in
  let skip := (ReviewList.currentPage p - 1) * limit in
  Forall (fun row : ReviewList.Row =>
            reviews d !! row.1 = Some row.2
            /\ row.1.2 = courseId request /\ Review.isPublished row.2 = true)
    (ReviewList.rows ls)
  /\ Z.of_nat (length (ReviewList.rows ls))
     = Z.max 0 (Z.min limit (ReviewList.totalCount p - skip))
  /\ (ReviewList.hasNext p = true <-> skip + limit < ReviewList.totalCount p)
  /\ (ReviewList.hasNext p = true -> Z.of_nat (length (ReviewList.rows ls)) = limit).
Proof.
  intros Hperm. unfold ReviewList.getCourseReviews.
  destruct (ReviewList.validPaginationQuery request) eqn:V; [|done].
  apply validPaginationQuery_bounds in V as [Hp Hl].
  intros [= <-]. cbn [ReviewList.pagination ReviewList.listing ReviewList.rows
                       ReviewList.currentPage ReviewList.totalCount ReviewList.hasNext].
  set (page := ReviewList.pageOf request) in *.
  set (limit := ReviewList.limitOf request) in *.
  set (all := orderBy (ReviewList.publishedReviews d (courseId request))).
  assert (Hlen : length all = length (Reviews.publishedRatings d (courseId request))).
  { subst all. by rewrite Hperm, publishedReviews_length. }
  assert (Hnext : (page <? Qceiling (inject_Z (Z.of_nat (length
                     (Reviews.publishedRatings d (courseId request)))) / inject_Z limit))%Z
                  = true
                  <-> (page - 1) * limit + limit
                      < Z.of_nat (length (Reviews.publishedRatings d (courseId request)))).
  { rewrite Z.ltb_lt, lt_totalPages by lia. lia. }
  assert (Hrows : Z.of_nat (length (take (Z.to_nat limit)
                                      (drop (Z.to_nat ((page - 1) * limit)) all)))
                  = Z.max 0 (Z.min limit
                               (Z.of_nat (length (Reviews.publishedRatings d (courseId request)))
                                - (page - 1) * limit))).
  { rewrite length_take, length_drop, Hlen. nia. }
  split; [|split; [|split]].
  - apply Forall_forall. intros row Hrow.
    assert (Hall : row ∈ all).
    { eapply elem_of_sublist; [exact Hrow|].
      etrans; [apply sublist_take|apply sublist_drop]. }
    clear Hrow. rename Hall into Hrow. subst all. rewrite Hperm in Hrow.
    apply list_elem_of_filter in Hrow as [[Hc Hpub] Hrow].
    apply elem_of_map_to_list' in Hrow. done.
  - exact Hrows.
  - exact Hnext.
  - intros H. apply Hnext in H. rewrite Hrows. lia.
Qed.

Lemma review_page_witness :
  exists ls,
    ReviewList.getCourseReviews (fun l => l)
      (mkRequest None "js" "" (Some 1) (Some 1) None Demo.watched (mkReviewBody None None None))
      (Demo.database false)
    = inr ls
    /\ Z.of_nat (length (ReviewList.rows ls)) = 1
    /\ ReviewList.hasNext (ReviewList.pagination ls) = false.
Proof.
  eexists. split; [reflexivity|].
  destruct (review_page (fun l => l)
              (mkRequest None "js" "" (Some 1) (Some 1) None Demo.watched
                 (mkReviewBody None None None))
              (Demo.database false) _ (fun l => reflexivity l) eq_refl)
    as (_ & Hrows & Hnext & _).
  split.
  - rewrite Hrows. vm_compute. reflexivity.
  - apply not_true_is_false. intros H. apply Hnext in H. vm_compute in H. discriminate H.
Defined.

(** The pages of lists of one length have, together, that many rows. *)
Lemma pages_length {A} (l : nat) (xs : nat -> list A) (n k : nat) :
  (forall i, length (xs i) = n) ->
  (n <= k * l)%nat ->
  length (concat ((fun i => take l (drop (i * l) (xs i))) <$> seq 0 k)) = n.
Proof.
  intros Hn Hk.
  transitivity (length (concat ((fun i => take l (drop (i * l) (xs 0%nat))) <$> seq 0 k))).
  - rewrite !length_concat. f_equal.
    change (map length ?L) with (length <$> L).
    rewrite <- !list_fmap_compose. apply list_fmap_ext. intros _ i _. cbn.
    by rewrite !length_take, !length_drop, !Hn.
  - rewrite pages_concat by (rewrite Hn; lia). apply Hn.
Qed.

(** X18.  The pages of a course's reviews, from the first to the last one
    that totalPages announces, each the answer to a query of its own.
    Together the pages have as many rows as the course has published
    reviews.  When the database returns the reviews in the same order to
    each of these queries, the pages hold every published review exactly
    once, in that order; the sort keys of the route, which may tie, do
    not force that. *)
Theorem review_pages_cover orderOf request d ls :
  (forall (i : nat) l, orderOf i l ≡ₚ l) ->
  ReviewList.getCourseReviews (orderOf 0%nat) request d = inr ls ->
  let pages :=
    (fun i => ReviewList.rows
                (ReviewList.listing (orderOf i) d (courseId request) (Z.of_nat (S i))
                   (ReviewList.limitOf request)))
      <$> seq 0 (Z.to_nat (ReviewList.totalPages (ReviewList.pagination ls))) in
  length (concat pages) = length (ReviewList.publishedReviews d (courseId request))
  /\ ((forall i l, orderOf i l = orderOf 0%nat l) ->
      concat pages = orderOf 0%nat (ReviewList.publishedReviews d (courseId request))).
Proof.
  intros Hperm. unfold ReviewList.getCourseReviews.
  destruct (ReviewList.validPaginationQuery request) eqn:V; [|done].
  apply validPaginationQuery_bounds in V as [Hp Hl].
  intros [= <-]. cbn [ReviewList.pagination ReviewList.listing ReviewList.rows
                       ReviewList.totalPages].
  set (limit := ReviewList.limitOf request) in *.
  set (published := ReviewList.publishedReviews d (courseId request)).
  set (total := Z.of_nat (length (Reviews.publishedRatings d (courseId request)))).
  assert (Hlen : forall i, length (orderOf i published) = Z.to_nat total).
  { intros i. subst published total. rewrite Hperm, publishedReviews_length. lia. }
  set (pages := Qceiling (inject_Z total / inject_Z limit)).
  assert (Hpages : total <= pages * limit).
  { destruct (Z.le_gt_cases total (pages * limit)) as [|Hgt]; [done|].
    apply (lt_totalPages pages total limit) in Hgt; [|lia]. subst pages. lia. }
  assert (Offsets : forall (order : nat -> list ReviewList.Row),
            (fun i => take (Z.to_nat limit)
                        (drop (Z.to_nat ((Z.of_nat (S i) - 1) * limit)) (order i)))
              <$> seq 0 (Z.to_nat pages)
            = (fun i => take (Z.to_nat limit) (drop (i * Z.to_nat limit) (order i)))
                <$> seq 0 (Z.to_nat pages)).
  { intros order. apply list_fmap_ext. intros _ i _. cbn beta. do 2 f_equal. nia. }
  cbv zeta. rewrite (Offsets (fun i => orderOf i published)). split.
  - rewrite (pages_length (Z.to_nat limit) (fun i => orderOf i published) (Z.to_nat total));
      [|done|nia].
    subst total published. rewrite publishedReviews_length. lia.
  - intros Same.
    etrans; [|apply (pages_concat (Z.to_nat limit) (orderOf 0%nat published)
                       (Z.to_nat pages)); rewrite Hlen; nia].
    f_equal. apply list_fmap_ext. intros _ i _. cbn beta. by rewrite Same.
Qed.

Lemma review_pages_cover_witness :
  let d :=
    set_reviews
      (<[("u-ann", "js") := Review.mk 3 None None true false]>
         (<[("u-john", "js") := Review.mk 4 None None true false]>
            (reviews (Demo.database false))))
      (Demo.database false) in
  let page i := ReviewList.rows (ReviewList.listing (fun l => l) d "js" i 2) in
  length (page 1) = 2%nat
  /\ length (page 2) = 1%nat
  /\ (page 1 ++ page 2)%list = ReviewList.publishedReviews d "js".
Proof.
  intros d page.
  destruct (review_pages_cover (fun _ l => l)
              (mkRequest None "js" "" (Some 1) (Some 2) None Demo.watched
                 (mkReviewBody None None None))
              d _ (fun _ l => reflexivity l) eq_refl) as [_ Cover].
  specialize (Cover (fun _ _ => eq_refl)).
  split; [vm_compute; reflexivity|]. split; [vm_compute; reflexivity|].
  refine (eq_trans _ Cover). vm_compute. reflexivity.
Defined.

(** ** Accounts: login, passwords, logout *)

Lemma findUserByEmail_Some d email userId user :
  Accounts.findUserByEmail d email = Some (userId, user) ->
  users d !! userId = Some user /\ User.email user = email.
Proof.
  intros H. apply head_Some_elem_of, list_elem_of_filter in H as [He H].
  by apply elem_of_map_to_list in H.
Qed.

Lemma findUserByEmail_unique d userId user :
  UniqueEmails d ->
  users d !! userId = Some user ->
  Accounts.findUserByEmail d (User.email user) = Some (userId, user).
Proof.
  intros Hu Hd.
  destruct (Accounts.findUserByEmail d (User.email user)) as [[userId' user']|] eqn:E.
  - apply findUserByEmail_Some in E as [Hd' He].
    assert (userId' = userId) as -> by (by apply (Hu _ _ _ _ Hd' Hd)).
    congruence.
  - exfalso. apply head_None in E.
    assert (Hin : (userId, user) ∈ filter (fun kv : Id * User.t => User.email kv.2 = User.email user)
                                     (map_to_list (users d))).
    { apply list_elem_of_filter. split; [done|]. by apply elem_of_map_to_list. }
    unfold Accounts.findUserByEmail in E. rewrite E in Hin. by apply elem_of_nil in Hin.
Qed.

Lemma validated_route valid h request w :
  run_route (mkRoute [Accounts.validateBody valid] h) request w
  = if valid
    then match h (mkCtx request None) w with
         | (Ok response, w') => (Sent response, w')
         | (Throw e, w') => (NextError e, w')
         end
    else (Sent (mkResponse 400 false "Validation failed"), w).
Proof.
  unfold run_route. cbn [middlewares handler run_middlewares]. unfold Accounts.validateBody.
  destruct valid; by rewrite bind_ret.
Qed.

Lemma login_data_hides_password d userId object token :
  AuthRoutes.findUserWithProfiles d userId = Some object ->
  AuthRoutes.mentions "password"
    (JObject [("user", JObject (AuthRoutes.omit "password" object)); ("token", JString token)])
  = false.
Proof.
  intros Ho. apply user_object_members in Ho.
  pose proof (mentions_omit "password" object Ho) as Hm.
  cbn [AuthRoutes.mentions existsb] in *. by rewrite Hm.
Qed.

(** X19.  Logging in.  Whatever the request and whichever writes fail,
    the login route leaves the database as it was but for lastLoginAt,
    and no reply of it has a member called password in its data.  It replies
    200 only to the password of an active account with the email; every
    other reply to a valid body is one and the same 401, be the email
    unknown, the account inactive or the password wrong. *)
Theorem login_outcomes crypto valid email password request w :
  let run := run_route (Accounts.postLogin crypto valid email password) request w in
  db run.2 = db w
  /\ match run.1 with
     | Sent r =>
         AuthRoutes.response_mentions "password" r = false
         /\ (status r = 200%nat ->
             exists userId user,
               users (db w) !! userId = Some user
               /\ User.email user = email
               /\ User.isActive user = true
               /\ Accounts.compare crypto password (User.password user) = true)
         /\ (valid = true -> status r <> 200%nat -> run = (Sent Accounts.invalidLogin, w))
     | NextError _ => True
     end.
Proof.
  intros run. subst run. unfold Accounts.postLogin. rewrite validated_route.
  destruct valid; [|by repeat split].
  unfold Accounts.login. rewrite bind_query.
  unfold Accounts.findUserByEmailWithProfiles.
  destruct (Accounts.findUserByEmail (db w) email) as [[userId user]|] eqn:Hf;
    [|by repeat split].
  apply findUserByEmail_Some in Hf as [Hu He].
  destruct (AuthRoutes.findUserWithProfiles (db w) userId) as [object|] eqn:Ho;
    [|by repeat split].
  destruct (User.isActive user) eqn:Ha; cbn [negb]; [|by repeat split].
  destruct (Accounts.compare crypto password (User.password user)) eqn:Hc; cbn [negb];
    [|by repeat split].
  match goal with |- context [bind (write ?f) ?k w] =>
    destruct (bind_write_cases f k w) as [(d' & E & ->)|(e & ->)]; [|done] end.
  apply on_table_inr in E as (t & E & ->).
  apply update_inr in E as (row & Hrow & ->).
  cbv beta zeta. unfold ret. cbn [fst snd db]. split.
  { destruct w as [d fs]. destruct d. proj. unfold set_users. f_equal. by apply insert_id. }
  split; [|split].
  - unfold AuthRoutes.response_mentions. cbn [data].
    by apply (login_data_hides_password (db w) userId).
  - intros _. by exists userId, user.
  - intros _ N. by contradict N.
Qed.

Lemma login_outcomes_witness :
  exists userId user,
    users (Demo.database false) !! userId = Some user
    /\ User.email user = "student@edustack.com"
    /\ User.isActive user = true
    /\ Accounts.compare DemoAccounts.crypto "jane" (User.password user) = true.
Proof.
  pose proof (login_outcomes DemoAccounts.crypto true "student@edustack.com" "jane"
                (Demo.request "" "" "" Demo.watched) (mkWorld (Demo.database false) []))
    as [_ H].
  set (run := run_route _ _ _) in H.
  assert (R : exists r, run.1 = Sent r /\ status r = 200%nat).
  { eexists. split; vm_compute; reflexivity. }
  destruct R as (r & R & S). rewrite R in H.
  exact (proj1 (proj2 H) S).
Defined.

(** X20.  The forgot-password route sends one and the same reply for
    every email and every database, and changes nothing: it does not
    tell whether an account exists. *)
Theorem forgot_password_reveals_nothing email request w :
  run_route (Accounts.postForgotPassword email) request w = (Sent Accounts.resetLinkSent, w).
Proof.
  unfold run_route, Accounts.postForgotPassword. cbn [middlewares handler run_middlewares].
  unfold Accounts.forgotPassword. rewrite bind_query.
  by destruct (Accounts.findUserByEmail (db w) email).
Qed.

Lemma auth_never_throws env ctx w e w' : auth env ctx w <> (Throw e, w').
Proof.
  intros Ea.
  pose proof (auth_keeps env ctx (fun _ => True) (fun _ => False) w I) as H.
  by rewrite Ea in H.
Qed.

(** X21.  Logging out changes nothing, whoever asks: the world after the
    request is the world before it.  A request with a valid token is told
    200, and the token stays valid: the profile route answers the same
    request afterwards as it would have before. *)
Theorem logout_keeps_the_token_valid env request w :
  let out := run_route (Accounts.postLogout env) request w in
  out.2 = w
  /\ (forall userId,
        Authenticated env (db w) request userId ->
        out.1 = Sent (mkResponse 200 true "Logged out successfully"))
  /\ run_route (AuthRoutes.getMe env) request out.2 = run_route (AuthRoutes.getMe env) request w.
Proof.
  intros out.
  assert (Same : out.2 = w).
  { subst out. unfold run_route, Accounts.postLogout.
    cbn [middlewares handler run_middlewares]. unfold bind.
    destruct (auth env (mkCtx request None) w) as [[[r|ctx']|e] w1] eqn:Ea.
    - by apply auth_reads_only in Ea as ->.
    - by apply auth_reads_only in Ea as ->.
    - by apply auth_never_throws in Ea. }
  split; [done|]. split; [|by rewrite Same].
  intros userId Hauth. subst out.
  destruct (auth_user env request w userId Hauth) as (account & _ & _ & Ea).
  unfold Accounts.postLogout. by rewrite (route_after_auth _ _ _ _ _ _ Ea).
Qed.

Lemma logout_keeps_the_token_valid_witness :
  (run_route (Accounts.postLogout Demo.env) (Demo.request "token-jane" "" "" Demo.watched)
     (mkWorld (Demo.database false) [])).1
  = Sent (mkResponse 200 true "Logged out successfully").
Proof.
  apply (proj1 (proj2 (logout_keeps_the_token_valid Demo.env
                         (Demo.request "token-jane" "" "" Demo.watched)
                         (mkWorld (Demo.database false) []))) "u-jane").
  apply jane_authenticated.
Defined.

Lemma UniqueEmails_with_password d userId user p :
  UniqueEmails d ->
  users d !! userId = Some user ->
  UniqueEmails (set_users (<[userId := User.with_password p user]> (users d)) d).
Proof.
  intros Hu Hd i j u v. proj.
  destruct (decide (i = userId)) as [->|Ni], (decide (j = userId)) as [->|Nj];
    rewrite ?lookup_insert_eq, ?lookup_insert_ne by done; try done.
  - intros [= <-] Hv. cbn [User.with_password User.email]. by apply Hu.
  - intros Hi [= <-]. cbn [User.with_password User.email]. by apply Hu.
  - apply Hu.
Qed.

Lemma login_run crypto email password request d userId user :
  UniqueEmails d ->
  users d !! userId = Some user ->
  User.email user = email ->
  Accounts.login crypto email password (mkCtx request None) (mkWorld d [])
  = if User.isActive user && Accounts.compare crypto password (User.password user)
    then (Ok (mkDataResponse 200 true "Login successful"
                (Some (JObject
                         [("user",
                           JObject (AuthRoutes.omit "password"
                                      (default [] (AuthRoutes.findUserWithProfiles d userId))));
                          ("token", JString (Accounts.sign crypto userId))]))),
          mkWorld d [])
    else (Ok Accounts.invalidLogin, mkWorld d []).
Proof.
  intros Hu Hd <-. unfold Accounts.login. rewrite bind_query. proj.
  unfold Accounts.findUserByEmailWithProfiles.
  rewrite (findUserByEmail_unique d userId user Hu Hd).
  unfold AuthRoutes.findUserWithProfiles. rewrite Hd.
  destruct (User.isActive user); cbn [negb andb]; [|done].
  destruct (Accounts.compare crypto password (User.password user)); cbn [negb]; [|done].
  erewrite bind_write_ok; [|apply on_table_ok; proj; eapply update_ok; eassumption].
  cbv zeta. unfold ret. do 2 f_equal.
  destruct d. unfold set_users. proj. f_equal. by apply insert_id.
Qed.

(** X22.  Changing the password and logging in again.  When bcrypt
    accepts the current password, the change-password route stores the
    hash of the new one in the user's row and changes nothing else.
    From then on the login route, for the user's email, replies 200 to
    the new password and the common 401 to every password that bcrypt
    does not match with the new hash. *)
Theorem change_password_then_login env crypto request request' d userId user
    currentPassword newPassword :
  Authenticated env d request userId ->
  users d !! userId = Some user ->
  UniqueEmails d ->
  Accounts.compare crypto currentPassword (User.password user) = true ->
  Accounts.compare crypto newPassword (Accounts.hash crypto newPassword 12) = true ->
  let d1 := set_users (<[userId := User.with_password (Accounts.hash crypto newPassword 12) user]>
                         (users d)) d in
  run_route (Accounts.postChangePassword env crypto true currentPassword newPassword) request
    (mkWorld d [])
  = (Sent (mkResponse 200 true "Password changed successfully"), mkWorld d1 [])
  /\ (exists r,
        run_route (Accounts.postLogin crypto true (User.email user) newPassword) request'
          (mkWorld d1 [])
        = (Sent r, mkWorld d1 [])
        /\ status r = 200%nat)
  /\ (forall password,
        Accounts.compare crypto password (Accounts.hash crypto newPassword 12) = false ->
        run_route (Accounts.postLogin crypto true (User.email user) password) request'
          (mkWorld d1 [])
        = (Sent Accounts.invalidLogin, mkWorld d1 [])).
Proof.
  intros Hauth Hd Hu Hcur Hnew d1.
  assert (Hactive : User.isActive user = true).
  { destruct Hauth as (h & acc & _ & _ & _ & Hacc & Hact). congruence. }
  assert (Hd1 : users d1 !! userId
                = Some (User.with_password (Accounts.hash crypto newPassword 12) user)).
  { subst d1. proj. apply lookup_insert_eq. }
  pose proof (UniqueEmails_with_password d userId user
                (Accounts.hash crypto newPassword 12) Hu Hd) as Hu1.
  fold d1 in Hu1.
  split; [|split].
  - destruct (auth_user env request (mkWorld d []) userId Hauth) as (account & _ & _ & Ea).
    unfold Accounts.postChangePassword. rewrite (route_after_auth _ _ _ _ _ _ Ea).
    cbn [run_middlewares]. unfold Accounts.validateBody. rewrite bind_ret.
    unfold Accounts.changePassword, req_user. proj.
    rewrite bind_ret, bind_query. proj. cbn [AuthUser.id]. rewrite Hd, Hcur. cbn [negb].
    write_ok. done.
  - unfold Accounts.postLogin. rewrite validated_route.
    rewrite (login_run crypto (User.email user) newPassword request' d1 userId _ Hu1 Hd1
               eq_refl).
    cbn [User.with_password User.isActive User.password]. rewrite Hactive, Hnew.
    cbn [andb]. by eexists.
  - intros password Hp. unfold Accounts.postLogin. rewrite validated_route.
    rewrite (login_run crypto (User.email user) password request' d1 userId _ Hu1 Hd1
               eq_refl).
    cbn [User.with_password User.isActive User.password]. rewrite Hactive, Hp.
    by cbn.
Qed.

Lemma demo_unique_emails retiredDone : UniqueEmails (Demo.database retiredDone).
Proof.
  intros i j u v Hi Hj He. unfold Demo.database in Hi, Hj. cbn [users] in Hi, Hj.
  apply lookup_insert_Some in Hi as [[<- <-]|[_ Hi%lookup_singleton_Some]];
    apply lookup_insert_Some in Hj as [[<- <-]|[_ Hj%lookup_singleton_Some]];
    try done; destruct Hi as [<- <-] || destruct Hj as [<- <-]; try done;
    try destruct Hj as [<- <-]; done.
Qed.

Lemma change_password_then_login_witness :
  run_route (Accounts.postChangePassword Demo.env DemoAccounts.crypto true "jane" "Tr1cky&new")
    (Demo.request "token-jane" "" "" Demo.watched) (mkWorld (Demo.database false) [])
  = (Sent (mkResponse 200 true "Password changed successfully"),
     mkWorld
       (set_users (<["u-jane" := User.with_password "$2a$12$Tr1cky&new" Demo.jane]>
                     (users (Demo.database false)))
          (Demo.database false))
       []).
Proof.
  apply (change_password_then_login Demo.env DemoAccounts.crypto
           (Demo.request "token-jane" "" "" Demo.watched)
           (Demo.request "" "" "" Demo.watched)
           (Demo.database false) "u-jane" Demo.jane "jane" "Tr1cky&new").
  - apply jane_authenticated.
  - reflexivity.
  - apply demo_unique_emails.
  - reflexivity.
  - reflexivity.
Defined.

(** ** Enrolling is not one transaction *)

(** X23.  The four writes of the enroll route are separate statements.
    When the second one fails the request ends in an error, but the
    enrollment row of the first stays while no counter is raised; and a
    second attempt is then refused as already enrolled, so the counters
    of course, tutor and student are never raised for this enrollment. *)
Theorem enroll_interrupted env env' request d userId student course faults' :
  Authenticated env d request userId ->
  Authenticated env' d request userId ->
  students d !! userId = Some student ->
  courses d !! courseId request = Some course ->
  Course.isPublished course = true ->
  Course.status course = CourseStatus.PUBLISHED ->
  (Course.price course == 0)%Q ->
  enrollments d !! (userId, courseId request) = None ->
  let d1 := set_enrollments
              (<[(userId, courseId request) := Enrollments.newEnrollment env]> (enrollments d))
              d in
  (exists e,
     run_route (Enrollments.postEnroll env) request (mkWorld d [false; true])
     = (NextError e, mkWorld d1 []))
  /\ run_route (Enrollments.postEnroll env') request (mkWorld d1 faults')
     = (Sent (mkResponse 400 false "Already enrolled in this course"), mkWorld d1 faults').
Proof.
  intros Hauth Hauth' Hst Hc Hp Hs Hprice He d1. split.
  - destruct (student_route env (Enrollments.enroll env) request (mkWorld d [false; true])
                userId student Hauth Hst) as (u & Hid & R).
    subst userId. unfold Enrollments.postEnroll. rewrite R.
    unfold Enrollments.enroll, req_user. proj.
    rewrite bind_ret, bind_query. proj.
    rewrite (findPublishedCourse_Some _ _ _ Hc Hp Hs), bind_query. proj. rewrite He.
    apply Qeq_bool_iff in Hprice. rewrite Hprice.
    unfold bind, write. proj. unfold on_table, create. proj. rewrite He.
    cbn. by eexists.
  - destruct (student_route env' (Enrollments.enroll env') request (mkWorld d1 faults')
                userId student) as (u & Hid & R).
    { by apply (Authenticated_users env' d). }
    { done. }
    subst userId. unfold Enrollments.postEnroll. rewrite R.
    unfold Enrollments.enroll, req_user. proj.
    rewrite bind_ret, bind_query. proj.
    rewrite (findPublishedCourse_Some d1 _ _ Hc Hp Hs), bind_query. proj.
    subst d1. proj. by rewrite lookup_insert_eq.
Qed.

Lemma enroll_interrupted_witness :
  exists e,
    run_route (Enrollments.postEnroll Demo.env) (Demo.request "token-jane" "free" "" Demo.watched)
      (mkWorld (Demo.database false) [false; true])
    = (NextError e,
       mkWorld
         (set_enrollments
            (<[("u-jane", "free") := Enrollments.newEnrollment Demo.env]>
               (enrollments (Demo.database false)))
            (Demo.database false))
         []).
Proof.
  apply (enroll_interrupted Demo.env Demo.env (Demo.request "token-jane" "free" "" Demo.watched)
           (Demo.database false) "u-jane" (Student.mk "st-jane" 1 0) (Demo.course 0%Q true) []);
    try reflexivity; apply jane_authenticated.
Defined.

(** ** The enrollment counters *)

Lemma count_insert_new `{Countable K} {V} (P : K * V -> Prop) `{!forall x, Decision (P x)}
    (m : gmap K V) k v :
  m !! k = None -> P (k, v) ->
  length (filter P (map_to_list (<[k := v]> m))) = S (length (filter P (map_to_list m))).
Proof.
  intros E Hp. rewrite (map_to_list_insert m k v E). by rewrite filter_cons_True.
Qed.

Lemma count_delete `{Countable K} {V} (P : K * V -> Prop) `{!forall x, Decision (P x)}
    (m : gmap K V) k v :
  m !! k = Some v ->
  length (filter P (map_to_list m))
  = ((if decide (P (k, v)) then 1 else 0) + length (filter P (map_to_list (delete k m))))%nat.
Proof.
  intros E. rewrite <- (map_to_list_delete m k v E), filter_cons.
  by destruct (decide (P (k, v))).
Qed.

(** With unique ids, deleting the enrollment with the id of a row deletes
    that row and no other. *)
Lemma deleteEnrollment_by_key (t : gmap (Id * Id) Enrollment.t) k enrollment :
  UniqueEnrollmentIds t ->
  t !! k = Some enrollment ->
  filter (fun kv => Enrollment.id kv.2 ≠ Enrollment.id enrollment) t = delete k t.
Proof.
  intros Hu Hk. apply map_eq. intros i.
  destruct (decide (i = k)) as [->|N].
  - rewrite lookup_delete_eq. apply map_lookup_filter_None. right.
    intros e He. cbn. rewrite Hk in He. injection He as <-. tauto.
  - rewrite lookup_delete_ne by done.
    destruct (t !! i) as [e|] eqn:Hi.
    + apply map_lookup_filter_Some. split; [done|]. cbn.
      intros Hid. apply N. by apply (Hu i k e enrollment).
    + apply map_lookup_filter_None. by left.
Qed.

(** The counters after an enrollment was added and the two counters of
    its course and its student were raised by one. *)
Lemma EnrollmentCounters_enrolled d d' s c e course student course' student' :
  EnrollmentCounters d ->
  enrollments d !! (s, c) = None ->
  (forall k e0, enrollments d !! k = Some e0 -> Enrollment.id e0 <> Enrollment.id e) ->
  courses d !! c = Some course ->
  students d !! s = Some student ->
  Course.totalEnrollments course' = Course.totalEnrollments course + 1 ->
  Student.totalCoursesEnrolled student' = Student.totalCoursesEnrolled student + 1 ->
  enrollments d' = <[(s, c) := e]> (enrollments d) ->
  courses d' = <[c := course']> (courses d) ->
  students d' = <[s := student']> (students d) ->
  EnrollmentCounters d'.
Proof.
  intros (Hu & Hc & Hs) Hn Hfresh Hcourse Hstudent Hc' Hs' Ee Ec Es.
  split; [|split].
  - rewrite Ee. intros k k' e1 e2.
    destruct (decide (k = (s, c))) as [->|Nk], (decide (k' = (s, c))) as [->|Nk'];
      rewrite ?lookup_insert_eq, ?lookup_insert_ne by done; try done.
    + intros [= <-] H2 Hid. symmetry in Hid. by apply Hfresh in H2.
    + intros H1 [= <-] Hid. by apply Hfresh in H1.
    + apply Hu.
  - intros c0 course0. rewrite Ec. unfold enrolledIn. rewrite Ee.
    destruct (decide (c0 = c)) as [->|N].
    + rewrite lookup_insert_eq. intros [= <-].
      rewrite count_insert_new by done. rewrite Hc', (Hc c course Hcourse).
      unfold enrolledIn. lia.
    + rewrite lookup_insert_ne by done. intros H0.
      rewrite count_insert_fresh by (done || (cbn; congruence)).
      by apply Hc.
  - intros s0 student0. rewrite Es. unfold enrolledBy. rewrite Ee.
    destruct (decide (s0 = s)) as [->|N].
    + rewrite lookup_insert_eq. intros [= <-].
      rewrite count_insert_new by done. rewrite Hs', (Hs s student Hstudent).
      unfold enrolledBy. lia.
    + rewrite lookup_insert_ne by done. intros H0.
      rewrite count_insert_fresh by (done || (cbn; congruence)).
      by apply Hs.
Qed.

(** The counters after an enrollment was deleted and the two counters
    were lowered by one. *)
Lemma EnrollmentCounters_unenrolled d d' s c e course student course' student' :
  EnrollmentCounters d ->
  enrollments d !! (s, c) = Some e ->
  courses d !! c = Some course ->
  students d !! s = Some student ->
  Course.totalEnrollments course' = Course.totalEnrollments course - 1 ->
  Student.totalCoursesEnrolled student' = Student.totalCoursesEnrolled student - 1 ->
  enrollments d' = delete (s, c) (enrollments d) ->
  courses d' = <[c := course']> (courses d) ->
  students d' = <[s := student']> (students d) ->
  EnrollmentCounters d'.
Proof.
  intros (Hu & Hc & Hs) He Hcourse Hstudent Hc' Hs' Ee Ec Es.
  split; [|split].
  - rewrite Ee. intros k k' e1 e2 H1 H2.
    apply lookup_delete_Some in H1 as [_ H1]. apply lookup_delete_Some in H2 as [_ H2].
    by apply Hu.
  - intros c0 course0. rewrite Ec. unfold enrolledIn. rewrite Ee.
    pose proof (count_delete (fun kv : Id * Id * Enrollment.t => kv.1.2 = c0)
                  (enrollments d) (s, c) e He) as Hcount.
    destruct (decide (c0 = c)) as [->|N].
    + rewrite lookup_insert_eq. intros [= <-].
      rewrite Hc', (Hc c course Hcourse). unfold enrolledIn. rewrite Hcount.
      rewrite decide_True by done. lia.
    + rewrite lookup_insert_ne by done. intros H0.
      rewrite (Hc c0 course0 H0). unfold enrolledIn. rewrite Hcount.
      rewrite decide_False by (cbn; congruence). done.
  - intros s0 student0. rewrite Es. unfold enrolledBy. rewrite Ee.
    pose proof (count_delete (fun kv : Id * Id * Enrollment.t => kv.1.1 = s0)
                  (enrollments d) (s, c) e He) as Hcount.
    destruct (decide (s0 = s)) as [->|N].
    + rewrite lookup_insert_eq. intros [= <-].
      rewrite Hs', (Hs s student Hstudent). unfold enrolledBy. rewrite Hcount.
      rewrite decide_True by done. lia.
    + rewrite lookup_insert_ne by done. intros H0.
      rewrite (Hs s0 student0 H0). unfold enrolledBy. rewrite Hcount.
      rewrite decide_False by (cbn; congruence). done.
Qed.

(** The counters depend on three tables only. *)
Lemma EnrollmentCounters_ext d d' :
  enrollments d' = enrollments d -> courses d' = courses d -> students d' = students d ->
  EnrollmentCounters d -> EnrollmentCounters d'.
Proof.
  intros Ee Ec Es (Hu & Hc & Hs). unfold EnrollmentCounters, enrolledIn, enrolledBy.
  rewrite Ee, Ec, Es. done.
Qed.

Lemma unenroll_keeps_counters u request :
  hoare EnrollmentCounters (Enrollments.unenroll (mkCtx request (Some u)))
    (fun _ => EnrollmentCounters) EnrollmentCounters.
Proof.
  intros w Hw. unfold Enrollments.unenroll, req_user. proj.
  rewrite bind_ret, bind_query. proj.
  destruct (enrollments (db w) !! (AuthUser.id u, courseId request)) as [enrollment|] eqn:He;
    [|done].
  destruct (EnrollmentStatus.isCompleted (Enrollment.status enrollment)); [done|].
  unfold bind.
  destruct (unenrollWrites_cases (AuthUser.id u) (courseId request) enrollment w)
    as [(course & student & Hc & Hs & E)|(e & w' & E)].
  - rewrite (transaction_Ok _ _ _ _ E). unfold ret.
    apply (EnrollmentCounters_unenrolled (db w) _ (AuthUser.id u) (courseId request)
             enrollment course student
             (Enrollments.incrementTotalEnrollments (-1) course)
             (Enrollments.incrementTotalCoursesEnrolled (-1) student) Hw He Hc Hs);
      proj; try done.
    apply (deleteEnrollment_by_key _ (AuthUser.id u, courseId request)); [apply Hw|done].
  - by rewrite (transaction_Throw _ _ _ _ E).
Qed.

Lemma webhook_keeps_counters env event w :
  EnrollmentCounters (db w) ->
  (forall k e, enrollments (db w) !! k = Some e -> Enrollment.id e <> cuid env) ->
  EnrollmentCounters (db (Payments.webhook env event w).2).
Proof.
  intros Hw Hfresh.
  destruct event as [message|[paymentIntent|paymentIntent|type|]];
    [done|rewrite webhook_event; cbn [Payments.dispatch]..]; try done.
  - unfold Payments.handlePaymentSuccess, Payments.catch_and_log.
    destruct (paymentSuccessWrites_cases env paymentIntent w)
      as [(payment & course & tutor & student & Hp & He & Hc & Ht & Hs & E)|(e & w' & E)].
    + rewrite (transaction_Ok _ _ _ _ E). cbn [fst snd].
      apply (EnrollmentCounters_enrolled (db w) _ (Payments.studentId paymentIntent)
               (Payments.courseId paymentIntent) (Enrollments.newEnrollment env)
               course student (Payments.recordSale paymentIntent course)
               (Enrollments.incrementTotalCoursesEnrolled 1 student) Hw He);
        proj; try done.
    + by rewrite (transaction_Throw _ _ _ _ E).
  - destruct (handlePaymentFailure_cases env paymentIntent w)
      as (w' & E & [Same|(payment & _ & Marked)]); rewrite E; cbn [fst snd].
    + by rewrite Same.
    + rewrite Marked. by apply (EnrollmentCounters_ext (db w)).
Qed.

Lemma EnrollmentCounters_enrollment_row d k e e' :
  EnrollmentCounters d ->
  enrollments d !! k = Some e ->
  Enrollment.id e' = Enrollment.id e ->
  EnrollmentCounters (set_enrollments (<[k := e']> (enrollments d)) d).
Proof.
  intros (Hu & Hc & Hs) Hk Hid. split; [|split]; proj.
  - intros k1 k2 e1 e2.
    destruct (decide (k1 = k)) as [->|N1], (decide (k2 = k)) as [->|N2];
      rewrite ?lookup_insert_eq, ?lookup_insert_ne by done; try done.
    + intros [= <-] H2 E. rewrite Hid in E. by apply (Hu k k2 e e2).
    + intros H1 [= <-] E. rewrite Hid in E. by apply (Hu k1 k e1 e).
    + apply Hu.
  - intros c course Hcourse. rewrite (Hc c course Hcourse). unfold enrolledIn. proj.
    by rewrite (count_insert_same _ (enrollments d) k e e' Hk).
  - intros s student Hstudent. rewrite (Hs s student Hstudent). unfold enrolledBy. proj.
    by rewrite (count_insert_same _ (enrollments d) k e e' Hk).
Qed.

Lemma EnrollmentCounters_student_row d s student student' :
  EnrollmentCounters d ->
  students d !! s = Some student ->
  Student.totalCoursesEnrolled student' = Student.totalCoursesEnrolled student ->
  EnrollmentCounters (set_students (<[s := student']> (students d)) d).
Proof.
  intros (Hu & Hc & Hs) Hst He. split; [done|]. split; [done|]. proj.
  intros s0 student0. destruct (decide (s0 = s)) as [->|N].
  - rewrite lookup_insert_eq. intros [= <-]. rewrite He. by apply Hs.
  - rewrite lookup_insert_ne by done. apply Hs.
Qed.

(** A step that only computes: it returns or throws, the world as it was. *)
Lemma keeps_pure {A B} (P : DB -> Prop) (m : M A) (k : A -> M B) Q (E : DB -> Prop) :
  (forall w, (m w).2 = w) ->
  (forall d, P d -> E d) ->
  (forall a, hoare P (k a) Q E) ->
  hoare P (bind m k) Q E.
Proof.
  intros Hm HE Hk w Hw. unfold bind. specialize (Hm w).
  destruct (m w) as [[a|e] w1]; cbn in Hm; subst w1; [by apply Hk|by apply HE].
Qed.

Lemma progressUpdate_pure env body binding w :
  (Enrollments.progressUpdate env body binding w).2 = w.
Proof.
  unfold Enrollments.progressUpdate.
  destruct (truthy_bool (isCompleted body)); [|done].
  by destruct binding.
Qed.

Lemma updateProgress_keeps_counters env u request :
  hoare EnrollmentCounters (Enrollments.updateProgress env (mkCtx request (Some u)))
    (fun _ => EnrollmentCounters) EnrollmentCounters.
Proof.
  unfold Enrollments.updateProgress, req_user. proj.
  apply keeps_ret.
  apply keeps_query. intros [enrollment|]; [|by apply hoare_ret].
  apply keeps_query. intros [lesson|]; [|by apply hoare_ret].
  apply keeps_pure; [intros w; apply progressUpdate_pure|done|]. intros onUpdate.
  apply (keeps_write _ EnrollmentCounters); [done| |cbv beta].
  { intros d d' Hd E. apply on_table_inr in E as (t & _ & ->).
    by apply (EnrollmentCounters_ext d). }
  apply keeps_query. intros totalLessons.
  apply keeps_query. intros completedLessons. cbv zeta.
  apply (keeps_write _ EnrollmentCounters); [done| |cbv beta].
  { intros d d' Hd E. apply on_table_inr in E as (t & E & ->).
    apply update_inr in E as (row & Hrow & ->).
    by apply (EnrollmentCounters_enrollment_row d _ row). }
  apply (hoare_bind _ _ _ (fun _ => EnrollmentCounters)); [|intros []; by apply hoare_ret].
  destruct (Enrollments.justCompleted _ enrollment); [|by apply hoare_ret].
  apply (keeps_write _ EnrollmentCounters); [done| |cbv beta].
  { intros d d' Hd E. apply on_table_inr in E as (t & E & ->).
    apply update_inr in E as (row & Hrow & ->).
    by apply (EnrollmentCounters_student_row d _ row). }
  apply hoare_write; [done|].
  intros d d' Hd E. apply on_table_inr in E as (t & _ & ->).
  by apply (EnrollmentCounters_ext d).
Qed.

(** A reply of the enroll handler: nothing has changed, or the enrollment
    is there and the three counters are raised. *)
Lemma enroll_sent env u request w r w' :
  Enrollments.enroll env (mkCtx request (Some u)) w = (Ok r, w') ->
  w' = w
  \/ exists course student tutors',
       enrollments (db w) !! (AuthUser.id u, courseId request) = None
       /\ courses (db w) !! courseId request = Some course
       /\ students (db w) !! AuthUser.id u = Some student
       /\ db w'
          = set_students
              (<[AuthUser.id u := Enrollments.incrementTotalCoursesEnrolled 1 student]>
                 (students (db w)))
              (set_tutors tutors'
                 (set_courses
                    (<[courseId request := Enrollments.incrementTotalEnrollments 1 course]>
                       (courses (db w)))
                    (set_enrollments
                       (<[(AuthUser.id u, courseId request) := Enrollments.newEnrollment env]>
                          (enrollments (db w)))
                       (db w)))).
Proof.
  intros H. unfold Enrollments.enroll, req_user in H. proj.
  rewrite bind_ret, bind_query in H. proj.
  destruct (Enrollments.findPublishedCourse (db w) (courseId request)) as [course|];
    [|injection H as <- <-; by left].
  rewrite bind_query in H. proj.
  destruct (enrollments (db w) !! _) as [existing|] eqn:He;
    [injection H as <- <-; by left|].
  destruct (Qeq_bool (Course.price course) 0); [|injection H as <- <-; by left].
  write_inv H d1 E1. apply create_inr in E1 as (_ & ->).
  write_inv H d2 E2. apply update_inr in E2 as (course' & Hc' & ->).
  write_inv H d3 E3.
  write_inv H d4 E4. apply update_inr in E4 as (student & Hs & ->).
  injection H as <- <-. right. exists course', student. eexists.
  repeat split; try done.
Qed.

(** X24.  The enrollment counters.  Suppose that a course's
    totalEnrollments is the number of its enrollments, a student's
    totalCoursesEnrolled the number of theirs, and enrollment ids are
    unique.  Then this is still so after any request to the unenroll
    route or the progress route and after any event at the payment
    webhook, whichever writes fail, and after every request that the
    enroll route answers with a reply.  (The id the next enrollment gets
    is a new one.) *)
Theorem enrollment_counters_kept env request event w :
  EnrollmentCounters (db w) ->
  (forall k e, enrollments (db w) !! k = Some e -> Enrollment.id e <> cuid env) ->
  EnrollmentCounters (db_after (Enrollments.deleteUnenroll env) request w)
  /\ EnrollmentCounters (db_after (Enrollments.putProgress env) request w)
  /\ EnrollmentCounters (db (Payments.webhook env event w).2)
  /\ (forall r w',
        run_route (Enrollments.postEnroll env) request w = (Sent r, w') ->
        EnrollmentCounters (db w')).
Proof.
  intros Hw Hfresh. split; [|split; [|split]].
  - apply (hoare_route env [isStudent] Enrollments.unenroll request w EnrollmentCounters);
      [|intros u; apply unenroll_keeps_counters|done].
    repeat constructor. apply isStudent_checks.
  - apply (hoare_route env [isStudent] (Enrollments.updateProgress env) request w
             EnrollmentCounters);
      [|intros u; apply updateProgress_keeps_counters|done].
    repeat constructor. apply isStudent_checks.
  - by apply webhook_keeps_counters.
  - intros r w' R.
    apply guarded_route_sent in R as [[-> _]|[u R]];
      [done| |repeat constructor; apply isStudent_checks].
    apply enroll_sent in R as [->|(course & student & tutors' & He & Hc & Hs & ->)]; [done|].
    apply (EnrollmentCounters_enrolled (db w) _ (AuthUser.id u) (courseId request)
             (Enrollments.newEnrollment env) course student
             (Enrollments.incrementTotalEnrollments 1 course)
             (Enrollments.incrementTotalCoursesEnrolled 1 student) Hw He);
      proj; try done.
Qed.

Lemma enrollment_counters_kept_witness :
  EnrollmentCounters
    (db_after (Enrollments.deleteUnenroll Demo.env)
       (Demo.request "token-jane" "js" "" Demo.watched)
       (mkWorld (set_courses {["js" := Demo.course (9999 # 100) true]} (Demo.database false))
          [])).
Proof.
  refine (proj1 (enrollment_counters_kept Demo.env
                   (Demo.request "token-jane" "js" "" Demo.watched) (inl "")
                   (mkWorld (set_courses {["js" := Demo.course (9999 # 100) true]}
                               (Demo.database false)) []) _ _)).
  - split; [|split].
    + intros k k' e e' Hk Hk'. unfold Demo.database in Hk, Hk'. cbn [db enrollments set_courses] in Hk, Hk'.
      apply lookup_singleton_Some in Hk as [<- _].
      by apply lookup_singleton_Some in Hk' as [<- _].
    + intros c course Hc. cbn [db courses set_courses] in Hc.
      apply lookup_singleton_Some in Hc as [<- <-]. vm_compute. reflexivity.
    + intros s student Hs. unfold Demo.database in Hs. cbn [db students set_courses] in Hs.
      apply lookup_singleton_Some in Hs as [<- <-]. vm_compute. reflexivity.
  - intros k e Hk. unfold Demo.database in Hk. cbn [db enrollments set_courses] in Hk.
    apply lookup_singleton_Some in Hk as [_ <-]. discriminate.
Defined.

(** ** Routes that only read *)

Lemma route_reads_only env checks h request w :
  Forall Checks checks ->
  (forall ctx w0, (h ctx w0).2 = w0) ->
  (run_route (mkRoute (auth env :: checks) h) request w).2 = w.
Proof.
  intros Hc Hh. unfold run_route. cbn [middlewares handler run_middlewares]. unfold bind.
  destruct (auth env (mkCtx request None) w) as [[[r|ctx']|e] w1] eqn:Ea.
  - by apply auth_reads_only in Ea as ->.
  - apply auth_reads_only in Ea as ->.
    destruct (run_middlewares checks h ctx' w) as [o w2] eqn:Er.
    destruct (run_checks _ _ _ _ _ _ Hc Er) as [(-> & _)|Eh].
    + by destruct o.
    + specialize (Hh ctx' w). rewrite Eh in Hh. cbn in Hh. subst w2. by destruct o.
  - by apply auth_never_throws in Ea.
Qed.

(** X25.  The routes that list enrollments, show one enrollment and show
    the profile only read: whatever the request and whatever they reply,
    the world after it is the world before it. *)
Theorem read_routes_change_nothing env request w :
  (run_route (Enrollments.getList env) request w).2 = w
  /\ (run_route (Enrollments.getOne env) request w).2 = w
  /\ (run_route (AuthRoutes.getMe env) request w).2 = w.
Proof.
  split; [|split]; apply route_reads_only;
    try (repeat constructor; apply isStudent_checks).
  - intros ctx w0. unfold Enrollments.listEnrollments, req_user.
    destruct (user ctx); [rewrite bind_ret|done].
    by destruct (_ <? 0)%Z.
  - intros ctx w0. unfold Enrollments.getEnrollment, req_user.
    destruct (user ctx); [rewrite bind_ret, bind_query|done].
    by destruct (enrollments _ !! _).
  - intros ctx w0. unfold AuthRoutes.me, req_user.
    destruct (user ctx); [rewrite bind_ret, bind_query|done].
    by destruct (AuthRoutes.findUserWithProfiles _ _).
Qed.
